(** * EV ingestion engine: dual-store write path and analytics

    A shallow embedding of the telemetry service
    (src/modules/telemetry/services/telemetry.service.ts) and of the
    analytics service (analytics.service.ts) over an explicit model of the
    five PostgreSQL tables they read and write.

    Conventions of the embedding.
    - Decimal columns are fixed-point integers at the scale of the column:
      decimal(_,4) kWh values count units of 0.0001 kWh, decimal(_,2)
      values (voltage, soc, batteryTemp) count units of 0.01.  Readings are
      taken to arrive at that scale, so no rounding happens on a write.
    - A timestamptz is the number of milliseconds since the epoch.
    - Every awaited call on a repository, on the data source or on a query
      runner is one atomic storage call.  A storage call may throw: the
      world carries the outcomes of the calls still to come. *)

From Stdlib Require Import ZArith QArith Qround List String Bool Lia.
From stdpp Require Import base option strings list gmap.

Open Scope Z_scope.

(** ** Entities and DTOs *)

Inductive TelemetryType := METER | VEHICLE.

Module MeterTelemetryDto.
Record t := mk {
  meterId : string;
  kwhConsumedAc : Z;
  voltage : Z;
  timestamp : Z }.
End MeterTelemetryDto.

Module VehicleTelemetryDto.
Record t := mk {
  vehicleId : string;
  soc : Z;
  kwhDeliveredDc : Z;
  batteryTemp : Z;
  timestamp : Z }.
End VehicleTelemetryDto.

(** The polymorphic DTO declares every stream field optional; the batch
    endpoint hands its readings to the service without nested validation,
    so a field can really be absent there. *)
Module PolymorphicTelemetryDto.
Record t := mk {
  type : option TelemetryType;
  meterId : option string;
  kwhConsumedAc : option Z;
  voltage : option Z;
  vehicleId : option string;
  soc : option Z;
  kwhDeliveredDc : option Z;
  batteryTemp : option Z;
  timestamp : option Z }.
End PolymorphicTelemetryDto.

Module MeterTelemetryHistory.
Record t := mk {
  id : nat;
  meterId : string;
  kwhConsumedAc : Z;
  voltage : Z;
  timestamp : Z;
  ingestedAt : Z;
  vehicleId : option string }.
End MeterTelemetryHistory.

Module VehicleTelemetryHistory.
Record t := mk {
  id : nat;
  vehicleId : string;
  soc : Z;
  kwhDeliveredDc : Z;
  batteryTemp : Z;
  timestamp : Z;
  ingestedAt : Z;
  meterId : option string }.
End VehicleTelemetryHistory.

Inductive MeterStatusEnum := online | offline | error.

Inductive ChargingState := charging | idle | discharging | cs_offline | cs_error.

Module MeterCurrentStatus.
Record t := mk {
  meterId : string;
  kwhConsumedAc : Z;
  voltage : Z;
  lastReadingAt : Z;
  dailyKwhConsumedAc : Z;
  vehicleId : option string;
  status : MeterStatusEnum;
  createdAt : Z;
  updatedAt : Z }.
End MeterCurrentStatus.

Module VehicleCurrentStatus.
Record t := mk {
  vehicleId : string;
  soc : Z;
  kwhDeliveredDc : Z;
  batteryTemp : Z;
  lastReadingAt : Z;
  dailyKwhDeliveredDc : Z;
  meterId : option string;
  chargingState : ChargingState;
  batteryTempWarning : bool;
  createdAt : Z;
  updatedAt : Z }.
End VehicleCurrentStatus.

Module DeviceMapping.
Record t := mk {
  meterId : string;
  vehicleId : string;
  isActive : bool;
  createdAt : Z;
  updatedAt : Z }.
End DeviceMapping.

(** ** The database

    History tables and the mapping table are lists in insertion order (a
    history id is the row's insertion rank); the two status tables are
    keyed by their primary key. *)

Record DB := mkDB {
  meter_telemetry_history : list MeterTelemetryHistory.t;
  vehicle_telemetry_history : list VehicleTelemetryHistory.t;
  meter_current_status : gmap string MeterCurrentStatus.t;
  vehicle_current_status : gmap string VehicleCurrentStatus.t;
  device_mapping : list DeviceMapping.t }.

Definition emptyDB : DB := mkDB [] [] ∅ ∅ [].

(** ** Storage calls that may throw *)

Inductive Error := QueryFailedError (message : string).

Definition message (e : Error) : string :=
  match e with QueryFailedError m => m end.

(** [faults] lists what the coming storage calls do, one entry per call:
    [None] lets the call run, [Some msg] makes it throw with that message
    and leaves the tables as they were.  Calls beyond the list run. *)
Record World := mkWorld {
  db : DB;
  faults : list (option string);
  now : Z }.

Definition M (A : Type) : Type := World -> (Error + A) * World.

Definition ret {A} (a : A) : M A := fun w => (inr a, w).

Definition throw {A} (e : Error) : M A := fun w => (inl e, w).

Definition bind {A B} (m : M A) (k : A -> M B) : M B := fun w =>
  match m w with
  | (inl e, w') => (inl e, w')
  | (inr a, w') => k a w'
  end.

Definition try_catch {A} (m : M A) (h : Error -> M A) : M A := fun w =>
  match m w with
  | (inl e, w') => h e w'
  | (inr a, w') => (inr a, w')
  end.

(** [await x <- call; rest] is [const x = await call; rest]. *)
Notation "'await' x <- call ; rest" := (bind call (fun x => rest))
  (at level 60, x name, call at next level, right associativity).

Definition storage {A} (op : Z -> DB -> (Error + A) * DB) : M A := fun w =>
  match faults w with
  | Some msg :: fs => (inl (QueryFailedError msg), mkWorld (db w) fs (now w))
  | None :: fs =>
      let '(r, d) := op (now w) (db w) in (r, mkWorld d fs (now w))
  | [] =>
      let '(r, d) := op (now w) (db w) in (r, mkWorld d [] (now w))
  end.

Definition query {A} (f : DB -> A) : M A :=
  storage (fun _ d => (inr (f d), d)).

Definition statement (f : Z -> DB -> DB) : M unit :=
  storage (fun t d => (inr tt, f t d)).

(** ** SQL helpers *)

(** DATE(ts) of a timestamptz, for a session in UTC: the day number. *)
Definition DATE (ts : Z) : Z := ts / 86400000.

Definition COALESCE {A} (a b : option A) : option A :=
  match a with Some _ => a | None => b end.

Definition GREATEST (a b : Z) : Z := Z.max a b.

(** ORDER BY timestamp DESC on the meter history.  Rows with equal
    timestamps keep the later insertion first. *)
Fixpoint insertDesc (r : MeterTelemetryHistory.t) (l : list MeterTelemetryHistory.t)
  : list MeterTelemetryHistory.t :=
  match l with
  | [] => [r]
  | x :: l' =>
      if MeterTelemetryHistory.timestamp x <=? MeterTelemetryHistory.timestamp r
      then r :: l
      else x :: insertDesc r l'
  end.

Definition orderByTimestampDesc (l : list MeterTelemetryHistory.t)
  : list MeterTelemetryHistory.t :=
  fold_left (fun acc r => insertDesc r acc) l [].

(** SELECT "kwhConsumedAc" FROM meter_telemetry_history WHERE "meterId" = $1
    ORDER BY timestamp DESC LIMIT 1 OFFSET 1 *)
Definition previousKwhConsumedAc (d : DB) (meterId : string) : option Z :=
  MeterTelemetryHistory.kwhConsumedAc <$>
    (orderByTimestampDesc
       (List.filter (fun r => String.eqb (MeterTelemetryHistory.meterId r) meterId)
                    (meter_telemetry_history d)) !! 1%nat).

(** JavaScript's [a || null] on a string that may be undefined: the empty
    string is falsy. *)
Definition orNull (a : option string) : option string :=
  match a with
  | Some s => if String.eqb s "" then None else Some s
  | None => None
  end.

(** ** TelemetryService *)

Definition BATTERY_TEMP_WARNING : Z := 4500.
Definition BATTERY_TEMP_CRITICAL : Z := 5500.

(** deviceMappingRepo.findOne({ where: { meterId, isActive: true } }): the
    first such row in storage order. *)
Definition findActiveByMeter (meterId : string) (d : DB) : option DeviceMapping.t :=
  List.find (fun r => String.eqb (DeviceMapping.meterId r) meterId && DeviceMapping.isActive r)
            (device_mapping d).

Definition findActiveByVehicle (vehicleId : string) (d : DB) : option DeviceMapping.t :=
  List.find (fun r => String.eqb (DeviceMapping.vehicleId r) vehicleId && DeviceMapping.isActive r)
            (device_mapping d).

Definition insertMeterHistory (dto : MeterTelemetryDto.t) (timestamp : Z)
    (vehicleId : option string) (t : Z) (d : DB) : DB :=
  mkDB (meter_telemetry_history d ++
          [MeterTelemetryHistory.mk (length (meter_telemetry_history d))
             (MeterTelemetryDto.meterId dto) (MeterTelemetryDto.kwhConsumedAc dto)
             (MeterTelemetryDto.voltage dto) timestamp t vehicleId])
       (vehicle_telemetry_history d) (meter_current_status d)
       (vehicle_current_status d) (device_mapping d).

Definition insertVehicleHistory (dto : VehicleTelemetryDto.t) (timestamp : Z)
    (meterId : option string) (t : Z) (d : DB) : DB :=
  mkDB (meter_telemetry_history d)
       (vehicle_telemetry_history d ++
          [VehicleTelemetryHistory.mk (length (vehicle_telemetry_history d))
             (VehicleTelemetryDto.vehicleId dto) (VehicleTelemetryDto.soc dto)
             (VehicleTelemetryDto.kwhDeliveredDc dto) (VehicleTelemetryDto.batteryTemp dto)
             timestamp t meterId])
       (meter_current_status d) (vehicle_current_status d) (device_mapping d).

(** The row that INSERT ... ON CONFLICT ("meterId") DO UPDATE leaves for the
    meter: the VALUES row when there is none yet, the SET list otherwise. *)
Definition meterStatusRow (d : DB) (dto : MeterTelemetryDto.t) (timestamp : Z)
    (vehicleId : option string) (t : Z) : MeterCurrentStatus.t :=
  let p1 := MeterTelemetryDto.meterId dto in
  let p2 := MeterTelemetryDto.kwhConsumedAc dto in
  let p3 := MeterTelemetryDto.voltage dto in
  match meter_current_status d !! p1 with
  | None => MeterCurrentStatus.mk p1 p2 p3 timestamp p2 vehicleId online t t
  | Some old =>
      MeterCurrentStatus.mk p1 p2 p3 timestamp
        (MeterCurrentStatus.dailyKwhConsumedAc old +
           (if DATE (MeterCurrentStatus.lastReadingAt old) <? DATE timestamp
            then p2
            else p2 - default p2 (previousKwhConsumedAc d p1)))
        (COALESCE vehicleId (MeterCurrentStatus.vehicleId old))
        online
        (MeterCurrentStatus.createdAt old) t
  end.

Definition upsertMeterStatus (dto : MeterTelemetryDto.t) (timestamp : Z)
    (vehicleId : option string) : M unit :=
  statement (fun t d =>
    mkDB (meter_telemetry_history d) (vehicle_telemetry_history d)
         (<[MeterTelemetryDto.meterId dto := meterStatusRow d dto timestamp vehicleId t]>
            (meter_current_status d))
         (vehicle_current_status d) (device_mapping d)).

Definition ingestMeterTelemetry (dto : MeterTelemetryDto.t) : M unit :=
  let timestamp := MeterTelemetryDto.timestamp dto in
  await mapping <- query (findActiveByMeter (MeterTelemetryDto.meterId dto));
  await _ <- statement
            (insertMeterHistory dto timestamp (orNull (DeviceMapping.vehicleId <$> mapping)));
  upsertMeterStatus dto timestamp (DeviceMapping.vehicleId <$> mapping).

Definition vehicleStatusRow (d : DB) (dto : VehicleTelemetryDto.t) (timestamp : Z)
    (meterId : option string) (chargingState : ChargingState)
    (batteryTempWarning : bool) (t : Z) : VehicleCurrentStatus.t :=
  let p1 := VehicleTelemetryDto.vehicleId dto in
  let p2 := VehicleTelemetryDto.soc dto in
  let p3 := VehicleTelemetryDto.kwhDeliveredDc dto in
  let p4 := VehicleTelemetryDto.batteryTemp dto in
  match vehicle_current_status d !! p1 with
  | None =>
      VehicleCurrentStatus.mk p1 p2 p3 p4 timestamp p3 meterId
        chargingState batteryTempWarning t t
  | Some old =>
      VehicleCurrentStatus.mk p1 p2 p3 p4 timestamp
        (VehicleCurrentStatus.dailyKwhDeliveredDc old +
           (if DATE (VehicleCurrentStatus.lastReadingAt old) <? DATE timestamp
            then p3
            else GREATEST 0 (p3 - default 0 (Some (VehicleCurrentStatus.kwhDeliveredDc old)))))
        (COALESCE meterId (VehicleCurrentStatus.meterId old))
        chargingState batteryTempWarning
        (VehicleCurrentStatus.createdAt old) t
  end.

Definition upsertVehicleStatus (dto : VehicleTelemetryDto.t) (timestamp : Z)
    (meterId : option string) : M unit :=
  let chargingState :=
    if 0 <? VehicleTelemetryDto.kwhDeliveredDc dto then charging else idle in
  let batteryTempWarning :=
    BATTERY_TEMP_WARNING <=? VehicleTelemetryDto.batteryTemp dto in
  statement (fun t d =>
    mkDB (meter_telemetry_history d) (vehicle_telemetry_history d)
         (meter_current_status d)
         (<[VehicleTelemetryDto.vehicleId dto :=
              vehicleStatusRow d dto timestamp meterId chargingState batteryTempWarning t]>
            (vehicle_current_status d))
         (device_mapping d)).

Definition ingestVehicleTelemetry (dto : VehicleTelemetryDto.t) : M unit :=
  let timestamp := VehicleTelemetryDto.timestamp dto in
  await mapping <- query (findActiveByVehicle (VehicleTelemetryDto.vehicleId dto));
  await _ <- statement
            (insertVehicleHistory dto timestamp (orNull (DeviceMapping.meterId <$> mapping)));
  upsertVehicleStatus dto timestamp (DeviceMapping.meterId <$> mapping).

(** The result of [ingestPolymorphic]: { success, type, id }. *)
Record IngestResult := mkIngestResult {
  ir_success : bool;
  ir_type : string;
  ir_id : string }.

(** What PostgreSQL answers when a NOT NULL column of the history row is
    missing.  The non-null assertions ([dto.meterId!]) are erased at run
    time, so an absent field travels as undefined to the repository: the
    mapping lookup still runs, and the INSERT is the first write, which the
    NOT NULL constraints of the history table reject. *)
Definition notNullViolation : Error :=
  QueryFailedError "null value violates not-null constraint".

Definition rejectedIngest {A} : M A :=
  await _ <- query (fun _ => tt);
  storage (fun _ d => (inl notNullViolation, d)).

Definition ingestPolymorphic (dto : PolymorphicTelemetryDto.t) : M IngestResult :=
  match PolymorphicTelemetryDto.type dto with
  | Some METER =>
      match PolymorphicTelemetryDto.meterId dto,
            PolymorphicTelemetryDto.kwhConsumedAc dto,
            PolymorphicTelemetryDto.voltage dto,
            PolymorphicTelemetryDto.timestamp dto with
      | Some m, Some k, Some v, Some ts =>
          await _ <- ingestMeterTelemetry (MeterTelemetryDto.mk m k v ts);
          ret (mkIngestResult true "meter" m)
      | _, _, _, _ => rejectedIngest
      end
  | _ =>
      match PolymorphicTelemetryDto.vehicleId dto,
            PolymorphicTelemetryDto.soc dto,
            PolymorphicTelemetryDto.kwhDeliveredDc dto,
            PolymorphicTelemetryDto.batteryTemp dto,
            PolymorphicTelemetryDto.timestamp dto with
      | Some vid, Some s, Some k, Some bt, Some ts =>
          await _ <- ingestVehicleTelemetry (VehicleTelemetryDto.mk vid s k bt ts);
          ret (mkIngestResult true "vehicle" vid)
      | _, _, _, _, _ => rejectedIngest
      end
  end.

(** The text of a template literal for values that may be undefined. *)
Definition typeText (t : option TelemetryType) : string :=
  match t with
  | Some METER => "meter"
  | Some VEHICLE => "vehicle"
  | None => "undefined"
  end.

Definition idText (dto : PolymorphicTelemetryDto.t) : string :=
  match orNull (PolymorphicTelemetryDto.meterId dto) with
  | Some m => m
  | None => default "undefined" (PolymorphicTelemetryDto.vehicleId dto)
  end.

Definition failureReason (reading : PolymorphicTelemetryDto.t) (e : Error) : string :=
  typeText (PolymorphicTelemetryDto.type reading) +:+ ":" +:+ idText reading
    +:+ ": " +:+ message e.

Record BatchResult := mkBatchResult {
  success : nat;
  failed : nat;
  errors : list string }.

(** The [for ... of] loop of [ingestBatch] with its inner try/catch; the
    three mutable locals are the accumulator. *)
Fixpoint ingestBatchLoop (readings : list PolymorphicTelemetryDto.t)
    (acc : BatchResult) : M BatchResult :=
  match readings with
  | [] => ret acc
  | reading :: rest =>
      await acc' <-
        try_catch
          (await _ <- ingestPolymorphic reading;
           ret (mkBatchResult (S (success acc)) (failed acc) (errors acc)))
          (fun e =>
           ret (mkBatchResult (success acc) (S (failed acc))
                  (errors acc ++ [failureReason reading e])));
      ingestBatchLoop rest acc'
  end.

(** The query runner obtained from [dataSource.createQueryRunner()] holds a
    connection of its own.  The repositories and [dataSource.query] used by
    the ingestion methods are not bound to it: each of their calls runs on
    a pooled connection and commits by itself.  The runner's transaction
    therefore contains no statement; committing it or rolling it back is a
    round trip that changes no table. *)
Definition queryRunner_connect : M unit := statement (fun _ d => d).
Definition queryRunner_startTransaction : M unit := statement (fun _ d => d).
Definition queryRunner_commitTransaction : M unit := statement (fun _ d => d).
Definition queryRunner_rollbackTransaction : M unit := statement (fun _ d => d).
(** [release] hands the connection back to the pool. *)
Definition queryRunner_release : M unit := ret tt.

Definition finally {A} (m : M A) (f : M unit) : M A := fun w =>
  let '(r, w') := m w in
  match f w' with
  | (inl e, w'') => (inl e, w'')
  | (inr _, w'') => (r, w'')
  end.

Definition ingestBatch (readings : list PolymorphicTelemetryDto.t) : M BatchResult :=
  await _ <- queryRunner_connect;
  await _ <- queryRunner_startTransaction;
  finally
    (try_catch
       (await r <- ingestBatchLoop readings (mkBatchResult 0 0 []);
        await _ <- queryRunner_commitTransaction;
        ret r)
       (fun e =>
        await _ <- queryRunner_rollbackTransaction;
        throw e))
    queryRunner_release.

(** The rows of device_mapping with the primary key (meterId, vehicleId). *)
Definition samePair (meterId vehicleId : string) (r : DeviceMapping.t) : bool :=
  String.eqb (DeviceMapping.meterId r) meterId
  && String.eqb (DeviceMapping.vehicleId r) vehicleId.

(** deviceMappingRepo.upsert({ meterId, vehicleId, isActive: true },
    ['meterId', 'vehicleId']) *)
Definition upsertMapping (meterId vehicleId : string) (t : Z) (d : DB) : DB :=
  mkDB (meter_telemetry_history d) (vehicle_telemetry_history d)
       (meter_current_status d) (vehicle_current_status d)
       (if existsb (samePair meterId vehicleId) (device_mapping d)
        then map (fun r =>
                    if samePair meterId vehicleId r
                    then DeviceMapping.mk (DeviceMapping.meterId r) (DeviceMapping.vehicleId r)
                           true (DeviceMapping.createdAt r) t
                    else r) (device_mapping d)
        else device_mapping d ++ [DeviceMapping.mk meterId vehicleId true t t]).

(** meterStatusRepo.update({ meterId }, { vehicleId }) *)
Definition updateMeterPeer (meterId vehicleId : string) (t : Z) (d : DB) : DB :=
  mkDB (meter_telemetry_history d) (vehicle_telemetry_history d)
       (alter (fun r =>
                 MeterCurrentStatus.mk (MeterCurrentStatus.meterId r)
                   (MeterCurrentStatus.kwhConsumedAc r) (MeterCurrentStatus.voltage r)
                   (MeterCurrentStatus.lastReadingAt r)
                   (MeterCurrentStatus.dailyKwhConsumedAc r) (Some vehicleId)
                   (MeterCurrentStatus.status r) (MeterCurrentStatus.createdAt r) t)
              meterId (meter_current_status d))
       (vehicle_current_status d) (device_mapping d).

(** vehicleStatusRepo.update({ vehicleId }, { meterId }) *)
Definition updateVehiclePeer (vehicleId meterId : string) (t : Z) (d : DB) : DB :=
  mkDB (meter_telemetry_history d) (vehicle_telemetry_history d)
       (meter_current_status d)
       (alter (fun r =>
                 VehicleCurrentStatus.mk (VehicleCurrentStatus.vehicleId r)
                   (VehicleCurrentStatus.soc r) (VehicleCurrentStatus.kwhDeliveredDc r)
                   (VehicleCurrentStatus.batteryTemp r) (VehicleCurrentStatus.lastReadingAt r)
                   (VehicleCurrentStatus.dailyKwhDeliveredDc r) (Some meterId)
                   (VehicleCurrentStatus.chargingState r)
                   (VehicleCurrentStatus.batteryTempWarning r)
                   (VehicleCurrentStatus.createdAt r) t)
              vehicleId (vehicle_current_status d))
       (device_mapping d).

Definition setDeviceMapping (meterId vehicleId : string) : M unit :=
  await _ <- statement (upsertMapping meterId vehicleId);
  await _ <- statement (updateMeterPeer meterId vehicleId);
  statement (updateVehiclePeer vehicleId meterId).

(** deviceMappingRepo.update({ meterId, vehicleId }, { isActive: false }) *)
Definition deactivateRows (meterId vehicleId : string) (t : Z) (d : DB) : DB :=
  mkDB (meter_telemetry_history d) (vehicle_telemetry_history d)
       (meter_current_status d) (vehicle_current_status d)
       (map (fun r =>
               if samePair meterId vehicleId r
               then DeviceMapping.mk (DeviceMapping.meterId r) (DeviceMapping.vehicleId r)
                      false (DeviceMapping.createdAt r) t
               else r) (device_mapping d)).

Definition deactivateMapping (meterId vehicleId : string) : M unit :=
  statement (deactivateRows meterId vehicleId).

(** ** AnalyticsService

    The analytics methods only read.  They are evaluated on one snapshot of
    the tables; [now] is the value of [new Date()].  Numbers that the
    service handles as JavaScript numbers (parsed sums, ratios, thresholds)
    are exact rationals here, so the rounding of binary floating point and
    of PostgreSQL's numeric division is not part of the model. *)

Record AnalyticsConfig := mkAnalyticsConfig {
  efficiencyWarningThreshold : Q;
  efficiencyCriticalThreshold : Q }.

(** The defaults of EFFICIENCY_WARNING_THRESHOLD and
    EFFICIENCY_CRITICAL_THRESHOLD. *)
Definition defaultConfig : AnalyticsConfig := mkAnalyticsConfig (85 # 100) (75 # 100).

(** parseFloat of a decimal(_,4) and of a decimal(_,2) value. *)
Definition kwhQ (z : Z) : Q := z # 10000.
Definition centiQ (z : Z) : Q := z # 100.

(** Math.round(x * n) / n; Math.round takes ties upwards. *)
Definition roundTo (n : positive) (x : Q) : Q :=
  Qfloor (x * (Zpos n # 1) + (1 # 2)) # n.

Definition Qltb (a b : Q) : bool := negb (Qle_bool b a).

Definition inWindow (periodStart periodEnd ts : Z) : bool :=
  (periodStart <=? ts) && (ts <=? periodEnd).

Definition sumZ (l : list Z) : Z := fold_right Z.add 0 l.

Definition maxZ (l : list Z) : Z :=
  match l with [] => 0 | x :: l' => fold_left Z.max l' x end.

Definition minZ (l : list Z) : Z :=
  match l with [] => 0 | x :: l' => fold_left Z.min l' x end.

Inductive EfficiencyStatus := excellent | good | warning | critical.

(** The clauses of the warning text, in the order they are concatenated
    (". " between them); no clause stands for an undefined warning. *)
Inductive WarningClause :=
  | PossibleHardwareInefficiency (percent : Q)
  | LikelyHardwareFault (percent : Q)
  | CriticalBatteryTemperature (celsius : Q)
  | ElevatedBatteryTemperature (celsius : Q).

Module PerformanceAnalyticsResponseDto.
Record t := mk {
  vehicleId : string;
  periodStart : Z;
  periodEnd : Z;
  totalKwhConsumedAc : Q;
  totalKwhDeliveredDc : Q;
  efficiencyRatio : Q;
  efficiencyStatus : EfficiencyStatus;
  avgBatteryTemp : Q;
  maxBatteryTemp : Q;
  minBatteryTemp : Q;
  warning : list WarningClause;
  readingsCount : nat;
  meterId : option string }.
End PerformanceAnalyticsResponseDto.

Inductive HttpException := NotFoundException (vehicleId : string) (hours : Z).

(** The rows of the vehicle history selected by
    WHERE "vehicleId" = $1 AND timestamp >= $2 AND timestamp <= $3. *)
Definition vehicleRows (d : DB) (vehicleId : string) (periodStart periodEnd : Z)
  : list VehicleTelemetryHistory.t :=
  List.filter (fun r =>
      String.eqb (VehicleTelemetryHistory.vehicleId r) vehicleId
      && inWindow periodStart periodEnd (VehicleTelemetryHistory.timestamp r))
    (vehicle_telemetry_history d).

(** COALESCE(SUM("kwhConsumedAc"), 0) of the meter history by meter id. *)
Definition consumedByMeter (d : DB) (meterId : string) (periodStart periodEnd : Z) : Z :=
  sumZ (map MeterTelemetryHistory.kwhConsumedAc
     (List.filter (fun r =>
          String.eqb (MeterTelemetryHistory.meterId r) meterId
          && inWindow periodStart periodEnd (MeterTelemetryHistory.timestamp r))
        (meter_telemetry_history d))).

(** The same sum over the rows tagged with the vehicle ("vehicleId" = $1; a
    NULL tag matches nothing). *)
Definition consumedByVehicleTag (d : DB) (vehicleId : string) (periodStart periodEnd : Z) : Z :=
  sumZ (map MeterTelemetryHistory.kwhConsumedAc
     (List.filter (fun r =>
          match MeterTelemetryHistory.vehicleId r with
          | Some v => String.eqb v vehicleId
          | None => false
          end
          && inWindow periodStart periodEnd (MeterTelemetryHistory.timestamp r))
        (meter_telemetry_history d))).

(** The meter the report is correlated with: the one supplied, or else the
    active mapping of the vehicle ([if (!meterId) ...]). *)
Definition resolveMeterId (d : DB) (vehicleId : string) (meterId : option string)
  : option string :=
  match orNull meterId with
  | Some m => Some m
  | None => DeviceMapping.meterId <$> findActiveByVehicle vehicleId d
  end.

(** The consumed sum of the window ([if (meterId) ... else ...]), in units
    of 0.0001 kWh. *)
Definition consumedSum (d : DB) (vehicleId : string) (meterId : option string)
    (periodStart periodEnd : Z) : Z :=
  match orNull meterId with
  | Some m => consumedByMeter d m periodStart periodEnd
  | None => consumedByVehicleTag d vehicleId periodStart periodEnd
  end.

Definition deliveredSum (rows : list VehicleTelemetryHistory.t) : Z :=
  sumZ (map VehicleTelemetryHistory.kwhDeliveredDc rows).

Definition getPerformance (cfg : AnalyticsConfig) (d : DB) (now : Z)
    (vehicleId : string) (hours : Z) (meterId : option string)
  : HttpException + PerformanceAnalyticsResponseDto.t :=
  let periodEnd := now in
  let periodStart := periodEnd - hours * 60 * 60 * 1000 in
  let meterId := resolveMeterId d vehicleId meterId in
  let rows := vehicleRows d vehicleId periodStart periodEnd in
  if Nat.eqb (length rows) 0 then inl (NotFoundException vehicleId hours)
  else
    let totalKwhConsumedAc :=
      kwhQ (consumedSum d vehicleId meterId periodStart periodEnd) in
    let temps := map VehicleTelemetryHistory.batteryTemp rows in
    let totalKwhDeliveredDc := kwhQ (deliveredSum rows) in
    let avgBatteryTemp := (centiQ (sumZ temps) / (Z.of_nat (length rows) # 1))%Q in
    let maxBatteryTemp := centiQ (maxZ temps) in
    let minBatteryTemp := centiQ (minZ temps) in
    let readingsCount := length rows in
    let '(totalKwhConsumedAc, efficiencyRatio) :=
      if Qltb 0 totalKwhConsumedAc
      then (totalKwhConsumedAc, (totalKwhDeliveredDc / totalKwhConsumedAc)%Q)
      else if Qltb 0 totalKwhDeliveredDc
      then ((totalKwhDeliveredDc / (9 # 10))%Q, 9 # 10)
      else (totalKwhConsumedAc, 0%Q) in
    let '(efficiencyStatus, efficiencyWarning) :=
      if Qle_bool (92 # 100) efficiencyRatio then (excellent, [])
      else if Qle_bool (efficiencyWarningThreshold cfg) efficiencyRatio then (good, [])
      else if Qle_bool (efficiencyCriticalThreshold cfg) efficiencyRatio
      then (warning,
            [PossibleHardwareInefficiency (efficiencyWarningThreshold cfg * 100)%Q])
      else (critical,
            [LikelyHardwareFault (efficiencyCriticalThreshold cfg * 100)%Q]) in
    let warningText :=
      if Qltb 55 maxBatteryTemp
      then efficiencyWarning ++ [CriticalBatteryTemperature maxBatteryTemp]
      else if Qltb 45 maxBatteryTemp
      then efficiencyWarning ++ [ElevatedBatteryTemperature maxBatteryTemp]
      else efficiencyWarning in
    inr (PerformanceAnalyticsResponseDto.mk vehicleId periodStart periodEnd
           (roundTo 10000 totalKwhConsumedAc)
           (roundTo 10000 totalKwhDeliveredDc)
           (roundTo 10000 efficiencyRatio)
           efficiencyStatus
           (roundTo 100 avgBatteryTemp)
           (roundTo 100 maxBatteryTemp)
           (roundTo 100 minBatteryTemp)
           warningText readingsCount meterId).

(** *** Fleet summary *)

Module FleetEfficiencyDto.
Record t := mk {
  totalVehicles : nat;
  avgEfficiencyRatio : Q;
  vehiclesWithWarnings : nat;
  vehiclesCritical : nat;
  totalKwhConsumedAc : Q;
  totalKwhDeliveredDc : Q;
  totalEnergyLoss : Q }.
End FleetEfficiencyDto.

(** A row of the per-vehicle breakdown query. *)
Record BreakdownRow := mkBreakdownRow {
  br_vehicleId : string;
  br_totalDc : Z;
  br_totalAc : Z;
  br_ratio : Q }.

(** The distinct values of a column, in order of first appearance. *)
Fixpoint distinct (l : list string) : list string :=
  match l with
  | [] => []
  | x :: l' => x :: List.filter (fun y => negb (String.eqb y x)) (distinct l')
  end.

Definition vehicleRowsInWindow (d : DB) (periodStart periodEnd : Z)
  : list VehicleTelemetryHistory.t :=
  List.filter (fun r => inWindow periodStart periodEnd (VehicleTelemetryHistory.timestamp r))
    (vehicle_telemetry_history d).

Definition meterRowsInWindow (d : DB) (periodStart periodEnd : Z)
  : list MeterTelemetryHistory.t :=
  List.filter (fun r => inWindow periodStart periodEnd (MeterTelemetryHistory.timestamp r))
    (meter_telemetry_history d).

(** WITH vehicle_energy AS (... GROUP BY vh."vehicleId")
    SELECT ..., CASE WHEN "totalAc" > 0 THEN "totalDc" / "totalAc" ELSE 0 END
    FROM vehicle_energy WHERE "totalAc" > 0 *)
Definition efficiencyBreakdown (d : DB) (periodStart periodEnd : Z) : list BreakdownRow :=
  let vh := vehicleRowsInWindow d periodStart periodEnd in
  let vehicle_energy :=
    map (fun v =>
           (v,
            sumZ (map VehicleTelemetryHistory.kwhDeliveredDc
                    (List.filter (fun r => String.eqb (VehicleTelemetryHistory.vehicleId r) v) vh)),
            consumedByVehicleTag d v periodStart periodEnd))
        (distinct (map VehicleTelemetryHistory.vehicleId vh)) in
  map (fun '(v, totalDc, totalAc) =>
         mkBreakdownRow v totalDc totalAc
           (if 0 <? totalAc then (kwhQ totalDc / kwhQ totalAc)%Q else 0%Q))
      (List.filter (fun '(_, _, totalAc) => 0 <? totalAc) vehicle_energy).

Definition getFleetEfficiency (cfg : AnalyticsConfig) (d : DB) (now : Z) (hours : Z)
  : FleetEfficiencyDto.t :=
  let periodEnd := now in
  let periodStart := periodEnd - hours * 60 * 60 * 1000 in
  let vh := vehicleRowsInWindow d periodStart periodEnd in
  let totalVehicles := length (distinct (map VehicleTelemetryHistory.vehicleId vh)) in
  let totalKwhDeliveredDc := kwhQ (sumZ (map VehicleTelemetryHistory.kwhDeliveredDc vh)) in
  let totalKwhConsumedAc :=
    kwhQ (sumZ (map MeterTelemetryHistory.kwhConsumedAc
                  (meterRowsInWindow d periodStart periodEnd))) in
  let breakdown := efficiencyBreakdown d periodStart periodEnd in
  let avgEfficiencyRatio :=
    if Qltb 0 totalKwhConsumedAc
    then (totalKwhDeliveredDc / totalKwhConsumedAc)%Q
    else 0%Q in
  let vehiclesWithWarnings :=
    length (List.filter (fun v =>
        Qltb (br_ratio v) (efficiencyWarningThreshold cfg)
        && Qle_bool (efficiencyCriticalThreshold cfg) (br_ratio v)) breakdown) in
  let vehiclesCritical :=
    length (List.filter (fun v =>
        Qltb (br_ratio v) (efficiencyCriticalThreshold cfg)) breakdown) in
  FleetEfficiencyDto.mk totalVehicles
    (roundTo 10000 avgEfficiencyRatio)
    vehiclesWithWarnings vehiclesCritical
    (roundTo 100 totalKwhConsumedAc)
    (roundTo 100 totalKwhDeliveredDc)
    (roundTo 100 (totalKwhConsumedAc - totalKwhDeliveredDc)%Q).

(** * Vocabulary of the properties

    Observations of a run, the shapes of the stores the statements speak
    about, and the stores used as examples. *)

Definition exec {A} (m : M A) (w : World) : World := snd (m w).
Definition result {A} (m : M A) (w : World) : Error + A := fst (m w).

Definition dailyOfMeter (d : DB) (meterId : string) : option Z :=
  MeterCurrentStatus.dailyKwhConsumedAc <$> (meter_current_status d !! meterId).

Definition dailyOfVehicle (d : DB) (vehicleId : string) : option Z :=
  VehicleCurrentStatus.dailyKwhDeliveredDc <$> (vehicle_current_status d !! vehicleId).

Definition historyOfMeter (d : DB) (meterId : string) : list MeterTelemetryHistory.t :=
  List.filter (fun r => String.eqb (MeterTelemetryHistory.meterId r) meterId)
    (meter_telemetry_history d).

(** What a failed ingestion may leave behind in the tables: nothing, or the
    history row alone.  In both cases the status tables are as before. *)
Definition coldOnlyOrNothing (d d' : DB) : Prop :=
  meter_current_status d' = meter_current_status d
  /\ vehicle_current_status d' = vehicle_current_status d
  /\ device_mapping d' = device_mapping d
  /\ (d' = d
      \/ (exists row, meter_telemetry_history d' = meter_telemetry_history d ++ [row])
         /\ vehicle_telemetry_history d' = vehicle_telemetry_history d
      \/ (exists row, vehicle_telemetry_history d' = vehicle_telemetry_history d ++ [row])
         /\ meter_telemetry_history d' = meter_telemetry_history d).

(** A single reading of either stream. *)
Definition ingestReading (reading : MeterTelemetryDto.t + VehicleTelemetryDto.t) : M unit :=
  match reading with
  | inl dto => ingestMeterTelemetry dto
  | inr dto => ingestVehicleTelemetry dto
  end.

Definition meterReading (m : string) (kwh voltage ts : Z) : PolymorphicTelemetryDto.t :=
  PolymorphicTelemetryDto.mk (Some METER) (Some m) (Some kwh) (Some voltage)
    None None None None (Some ts).

(** A store with meter rows for M1 (tagged with V1) and no vehicle row. *)
Definition meterOnlyDB : DB :=
  mkDB [MeterTelemetryHistory.mk 0 "M1" 100000 24000 1000 1000 (Some "V1")] [] ∅ ∅
       [DeviceMapping.mk "M1" "V1" true 0 0].

(** Vehicle V1 delivered 9 kWh; in [estimatedDB] no meter row exists, in
    [measuredDB] a meter row tagged with V1 reports 10 kWh. *)
Definition estimatedDB : DB :=
  mkDB [] [VehicleTelemetryHistory.mk 0 "V1" 5000 90000 3000 1000 1000 None] ∅ ∅ [].

Definition measuredDB : DB :=
  mkDB [MeterTelemetryHistory.mk 0 "M1" 100000 24000 1000 1000 (Some "V1")]
       [VehicleTelemetryHistory.mk 0 "V1" 5000 90000 3000 1000 1000 None] ∅ ∅ [].

(** A reading [flag] of the response tells an estimated ratio from a
    measured one: it is true exactly when the window had a zero consumed
    sum and a positive delivered sum. *)
Definition flagsEstimated (flag : PerformanceAnalyticsResponseDto.t -> bool) : Prop :=
  forall cfg d now vehicleId hours meterId resp,
    getPerformance cfg d now vehicleId hours meterId = inr resp ->
    (flag resp = true <->
     consumedSum d vehicleId (resolveMeterId d vehicleId meterId)
       (now - hours * 60 * 60 * 1000) now = 0
     /\ 0 < deliveredSum (vehicleRows d vehicleId (now - hours * 60 * 60 * 1000) now)).





(** Two vehicles: V1 delivered 8 kWh of 10 kWh consumed, V2 delivered 18 kWh
    of 30 kWh consumed. *)
Definition twoVehicleFleet : DB :=
  mkDB [MeterTelemetryHistory.mk 0 "M1" 100000 24000 1000 1000 (Some "V1");
        MeterTelemetryHistory.mk 1 "M2" 300000 24000 1000 1000 (Some "V2")]
       [VehicleTelemetryHistory.mk 0 "V1" 5000 80000 3000 1000 1000 (Some "M1");
        VehicleTelemetryHistory.mk 1 "V2" 5000 180000 3000 1000 1000 (Some "M2")]
       ∅ ∅
       [DeviceMapping.mk "M1" "V1" true 0 0; DeviceMapping.mk "M2" "V2" true 0 0].

(** The tables after a computation that runs with no fault pending. *)
Definition applied {A} (m : M A) (t : Z) (d : DB) : DB := db (exec m (mkWorld d [] t)).

(** A vehicle that delivered 20 kWh today and now reports 5 kWh. *)
Definition chargingVehicleDB : DB :=
  mkDB [] [] ∅
    {["V1" := VehicleCurrentStatus.mk "V1" 5000 200000 3000 1000 200000 None
                charging false 1000 1000]} [].


(** Meter M1 reported 10 kWh (its status row holds 10 kWh for today); the
    history rows of three readings in flight, 12, 14 and 16 kWh at later
    times of the same day, are appended and their upserts are still to
    run. *)
Definition threeInFlightDB : DB :=
  mkDB [MeterTelemetryHistory.mk 0 "M1" 100000 24000 1000 1000 None;
        MeterTelemetryHistory.mk 1 "M1" 120000 24000 2000 2000 None;
        MeterTelemetryHistory.mk 2 "M1" 140000 24000 3000 2000 None;
        MeterTelemetryHistory.mk 3 "M1" 160000 24000 4000 2000 None]
       []
       {["M1" := MeterCurrentStatus.mk "M1" 100000 24000 1000 100000 None online 1000 1000]}
       ∅ [].



(** The public methods of the telemetry service. *)
Inductive Call :=
  | IngestPolymorphic (dto : PolymorphicTelemetryDto.t)
  | IngestBatch (readings : list PolymorphicTelemetryDto.t)
  | IngestMeterTelemetry (dto : MeterTelemetryDto.t)
  | IngestVehicleTelemetry (dto : VehicleTelemetryDto.t)
  | SetDeviceMapping (meterId vehicleId : string)
  | DeactivateMapping (meterId vehicleId : string).

Definition perform (c : Call) : M unit :=
  match c with
  | IngestPolymorphic dto => await _ <- ingestPolymorphic dto; ret tt
  | IngestBatch readings => await _ <- ingestBatch readings; ret tt
  | IngestMeterTelemetry dto => ingestMeterTelemetry dto
  | IngestVehicleTelemetry dto => ingestVehicleTelemetry dto
  | SetDeviceMapping m v => setDeviceMapping m v
  | DeactivateMapping m v => deactivateMapping m v
  end.

(** A history of the service: each call with the faults that meet its
    storage calls and the server time at which it runs. *)
Fixpoint runCalls (calls : list (Call * list (option string) * Z)) (d : DB) : DB :=
  match calls with
  | [] => d
  | (c, fs, t) :: rest => runCalls rest (db (exec (perform c) (mkWorld d fs t)))
  end.

(** * Vocabulary of the further properties *)

From Stdlib Require Import Sorting.Sorted.

(** A computation keeps the relation [R] when, whatever it returns or
    throws, the tables it leaves are [R]-related to the tables it found. *)
Definition keeps (R : DB -> DB -> Prop) {A} (m : M A) : Prop :=
  forall w, R (db w) (db (exec m w)).

(** An invariant of the tables, as a relation between before and after. *)
Definition preserves (I : DB -> Prop) (d d' : DB) : Prop := I d -> I d'.

(** Both history tables only grow at their end. *)
Definition historyGrows (d d' : DB) : Prop :=
  meter_telemetry_history d `prefix_of` meter_telemetry_history d'
  /\ vehicle_telemetry_history d `prefix_of` vehicle_telemetry_history d'.

(** The calls of the service that ingest readings. *)
Definition isIngestion (c : Call) : bool :=
  match c with
  | SetDeviceMapping _ _ | DeactivateMapping _ _ => false
  | _ => true
  end.

(** The primary keys of the mapping table, in storage order. *)
Definition mappingKeys (d : DB) : list (string * string) :=
  map (fun r => (DeviceMapping.meterId r, DeviceMapping.vehicleId r)) (device_mapping d).

(** What the service keeps true of the status rows it persists: a row is
    stored under its own id; a meter row is online; a vehicle row's
    charging state and temperature warning are those its latest reading
    gives. *)
Definition classified (d : DB) : Prop :=
  (forall m r, meter_current_status d !! m = Some r ->
     MeterCurrentStatus.meterId r = m /\ MeterCurrentStatus.status r = online)
  /\ (forall v r, vehicle_current_status d !! v = Some r ->
     VehicleCurrentStatus.vehicleId r = v
     /\ VehicleCurrentStatus.chargingState r
        = (if 0 <? VehicleCurrentStatus.kwhDeliveredDc r then charging else idle)
     /\ VehicleCurrentStatus.batteryTempWarning r
        = (BATTERY_TEMP_WARNING <=? VehicleCurrentStatus.batteryTemp r)).

(** Every status row shows the values of some history row of its device. *)
Definition hotReflectsCold (d : DB) : Prop :=
  (forall m r, meter_current_status d !! m = Some r ->
     exists h, h ∈ meter_telemetry_history d
       /\ MeterTelemetryHistory.meterId h = m
       /\ MeterTelemetryHistory.kwhConsumedAc h = MeterCurrentStatus.kwhConsumedAc r
       /\ MeterTelemetryHistory.voltage h = MeterCurrentStatus.voltage r
       /\ MeterTelemetryHistory.timestamp h = MeterCurrentStatus.lastReadingAt r)
  /\ (forall v r, vehicle_current_status d !! v = Some r ->
     exists h, h ∈ vehicle_telemetry_history d
       /\ VehicleTelemetryHistory.vehicleId h = v
       /\ VehicleTelemetryHistory.soc h = VehicleCurrentStatus.soc r
       /\ VehicleTelemetryHistory.kwhDeliveredDc h = VehicleCurrentStatus.kwhDeliveredDc r
       /\ VehicleTelemetryHistory.batteryTemp h = VehicleCurrentStatus.batteryTemp r
       /\ VehicleTelemetryHistory.timestamp h = VehicleCurrentStatus.lastReadingAt r).

(** A short service history used as an example: a mapping, one reading of
    each stream, a failed vehicle reading, the mapping deactivated. *)
Definition sampleCalls : list (Call * list (option string) * Z) :=
  [(SetDeviceMapping "M1" "V1", [], 0);
   (IngestMeterTelemetry (MeterTelemetryDto.mk "M1" 100000 24000 1000), [], 1000);
   (IngestVehicleTelemetry (VehicleTelemetryDto.mk "V1" 5000 80000 4600 1000), [], 1000);
   (IngestVehicleTelemetry (VehicleTelemetryDto.mk "V1" 5100 90000 3000 2000),
    [None; None; Some "connection terminated"], 2000);
   (DeactivateMapping "M1" "V1", [], 3000)].

Definition sampleIngestions : list (Call * list (option string) * Z) :=
  [(IngestMeterTelemetry (MeterTelemetryDto.mk "M1" 100000 24000 1000), [], 1000);
   (IngestBatch [meterReading "M1" 110000 24000 2000], [None; Some "timeout"], 2000);
   (IngestVehicleTelemetry (VehicleTelemetryDto.mk "V1" 5000 80000 4600 1000), [], 1000)].

(** The links of the mapping table without their timestamps, and the peer
    each status table records per device. *)
Definition linkView (d : DB) : list (string * string * bool) :=
  map (fun r => (DeviceMapping.meterId r, DeviceMapping.vehicleId r, DeviceMapping.isActive r))
      (device_mapping d).

Definition meterPeers (d : DB) : gmap string (option string) :=
  MeterCurrentStatus.vehicleId <$> meter_current_status d.

Definition vehiclePeers (d : DB) : gmap string (option string) :=
  VehicleCurrentStatus.meterId <$> vehicle_current_status d.

(** A store in which M1 and V1 have reported and are not yet linked. *)
Definition unlinkedDB : DB :=
  runCalls
    [(IngestMeterTelemetry (MeterTelemetryDto.mk "M1" 100000 24000 1000), [], 1000);
     (IngestVehicleTelemetry (VehicleTelemetryDto.mk "V1" 5000 80000 3000 1000), [], 1000)]
    emptyDB.

(** A store in which V1 is linked to M1 and both have reported. *)
Definition linkedDB : DB :=
  runCalls
    [(SetDeviceMapping "M1" "V1", [], 0);
     (IngestMeterTelemetry (MeterTelemetryDto.mk "M1" 100000 24000 1000), [], 1000);
     (IngestVehicleTelemetry (VehicleTelemetryDto.mk "V1" 5000 80000 3000 1000), [], 1000)]
    emptyDB.



(** Readings of one device ingested in turn with no fault, each with the
    server time of its call. *)
Definition ingestMeterReadings (readings : list (MeterTelemetryDto.t * Z)) (d : DB) : DB :=
  fold_left (fun d x => applied (ingestMeterTelemetry (fst x)) (snd x) d) readings d.

Definition ingestVehicleReadings (readings : list (VehicleTelemetryDto.t * Z)) (d : DB) : DB :=
  fold_left (fun d x => applied (ingestVehicleTelemetry (fst x)) (snd x) d) readings d.

(** The reading times come in order and stay on the calendar day of [ts]. *)
Fixpoint inOrderSameDay (ts : Z) (later : list Z) : bool :=
  match later with
  | [] => true
  | ts' :: rest => (ts <=? ts') && (DATE ts' =? DATE ts) && inOrderSameDay ts' rest
  end.

(** No reading time is on a later calendar day than the one before it. *)
Fixpoint noLaterDay (ts : Z) (later : list Z) : bool :=
  match later with
  | [] => true
  | ts' :: rest => (DATE ts' <=? DATE ts) && noLaterDay ts' rest
  end.

(** The sum of the increases from each reading to the next, a decrease
    counting as zero. *)
Fixpoint clampedIncrements (prev : Z) (later : list Z) : Z :=
  match later with
  | [] => 0
  | k :: rest => Z.max 0 (k - prev) + clampedIncrements k rest
  end.

(** The history row of a meter with the latest timestamp. *)
Definition latestMeterRow (d : DB) (m : string) : option MeterTelemetryHistory.t :=
  head (orderByTimestampDesc (historyOfMeter d m)).

(** The meter's daily total is the reading of its latest history row, and
    its status row carries that row's time. *)
Definition dailyTracksLatest (d : DB) (m : string) (k ts : Z) : Prop :=
  (exists row, meter_current_status d !! m = Some row
     /\ MeterCurrentStatus.dailyKwhConsumedAc row = k
     /\ MeterCurrentStatus.lastReadingAt row = ts)
  /\ (exists h, latestMeterRow d m = Some h
     /\ MeterTelemetryHistory.kwhConsumedAc h = k
     /\ MeterTelemetryHistory.timestamp h = ts).

Fixpoint nonDecreasing (prev : Z) (later : list Z) : bool :=
  match later with
  | [] => true
  | k :: rest => (prev <=? k) && nonDecreasing k rest
  end.

(** * StatusService

    The status service reads the two status tables.  As for the analytics,
    a call is evaluated on one snapshot of the tables, [now] being the value
    of [new Date()] or [Date.now()]. *)

(** ORDER BY on a result set: insertion into a list kept in order, [le a b]
    saying that [a] may come before [b].  Rows that compare equal come out
    in an order SQL leaves open; here they keep their storage order. *)
Fixpoint insertSorted {A} (le : A -> A -> bool) (x : A) (l : list A) : list A :=
  match l with
  | [] => [x]
  | y :: l' => if le x y then x :: l else y :: insertSorted le x l'
  end.

Definition sortBy {A} (le : A -> A -> bool) (l : list A) : list A :=
  fold_right (insertSorted le) [] l.

Definition descBy {A} (key : A -> Z) (a b : A) : bool := key b <=? key a.
Definition ascBy {A} (key : A -> Z) (a b : A) : bool := key a <=? key b.

(** The rows of the status tables, in storage order. *)
Definition meterRows (d : DB) : list MeterCurrentStatus.t :=
  (map_to_list (meter_current_status d)).*2.

Definition vehicleStatusRows (d : DB) : list VehicleCurrentStatus.t :=
  (map_to_list (vehicle_current_status d)).*2.

Module StatusService.

Definition OFFLINE_THRESHOLD_MS : Z := 5 * 60 * 1000.

Inductive HttpException := NotFoundException (message : string).

Definition markOffline (status : MeterCurrentStatus.t) : MeterCurrentStatus.t :=
  MeterCurrentStatus.mk (MeterCurrentStatus.meterId status)
    (MeterCurrentStatus.kwhConsumedAc status) (MeterCurrentStatus.voltage status)
    (MeterCurrentStatus.lastReadingAt status)
    (MeterCurrentStatus.dailyKwhConsumedAc status) (MeterCurrentStatus.vehicleId status)
    offline (MeterCurrentStatus.createdAt status) (MeterCurrentStatus.updatedAt status).

Definition markVehicleOffline (status : VehicleCurrentStatus.t) : VehicleCurrentStatus.t :=
  VehicleCurrentStatus.mk (VehicleCurrentStatus.vehicleId status)
    (VehicleCurrentStatus.soc status) (VehicleCurrentStatus.kwhDeliveredDc status)
    (VehicleCurrentStatus.batteryTemp status) (VehicleCurrentStatus.lastReadingAt status)
    (VehicleCurrentStatus.dailyKwhDeliveredDc status) (VehicleCurrentStatus.meterId status)
    cs_offline (VehicleCurrentStatus.batteryTempWarning status)
    (VehicleCurrentStatus.createdAt status) (VehicleCurrentStatus.updatedAt status).

Definition getMeterStatus (d : DB) (now : Z) (meterId : string)
  : HttpException + MeterCurrentStatus.t :=
  match meter_current_status d !! meterId with
  | None => inl (NotFoundException ("Meter " +:+ meterId +:+ " not found"))
  | Some status =>
      if OFFLINE_THRESHOLD_MS <? now - MeterCurrentStatus.lastReadingAt status
      then inr (markOffline status)
      else inr status
  end.

Definition getVehicleStatus (d : DB) (now : Z) (vehicleId : string)
  : HttpException + VehicleCurrentStatus.t :=
  match vehicle_current_status d !! vehicleId with
  | None => inl (NotFoundException ("Vehicle " +:+ vehicleId +:+ " not found"))
  | Some status =>
      if OFFLINE_THRESHOLD_MS <? now - VehicleCurrentStatus.lastReadingAt status
      then inr (markVehicleOffline status)
      else inr status
  end.

(** find({ where: { lastReadingAt: MoreThan(threshold) },
           order: { lastReadingAt: 'DESC' } }) *)
Definition getOnlineMeters (d : DB) (now : Z) : list MeterCurrentStatus.t :=
  let threshold := now - OFFLINE_THRESHOLD_MS in
  sortBy (descBy MeterCurrentStatus.lastReadingAt)
    (List.filter (fun r => threshold <? MeterCurrentStatus.lastReadingAt r) (meterRows d)).

Definition isCharging (r : VehicleCurrentStatus.t) : bool :=
  match VehicleCurrentStatus.chargingState r with charging => true | _ => false end.

(** find({ where: { chargingState: 'charging' }, order: { soc: 'ASC' } }) *)
Definition getChargingVehicles (d : DB) : list VehicleCurrentStatus.t :=
  sortBy (ascBy VehicleCurrentStatus.soc) (List.filter isCharging (vehicleStatusRows d)).

(** find({ where: { batteryTempWarning: true }, order: { batteryTemp: 'DESC' } }) *)
Definition getVehiclesWithTempWarnings (d : DB) : list VehicleCurrentStatus.t :=
  sortBy (descBy VehicleCurrentStatus.batteryTemp)
    (List.filter VehicleCurrentStatus.batteryTempWarning (vehicleStatusRows d)).

Record FleetOverview := mkFleetOverview {
  totalMeters : Z;
  onlineMeters : Z;
  offlineMeters : Z;
  totalVehicles : Z;
  chargingVehicles : Z;
  idleVehicles : Z;
  vehiclesWithWarnings : Z;
  totalDailyKwhConsumed : Q;
  totalDailyKwhDelivered : Q }.

Definition getFleetOverview (d : DB) (now : Z) : FleetOverview :=
  let threshold := now - OFFLINE_THRESHOLD_MS in
  let totalMeters := Z.of_nat (length (meterRows d)) in
  let onlineMeters :=
    Z.of_nat (length (List.filter (fun r => threshold <? MeterCurrentStatus.lastReadingAt r)
                        (meterRows d))) in
  let totalVehicles := Z.of_nat (length (vehicleStatusRows d)) in
  let chargingVehicles := Z.of_nat (length (List.filter isCharging (vehicleStatusRows d))) in
  let vehiclesWithWarnings :=
    Z.of_nat (length (List.filter VehicleCurrentStatus.batteryTempWarning
                        (vehicleStatusRows d))) in
  let totalDc := sumZ (map VehicleCurrentStatus.dailyKwhDeliveredDc (vehicleStatusRows d)) in
  let totalAc := sumZ (map MeterCurrentStatus.dailyKwhConsumedAc (meterRows d)) in
  mkFleetOverview totalMeters onlineMeters (totalMeters - onlineMeters)
    totalVehicles chargingVehicles (totalVehicles - chargingVehicles)
    vehiclesWithWarnings (kwhQ totalAc) (kwhQ totalDc).

Record Paginated (A : Type) := mkPaginated {
  data : list A;
  total : nat;
  page : positive;
  pages : nat }.
Arguments mkPaginated {A}.
Arguments data {A}.
Arguments total {A}.
Arguments page {A}.
Arguments pages {A}.

(** Math.ceil(total / limit) for a positive limit. *)
Definition ceilDiv (total limit : nat) : nat := (total + limit - 1) / limit.

(** findAndCount({ order: { lastReadingAt: 'DESC' },
                   skip: (page - 1) * limit, take: limit }) for a page
    number and a limit of at least one. *)
Definition getAllMeters (d : DB) (page limit : positive)
  : Paginated MeterCurrentStatus.t :=
  let all := sortBy (descBy MeterCurrentStatus.lastReadingAt) (meterRows d) in
  let data := take (Pos.to_nat limit) (drop ((Pos.to_nat page - 1) * Pos.to_nat limit) all) in
  let total := length (meterRows d) in
  mkPaginated data total page (ceilDiv total (Pos.to_nat limit)).

Definition getAllVehicles (d : DB) (page limit : positive)
  : Paginated VehicleCurrentStatus.t :=
  let all := sortBy (descBy VehicleCurrentStatus.lastReadingAt) (vehicleStatusRows d) in
  let data := take (Pos.to_nat limit) (drop ((Pos.to_nat page - 1) * Pos.to_nat limit) all) in
  let total := length (vehicleStatusRows d) in
  mkPaginated data total page (ceilDiv total (Pos.to_nat limit)).

End StatusService.

(** The status row of a device, read directly. *)
Definition storedMeter (d : DB) (r : MeterCurrentStatus.t) : Prop :=
  exists k, meter_current_status d !! k = Some r.

Definition storedVehicle (d : DB) (r : VehicleCurrentStatus.t) : Prop :=
  exists k, vehicle_current_status d !! k = Some r.

(** A store with three meters last heard at second 0, 100 and 400; read at
    second 400 the first is more than, the second exactly, five minutes
    old. *)
Definition threeMetersDB : DB :=
  runCalls
    [(IngestMeterTelemetry (MeterTelemetryDto.mk "M1" 100000 24000 0), [], 0);
     (IngestMeterTelemetry (MeterTelemetryDto.mk "M2" 200000 24000 100000), [], 100000);
     (IngestMeterTelemetry (MeterTelemetryDto.mk "M3" 300000 24000 400000), [], 400000)]
    emptyDB.

Definition isIdle (r : VehicleCurrentStatus.t) : bool :=
  match VehicleCurrentStatus.chargingState r with idle => true | _ => false end.

(** No two stored meter rows have the same lastReadingAt. *)
Definition distinctReadingTimes (d : DB) : Prop :=
  NoDup (map MeterCurrentStatus.lastReadingAt (meterRows d)).

(** The pages 1, 2, ..., n of the meter list, one after the other. *)
Definition meterPages (d : DB) (limit : positive) (n : nat) : list MeterCurrentStatus.t :=
  concat (map (fun i => StatusService.data (StatusService.getAllMeters d (Pos.of_nat (S i)) limit))
              (seq 0 n)).

(** A vehicle that reported twice without delivering energy, and nothing
    on the meter side. *)
Definition idleVehicleDB : DB :=
  mkDB []
       [VehicleTelemetryHistory.mk 0 "V1" 5000 0 3000 1000 1000 None;
        VehicleTelemetryHistory.mk 1 "V1" 5000 0 3100 2000 2000 None] ∅ ∅ [].

(** * AnalyticsService: the hourly trend *)

(** date_trunc('hour', ts) of a timestamptz, for a session in UTC. *)
Definition date_trunc_hour (ts : Z) : Z := ts - ts mod 3600000.

Module TrendRow.
Record t := mk {
  hour : Z;
  kwhConsumedAc : Q;
  kwhDeliveredDc : Q;
  efficiencyRatio : Q;
  avgBatteryTemp : Q }.
End TrendRow.

(** The CTE hourly_vehicle: one group per hour that has a row of the
    vehicle in the window, with SUM("kwhDeliveredDc") and the sum and number
    of the temperatures behind AVG("batteryTemp"). *)
Definition vehicleRowsOfHour (rows : list VehicleTelemetryHistory.t) (h : Z)
  : list VehicleTelemetryHistory.t :=
  List.filter (fun r => date_trunc_hour (VehicleTelemetryHistory.timestamp r) =? h) rows.

Definition trendHours (rows : list VehicleTelemetryHistory.t) : list Z :=
  sortBy (ascBy (fun h => h))
    (nodup Z.eq_dec (map (fun r => date_trunc_hour (VehicleTelemetryHistory.timestamp r)) rows)).

(** The rows behind the CTE hourly_meter:
    WHERE ($4::varchar IS NULL OR "meterId" = $4 OR "vehicleId" = $1)
      AND timestamp >= $2 AND timestamp <= $3.
    With no meter given every meter row of the window qualifies. *)
Definition trendMeterRows (d : DB) (vehicleId : string) (meterId : option string)
    (periodStart periodEnd : Z) : list MeterTelemetryHistory.t :=
  List.filter (fun r =>
      (match meterId with
       | None => true
       | Some m =>
           String.eqb (MeterTelemetryHistory.meterId r) m
           || match MeterTelemetryHistory.vehicleId r with
              | Some v => String.eqb v vehicleId
              | None => false
              end
       end)
      && inWindow periodStart periodEnd (MeterTelemetryHistory.timestamp r))
    (meter_telemetry_history d).

(** The group of hourly_meter joined to the hour [h], if there is one. *)
Definition meterGroupOfHour (rows : list MeterTelemetryHistory.t) (h : Z) : option Z :=
  match List.filter (fun r => date_trunc_hour (MeterTelemetryHistory.timestamp r) =? h) rows with
  | [] => None
  | g => Some (sumZ (map MeterTelemetryHistory.kwhConsumedAc g))
  end.

Definition getEfficiencyTrend (d : DB) (now : Z) (vehicleId : string) (hours : Z)
  : list TrendRow.t :=
  let periodEnd := now in
  let periodStart := periodEnd - hours * 60 * 60 * 1000 in
  let mapping := findActiveByVehicle vehicleId d in
  let rows := vehicleRows d vehicleId periodStart periodEnd in
  let meterRows := trendMeterRows d vehicleId (orNull (DeviceMapping.meterId <$> mapping))
                     periodStart periodEnd in
  map (fun h =>
         let hv := vehicleRowsOfHour rows h in
         let kwhDeliveredDc := kwhQ (deliveredSum hv) in
         let avgBatteryTemp :=
           (centiQ (sumZ (map VehicleTelemetryHistory.batteryTemp hv))
            / (Z.of_nat (length hv) # 1))%Q in
         let hm := meterGroupOfHour meterRows h in
         let kwhConsumedAc := kwhQ (default 0 hm) in
         let efficiencyRatio :=
           match hm with
           | Some ac => if 0 <? ac then (kwhDeliveredDc / kwhQ ac)%Q else 0%Q
           | None => 0%Q
           end in
         TrendRow.mk h
           (roundTo 10000 kwhConsumedAc)
           (roundTo 10000 kwhDeliveredDc)
           (roundTo 10000 efficiencyRatio)
           (roundTo 100 avgBatteryTemp))
      (trendHours rows).

Definition sumQ (l : list Q) : Q := fold_right Qplus 0%Q l.

(** V1 reports in two hours; M1, linked to V1, reports in the first only. *)
Definition twoHourDB : DB :=
  mkDB [MeterTelemetryHistory.mk 0 "M1" 100000 24000 1000 1000 (Some "V1")]
       [VehicleTelemetryHistory.mk 0 "V1" 5000 40000 3000 1000 1000 (Some "M1");
        VehicleTelemetryHistory.mk 1 "V1" 5500 50000 3100 2000 2000 (Some "M1");
        VehicleTelemetryHistory.mk 2 "V1" 6000 30000 3200 3601000 3601000 (Some "M1")]
       ∅ ∅ [DeviceMapping.mk "M1" "V1" true 0 0].

(** The meter rows of the window that fall into the hour [h]. *)
Definition meterRowsOfHour (rows : list MeterTelemetryHistory.t) (h : Z)
  : list MeterTelemetryHistory.t :=
  List.filter (fun r => date_trunc_hour (MeterTelemetryHistory.timestamp r) =? h) rows.

(** V1 has no link; M1 and M2, which have none either, report in the hour
    in which V1 reports. *)
Definition strangersDB : DB :=
  mkDB [MeterTelemetryHistory.mk 0 "M1" 100000 24000 1000 1000 None;
        MeterTelemetryHistory.mk 1 "M2" 70000 24000 2000 2000 None]
       [VehicleTelemetryHistory.mk 0 "V1" 5000 40000 3000 1000 1000 None]
       ∅ ∅ [].

(** * Properties *)

(** ** Storage calls *)

Lemma storage_outcome {A} (op : Z -> DB -> (Error + A) * DB) (w : World) :
  (exists msg, head (faults w) = Some (Some msg) /\
     storage op w = (inl (QueryFailedError msg), mkWorld (db w) (tail (faults w)) (now w)))
  \/ (head (faults w) <> None -> head (faults w) = Some None) /\
     storage op w =
       (fst (op (now w) (db w)), mkWorld (snd (op (now w) (db w))) (tail (faults w)) (now w)).
Proof.
  unfold storage. destruct (faults w) as [|[msg|] fs]; simpl.
  - right. split; [congruence|]. destruct (op (now w) (db w)); reflexivity.
  - left. exists msg. split; reflexivity.
  - right. split; [reflexivity|]. destruct (op (now w) (db w)); reflexivity.
Qed.

Lemma statement_outcome (f : Z -> DB -> DB) (w : World) :
  (exists msg, statement f w =
     (inl (QueryFailedError msg), mkWorld (db w) (tail (faults w)) (now w)))
  \/ statement f w = (inr tt, mkWorld (f (now w) (db w)) (tail (faults w)) (now w)).
Proof.
  unfold statement. destruct (storage_outcome (fun t d => (inr tt, f t d)) w)
    as [(msg & _ & H)|[_ H]]; [left; eauto|right; exact H].
Qed.

Lemma query_outcome {A} (f : DB -> A) (w : World) :
  (exists msg, query f w =
     (inl (QueryFailedError msg), mkWorld (db w) (tail (faults w)) (now w)))
  \/ query f w = (inr (f (db w)), mkWorld (db w) (tail (faults w)) (now w)).
Proof.
  unfold query. destruct (storage_outcome (fun _ d => (inr (f d), d)) w)
    as [(msg & _ & H)|[_ H]]; [left; eauto|right; exact H].
Qed.


(** With no fault pending, a meter ingestion runs its three calls. *)
Lemma ingestMeterTelemetry_no_fault (dto : MeterTelemetryDto.t) (d : DB) (t : Z) :
  let ts := MeterTelemetryDto.timestamp dto in
  let peer := DeviceMapping.vehicleId <$> findActiveByMeter (MeterTelemetryDto.meterId dto) d in
  let d1 := insertMeterHistory dto ts (orNull peer) t d in
  ingestMeterTelemetry dto (mkWorld d [] t) =
    (inr tt,
     mkWorld
       (mkDB (meter_telemetry_history d1) (vehicle_telemetry_history d1)
          (<[MeterTelemetryDto.meterId dto := meterStatusRow d1 dto ts peer t]>
             (meter_current_status d1))
          (vehicle_current_status d1) (device_mapping d1)) [] t).
Proof. reflexivity. Qed.

Lemma ingestVehicleTelemetry_no_fault (dto : VehicleTelemetryDto.t) (d : DB) (t : Z) :
  let ts := VehicleTelemetryDto.timestamp dto in
  let peer := DeviceMapping.meterId <$> findActiveByVehicle (VehicleTelemetryDto.vehicleId dto) d in
  let d1 := insertVehicleHistory dto ts (orNull peer) t d in
  ingestVehicleTelemetry dto (mkWorld d [] t) =
    (inr tt,
     mkWorld
       (mkDB (meter_telemetry_history d1) (vehicle_telemetry_history d1)
          (meter_current_status d1)
          (<[VehicleTelemetryDto.vehicleId dto :=
               vehicleStatusRow d1 dto ts peer
                 (if 0 <? VehicleTelemetryDto.kwhDeliveredDc dto then charging else idle)
                 (BATTERY_TEMP_WARNING <=? VehicleTelemetryDto.batteryTemp dto) t]>
             (vehicle_current_status d1))
          (device_mapping d1)) [] t).
Proof. reflexivity. Qed.

(** ** Day boundary *)

(** On a strictly later calendar day the SET clause adds the reading to the
    stored total. *)
Lemma meterStatusRow_new_day (d : DB) (dto : MeterTelemetryDto.t) (ts : Z)
    (peer : option string) (t : Z) (old : MeterCurrentStatus.t) :
  meter_current_status d !! MeterTelemetryDto.meterId dto = Some old ->
  DATE (MeterCurrentStatus.lastReadingAt old) < DATE ts ->
  MeterCurrentStatus.dailyKwhConsumedAc (meterStatusRow d dto ts peer t) =
    MeterCurrentStatus.dailyKwhConsumedAc old + MeterTelemetryDto.kwhConsumedAc dto.
Proof.
  intros Hold Hday. unfold meterStatusRow. rewrite Hold. simpl.
  apply Z.ltb_lt in Hday. rewrite Hday. reflexivity.
Qed.

Lemma vehicleStatusRow_new_day (d : DB) (dto : VehicleTelemetryDto.t) (ts : Z)
    (peer : option string) (cs : ChargingState) (warn : bool) (t : Z)
    (old : VehicleCurrentStatus.t) :
  vehicle_current_status d !! VehicleTelemetryDto.vehicleId dto = Some old ->
  DATE (VehicleCurrentStatus.lastReadingAt old) < DATE ts ->
  VehicleCurrentStatus.dailyKwhDeliveredDc (vehicleStatusRow d dto ts peer cs warn t) =
    VehicleCurrentStatus.dailyKwhDeliveredDc old + VehicleTelemetryDto.kwhDeliveredDc dto.
Proof.
  intros Hold Hday. unfold vehicleStatusRow. rewrite Hold. simpl.
  apply Z.ltb_lt in Hday. rewrite Hday. reflexivity.
Qed.

(** C1, evaluated on the code.  A meter reports 10 kWh on day 0 and 3 kWh on
    day 1; a vehicle does the same.  After the second reading the stored
    daily total is 13 kWh for both (the prior day's 10 kWh is still in it),
    where the reading's own contribution is 3 kWh. *)
Theorem C1_day_boundary_keeps_prior_total :
  let day := 86400000 in
  let w1 := exec (ingestMeterTelemetry (MeterTelemetryDto.mk "M1" 100000 24000 1000))
                 (mkWorld emptyDB [] 1000) in
  let w2 := exec (ingestMeterTelemetry (MeterTelemetryDto.mk "M1" 30000 24000 (day + 1000)))
                 (mkWorld (db w1) [] (day + 1000)) in
  let v1 := exec (ingestVehicleTelemetry (VehicleTelemetryDto.mk "V1" 5000 100000 3000 1000))
                 (mkWorld emptyDB [] 1000) in
  let v2 := exec (ingestVehicleTelemetry
                    (VehicleTelemetryDto.mk "V1" 5500 30000 3000 (day + 1000)))
                 (mkWorld (db v1) [] (day + 1000)) in
  DATE 1000 < DATE (day + 1000)
  /\ dailyOfMeter (db w1) "M1" = Some 100000
  /\ dailyOfMeter (db w2) "M1" = Some 130000
  /\ dailyOfVehicle (db v1) "V1" = Some 100000
  /\ dailyOfVehicle (db v2) "V1" = Some 130000.
Proof. vm_compute. repeat split; reflexivity. Qed.

(** ** Two same-day meter readings *)

Lemma meterStatusRow_absent (d : DB) (dto : MeterTelemetryDto.t) (ts : Z)
    (peer : option string) (t : Z) :
  meter_current_status d !! MeterTelemetryDto.meterId dto = None ->
  meterStatusRow d dto ts peer t =
    MeterCurrentStatus.mk (MeterTelemetryDto.meterId dto)
      (MeterTelemetryDto.kwhConsumedAc dto) (MeterTelemetryDto.voltage dto) ts
      (MeterTelemetryDto.kwhConsumedAc dto) peer online t t.
Proof. intros H. unfold meterStatusRow. rewrite H. reflexivity. Qed.

Lemma meterStatusRow_not_later (d : DB) (dto : MeterTelemetryDto.t) (ts : Z)
    (peer : option string) (t : Z) (old : MeterCurrentStatus.t) :
  meter_current_status d !! MeterTelemetryDto.meterId dto = Some old ->
  DATE ts <= DATE (MeterCurrentStatus.lastReadingAt old) ->
  MeterCurrentStatus.dailyKwhConsumedAc (meterStatusRow d dto ts peer t) =
    MeterCurrentStatus.dailyKwhConsumedAc old +
      (MeterTelemetryDto.kwhConsumedAc dto -
         default (MeterTelemetryDto.kwhConsumedAc dto)
           (previousKwhConsumedAc d (MeterTelemetryDto.meterId dto))).
Proof.
  intros Hold Hday. unfold meterStatusRow. rewrite Hold. simpl.
  replace (DATE (MeterCurrentStatus.lastReadingAt old) <? DATE ts) with false
    by (symmetry; apply Z.ltb_ge; exact Hday).
  reflexivity.
Qed.

(** C4.  From an empty store, the meter readings
    {M1, 10 kWh, 240 V, T} and {M1, 16 kWh, 241 V, T + 1h}, both on the same
    calendar day, leave a status row for M1 whose dailyKwhConsumedAc is
    16 kWh and exactly two history rows for M1.  [t1] and [t2] are the
    server times of the two calls. *)
Theorem C4_two_same_day_meter_readings (T t1 t2 : Z) :
  DATE (T + 3600000) = DATE T ->
  let w1 := exec (ingestMeterTelemetry (MeterTelemetryDto.mk "M1" 100000 24000 T))
                 (mkWorld emptyDB [] t1) in
  let second := ingestMeterTelemetry (MeterTelemetryDto.mk "M1" 160000 24100 (T + 3600000)) in
  let w2 := exec second (mkWorld (db w1) [] t2) in
  result second (mkWorld (db w1) [] t2) = inr tt
  /\ dailyOfMeter (db w2) "M1" = Some 160000
  /\ length (historyOfMeter (db w2) "M1") = 2%nat
  /\ length (meter_telemetry_history (db w2)) = 2%nat.
Proof.
  intros Hday w1 second w2.
  subst w1 second w2. unfold exec, result.
  rewrite ingestMeterTelemetry_no_fault. cbn [snd db].
  rewrite ingestMeterTelemetry_no_fault. cbn [fst snd db].
  split; [reflexivity|].
  split; [|split; reflexivity].
  unfold dailyOfMeter. cbn [meter_current_status MeterTelemetryDto.meterId].
  rewrite lookup_insert_eq. cbn [fmap option_fmap option_map]. f_equal.
  erewrite meterStatusRow_not_later.
  2:{ cbn [insertMeterHistory meter_current_status MeterTelemetryDto.meterId].
      apply lookup_insert_eq. }
  2:{ rewrite meterStatusRow_absent by apply lookup_empty.
      cbn [MeterCurrentStatus.lastReadingAt MeterTelemetryDto.timestamp].
      rewrite Hday. apply Z.le_refl. }
  rewrite meterStatusRow_absent by apply lookup_empty.
  cbn [MeterCurrentStatus.dailyKwhConsumedAc MeterTelemetryDto.kwhConsumedAc
       MeterTelemetryDto.meterId].
  unfold previousKwhConsumedAc, orderByTimestampDesc.
  cbn -[Z.leb Z.add Z.sub].
  replace (T <=? T + 3600000) with true by (symmetry; apply Z.leb_le; lia).
  reflexivity.
Qed.

(** The two readings at T = 0 and T + 1h, ingested at server times 5 and 7. *)
Lemma C4_two_same_day_meter_readings_witness :
  DATE (0 + 3600000) = DATE 0
  /\ dailyOfMeter
       (db (exec (ingestMeterTelemetry (MeterTelemetryDto.mk "M1" 160000 24100 (0 + 3600000)))
              (mkWorld
                 (db (exec (ingestMeterTelemetry (MeterTelemetryDto.mk "M1" 100000 24000 0))
                        (mkWorld emptyDB [] 5)))
                 [] 7))) "M1" = Some 160000.
Proof.
  split; [reflexivity|].
  apply (C4_two_same_day_meter_readings 0 5 7). reflexivity.
Defined.

(** ** Failure of a single-reading ingestion *)

Ltac run_storage H :=
  match type of H with
  | context [statement ?f ?w] =>
      let msg := fresh "msg" in
      let E := fresh "E" in
      destruct (statement_outcome f w) as [[msg E]|E]; rewrite E in H; clear E
  | context [query ?f ?w] =>
      let msg := fresh "msg" in
      let E := fresh "E" in
      destruct (query_outcome f w) as [[msg E]|E]; rewrite E in H; clear E
  end.

Lemma ingestMeterTelemetry_failure (dto : MeterTelemetryDto.t) (w w' : World) (e : Error) :
  ingestMeterTelemetry dto w = (inl e, w') -> coldOnlyOrNothing (db w) (db w').
Proof.
  unfold ingestMeterTelemetry, upsertMeterStatus, bind. intros H.
  run_storage H.
  { inversion H; subst; cbn. repeat split; auto. }
  run_storage H.
  { inversion H; subst; cbn. repeat split; auto. }
  run_storage H.
  { inversion H; subst; cbn. repeat split; auto.
    right; left. split; [eexists; reflexivity | reflexivity]. }
  discriminate H.
Qed.

Lemma ingestVehicleTelemetry_failure (dto : VehicleTelemetryDto.t) (w w' : World) (e : Error) :
  ingestVehicleTelemetry dto w = (inl e, w') -> coldOnlyOrNothing (db w) (db w').
Proof.
  unfold ingestVehicleTelemetry, upsertVehicleStatus, bind. intros H.
  run_storage H.
  { inversion H; subst; cbn. repeat split; auto. }
  run_storage H.
  { inversion H; subst; cbn. repeat split; auto. }
  run_storage H.
  { inversion H; subst; cbn. repeat split; auto.
    right; right. split; [eexists; reflexivity | reflexivity]. }
  discriminate H.
Qed.

(** C2, as stated, fails: the third storage call (the status upsert) of a
    meter ingestion throws; the ingestion fails, yet the history row it
    inserted is in the Cold Store and there is no status row. *)
Lemma C2_cold_row_survives_failed_upsert :
  exists e w',
    ingestMeterTelemetry (MeterTelemetryDto.mk "M1" 100000 24000 1000)
      (mkWorld emptyDB [None; None; Some "connection terminated"] 1000) = (inl e, w')
    /\ length (meter_telemetry_history (db w')) = 1%nat
    /\ meter_current_status (db w') !! "M1" = None
    /\ db w' <> emptyDB.
Proof.
  eexists. eexists. split; [reflexivity|].
  split; [reflexivity|]. split; [reflexivity|]. discriminate.
Qed.

(** C2, amended.  When a single-reading ingestion (meter or vehicle) fails,
    the Hot Store is exactly as before, so a status upsert never persists
    without its history insert; the Cold Store is either as before as well
    or holds the one new row of the failed reading. *)
Theorem C2_failed_ingestion_never_touches_hot_store
    (reading : MeterTelemetryDto.t + VehicleTelemetryDto.t) (w w' : World) (e : Error) :
  ingestReading reading w = (inl e, w') -> coldOnlyOrNothing (db w) (db w').
Proof.
  destruct reading as [dto|dto]; intros H.
  - exact (ingestMeterTelemetry_failure dto w w' e H).
  - exact (ingestVehicleTelemetry_failure dto w w' e H).
Qed.

(** A vehicle ingestion whose history insert throws. *)
Lemma C2_failed_ingestion_witness :
  coldOnlyOrNothing emptyDB
    (db (exec (ingestReading (inr (VehicleTelemetryDto.mk "V1" 5000 100000 3000 1000)))
           (mkWorld emptyDB [None; Some "deadlock detected"] 1000))).
Proof.
  apply (C2_failed_ingestion_never_touches_hot_store
           (inr (VehicleTelemetryDto.mk "V1" 5000 100000 3000 1000))
           (mkWorld emptyDB [None; Some "deadlock detected"] 1000) _
           (QueryFailedError "deadlock detected")).
  reflexivity.
Defined.

(** ** Batch ingestion *)

(** The loop of [ingestBatch] never throws: each reading ends up counted as
    a success or as a failure with its reason, and the loop goes on with
    the next reading from the world the previous one left. *)
Lemma ingestBatchLoop_counts (readings : list PolymorphicTelemetryDto.t) :
  forall (acc : BatchResult) (w : World),
  exists r w',
    ingestBatchLoop readings acc w = (inr r, w')
    /\ (success r + failed r = success acc + failed acc + length readings)%nat
    /\ (length (errors r) + failed acc = length (errors acc) + failed r)%nat
    /\ (failed acc <= failed r)%nat.
Proof.
  induction readings as [|reading rest IH]; intros acc w.
  - exists acc, w. cbn. repeat split; lia.
  - cbn [ingestBatchLoop]. unfold bind at 1. unfold try_catch, bind at 1.
    destruct (ingestPolymorphic reading w) as [[e|x] w1]; cbn [ret].
    + destruct (IH (mkBatchResult (success acc) (S (failed acc))
                      (errors acc ++ [failureReason reading e])) w1)
        as (r & w' & E & Hn & He & Hf).
      exists r, w'. rewrite E. cbn in Hn, He, Hf.
      rewrite length_app in He. cbn in He. cbn [length].
      repeat split; lia.
    + destruct (IH (mkBatchResult (S (success acc)) (failed acc) (errors acc)) w1)
        as (r & w' & E & Hn & He & Hf).
      exists r, w'. rewrite E. cbn in Hn, He, Hf. cbn [length].
      repeat split; lia.
Qed.


(** A reading of type meter without its kwhConsumedAc is counted as failed
    with its reason, and the reading after it is still ingested. *)
Example ingestBatch_per_record_failure :
  let bad := PolymorphicTelemetryDto.mk (Some METER) (Some "M0") None (Some 24000)
               None None None None (Some 1000) in
  let w' := exec (ingestBatch [bad; meterReading "M1" 100000 24000 1000])
                 (mkWorld emptyDB [] 1000) in
  result (ingestBatch [bad; meterReading "M1" 100000 24000 1000]) (mkWorld emptyDB [] 1000)
    = inr (mkBatchResult 1 1 ["meter:M0: null value violates not-null constraint"])
  /\ dailyOfMeter (db w') "M1" = Some 100000
  /\ length (meter_telemetry_history (db w')) = 1%nat.
Proof. vm_compute. repeat split; reflexivity. Qed.

(** C3, evaluated on the code.  A batch of one valid meter reading; every
    call up to the commit runs, the commit of the runner's transaction
    throws.  [ingestBatch] rolls the runner back and rethrows, so the batch
    surfaces as one failure, but the reading's history row and status row
    are in the tables: nothing of the batch was undone. *)
Theorem C3_rollback_keeps_batch_writes :
  let w := mkWorld emptyDB [None; None; None; None; None; Some "commit failed"] 1000 in
  let batch := ingestBatch [meterReading "M1" 100000 24000 1000] in
  result batch w = inl (QueryFailedError "commit failed")
  /\ length (meter_telemetry_history (db (exec batch w))) = 1%nat
  /\ dailyOfMeter (db (exec batch w)) "M1" = Some 100000
  /\ db (exec batch w) <> db w.
Proof.
  vm_compute. repeat split; try reflexivity. discriminate.
Qed.

(** ** Device summary *)

Lemma Qltb_0_kwhQ (z : Z) : Qltb 0 (kwhQ z) = (0 <? z).
Proof.
  unfold Qltb, Qle_bool, kwhQ. cbn [Qnum Qden].
  rewrite Z.mul_1_r, Z.mul_0_l. rewrite Z.ltb_antisym. reflexivity.
Qed.

Lemma deliveredSum_positive_rows (rows : list VehicleTelemetryHistory.t) :
  0 < deliveredSum rows -> Nat.eqb (length rows) 0 = false.
Proof. destruct rows; [cbn; lia | reflexivity]. Qed.

(** C6.  When the window holds no history row of the vehicle, the device
    summary fails with NotFound, whatever the meter side holds. *)
Theorem C6_no_vehicle_rows_not_found (cfg : AnalyticsConfig) (d : DB) (now : Z)
    (vehicleId : string) (hours : Z) (meterId : option string) :
  vehicleRows d vehicleId (now - hours * 60 * 60 * 1000) now = [] ->
  getPerformance cfg d now vehicleId hours meterId = inl (NotFoundException vehicleId hours).
Proof.
  intros H. unfold getPerformance. cbv zeta. rewrite H. reflexivity.
Qed.

(** The summary of V1 over [meterOnlyDB], with the meter given. *)
Lemma C6_no_vehicle_rows_witness :
  getPerformance defaultConfig meterOnlyDB 2000 "V1" 24 (Some "M1")
    = inl (NotFoundException "V1" 24).
Proof.
  apply (C6_no_vehicle_rows_not_found defaultConfig meterOnlyDB 2000 "V1" 24 (Some "M1")).
  reflexivity.
Defined.

(** C5, amended.  When the window has a positive delivered sum and a
    consumed sum of zero, the device summary returns a response (it does not
    fail): its consumed energy is the delivered energy divided by the
    assumed efficiency 0.9, and its efficiency ratio is 0.9.  The response
    has no field that tells this estimate from a measurement. *)
Theorem C5_zero_consumed_is_estimated (cfg : AnalyticsConfig) (d : DB) (now : Z)
    (vehicleId : string) (hours : Z) (meterId : option string) :
  let periodStart := now - hours * 60 * 60 * 1000 in
  let rows := vehicleRows d vehicleId periodStart now in
  consumedSum d vehicleId (resolveMeterId d vehicleId meterId) periodStart now = 0 ->
  0 < deliveredSum rows ->
  exists resp,
    getPerformance cfg d now vehicleId hours meterId = inr resp
    /\ PerformanceAnalyticsResponseDto.efficiencyRatio resp = roundTo 10000 (9 # 10)
    /\ (PerformanceAnalyticsResponseDto.efficiencyRatio resp == 9 # 10)%Q
    /\ PerformanceAnalyticsResponseDto.totalKwhConsumedAc resp
       = roundTo 10000 (kwhQ (deliveredSum rows) / (9 # 10))
    /\ PerformanceAnalyticsResponseDto.totalKwhDeliveredDc resp
       = roundTo 10000 (kwhQ (deliveredSum rows)).
Proof.
  intros periodStart rows Hac Hdc.
  unfold getPerformance. cbv zeta. fold periodStart. fold rows.
  rewrite (deliveredSum_positive_rows rows Hdc).
  rewrite Hac. rewrite !Qltb_0_kwhQ.
  replace (0 <? 0) with false by reflexivity.
  replace (0 <? deliveredSum rows) with true by (symmetry; apply Z.ltb_lt; exact Hdc).
  cbv iota beta.
  match goal with
  | |- context [if ?c then _ else _] => destruct c
  end;
  repeat match goal with
  | |- context [if ?c then _ else _] => destruct c
  end;
  eexists; (split; [reflexivity|]); cbn; repeat split; reflexivity.
Qed.

(** The summary of V1 over [estimatedDB]: 10 kWh consumed, ratio 0.9. *)
Lemma C5_zero_consumed_witness :
  exists resp,
    getPerformance defaultConfig estimatedDB 2000 "V1" 24 None = inr resp
    /\ PerformanceAnalyticsResponseDto.efficiencyRatio resp = 9000 # 10000
    /\ PerformanceAnalyticsResponseDto.totalKwhConsumedAc resp = 100000 # 10000.
Proof.
  destruct (C5_zero_consumed_is_estimated defaultConfig estimatedDB 2000 "V1" 24 None)
    as (resp & E & Hr & _ & Hc & _).
  - reflexivity.
  - reflexivity.
  - exists resp. split; [exact E|]. split; [exact Hr | exact Hc].
Defined.

(** The estimated response for [estimatedDB] is the measured response for
    [measuredDB], field by field. *)
Lemma estimated_response_is_a_measured_response :
  getPerformance defaultConfig estimatedDB 2000 "V1" 24 None
    = getPerformance defaultConfig measuredDB 2000 "V1" 24 None
  /\ (exists resp, getPerformance defaultConfig estimatedDB 2000 "V1" 24 None = inr resp)
  /\ consumedSum estimatedDB "V1" (resolveMeterId estimatedDB "V1" None)
       (2000 - 24 * 60 * 60 * 1000) 2000 = 0
  /\ consumedSum measuredDB "V1" (resolveMeterId measuredDB "V1" None)
       (2000 - 24 * 60 * 60 * 1000) 2000 = 100000.
Proof.
  split; [vm_compute; reflexivity|].
  split; [eexists; vm_compute; reflexivity|].
  split; reflexivity.
Qed.

(** C5, as stated, fails: no reading of the response flags the estimate.
    The vehicle of [estimatedDB] (9 kWh delivered, nothing consumed) and
    that of [measuredDB] (9 kWh delivered, 10 kWh measured) get the same
    response. *)
Lemma C5_no_flag_tells_estimated_from_measured :
  ~ exists flag, flagsEstimated flag.
Proof.
  intros [flag Hflag].
  destruct estimated_response_is_a_measured_response as (Heq & [resp He] & Hz & Hm).
  pose proof (Hflag defaultConfig estimatedDB 2000 "V1" 24 None resp He) as [_ H1].
  rewrite Heq in He.
  pose proof (Hflag defaultConfig measuredDB 2000 "V1" 24 None resp He) as [H2 _].
  assert (Hf : flag resp = true).
  { apply H1. split; [exact Hz | reflexivity]. }
  apply H2 in Hf. destruct Hf as [Hf _]. rewrite Hm in Hf. discriminate Hf.
Qed.

(** ** Fleet summary *)





(** ** Upserts of the same device, one after the other *)


(** The daily total, the latest reading and the reading time that a vehicle
    upsert leaves. *)
Lemma vehicleStatusRow_fields (d : DB) (dto : VehicleTelemetryDto.t) (ts : Z)
    (peer : option string) (cs : ChargingState) (warn : bool) (t : Z) :
  let row := vehicleStatusRow d dto ts peer cs warn t in
  VehicleCurrentStatus.kwhDeliveredDc row = VehicleTelemetryDto.kwhDeliveredDc dto
  /\ VehicleCurrentStatus.lastReadingAt row = ts
  /\ VehicleCurrentStatus.dailyKwhDeliveredDc row =
     match vehicle_current_status d !! VehicleTelemetryDto.vehicleId dto with
     | None => VehicleTelemetryDto.kwhDeliveredDc dto
     | Some old =>
         VehicleCurrentStatus.dailyKwhDeliveredDc old +
         (if DATE (VehicleCurrentStatus.lastReadingAt old) <? DATE ts
          then VehicleTelemetryDto.kwhDeliveredDc dto
          else Z.max 0 (VehicleTelemetryDto.kwhDeliveredDc dto
                        - VehicleCurrentStatus.kwhDeliveredDc old))
     end.
Proof.
  unfold vehicleStatusRow.
  destruct (vehicle_current_status d !! VehicleTelemetryDto.vehicleId dto);
    repeat split; reflexivity.
Qed.

(** C9.  A vehicle has a status row and is upserted with a reading that is
    not on a later calendar day than the stored lastReadingAt (the same day
    in particular): the stored dailyKwhDeliveredDc does not decrease,
    whatever kwhDeliveredDc the reading reports, and whether the statement
    runs or throws. *)
Theorem C9_same_day_vehicle_daily_never_decreases (dto : VehicleTelemetryDto.t)
    (ts : Z) (peer : option string) (w : World) (old : VehicleCurrentStatus.t) :
  vehicle_current_status (db w) !! VehicleTelemetryDto.vehicleId dto = Some old ->
  DATE ts <= DATE (VehicleCurrentStatus.lastReadingAt old) ->
  exists new,
    vehicle_current_status (db (exec (upsertVehicleStatus dto ts peer) w))
      !! VehicleTelemetryDto.vehicleId dto = Some new
    /\ VehicleCurrentStatus.dailyKwhDeliveredDc old
       <= VehicleCurrentStatus.dailyKwhDeliveredDc new.
Proof.
  intros Hold Hday. unfold exec, upsertVehicleStatus.
  match goal with
  | |- context [statement ?f w] => destruct (statement_outcome f w) as [[msg E]|E]
  end; rewrite E; cbn [snd db vehicle_current_status].
  - exists old. split; [exact Hold | lia].
  - rewrite lookup_insert_eq. eexists. split; [reflexivity|].
    match goal with
    | |- context [vehicleStatusRow ?d ?dto ?ts ?p ?c ?b ?t] =>
        destruct (vehicleStatusRow_fields d dto ts p c b t) as (_ & _ & Hd)
    end.
    rewrite Hd, Hold.
    replace (DATE (VehicleCurrentStatus.lastReadingAt old) <? DATE ts) with false
      by (symmetry; apply Z.ltb_ge; exact Hday).
    lia.
Qed.

(** V1 of [chargingVehicleDB] reports 5 kWh after 20 kWh on the same day. *)
Lemma C9_same_day_vehicle_witness :
  exists new,
    vehicle_current_status
      (db (exec (upsertVehicleStatus (VehicleTelemetryDto.mk "V1" 5100 50000 3000 2000)
                   2000 None)
             (mkWorld chargingVehicleDB [] 2000))) !! "V1" = Some new
    /\ 200000 <= VehicleCurrentStatus.dailyKwhDeliveredDc new.
Proof.
  apply (C9_same_day_vehicle_daily_never_decreases
           (VehicleTelemetryDto.mk "V1" 5100 50000 3000 2000) 2000 None
           (mkWorld chargingVehicleDB [] 2000)
           (VehicleCurrentStatus.mk "V1" 5000 200000 3000 1000 200000 None
              charging false 1000 1000)).
  - reflexivity.
  - vm_compute. discriminate.
Defined.

(** [threeInFlightDB] is what the service leaves when M1's first reading is
    ingested and the next three ingestions have each appended their history
    row and not yet run their upsert (here: the upsert call is cut off). *)
Example threeInFlightDB_reached :
  runCalls
    [(IngestMeterTelemetry (MeterTelemetryDto.mk "M1" 100000 24000 1000), [], 1000);
     (IngestMeterTelemetry (MeterTelemetryDto.mk "M1" 120000 24000 2000),
      [None; None; Some "pending"], 2000);
     (IngestMeterTelemetry (MeterTelemetryDto.mk "M1" 140000 24000 3000),
      [None; None; Some "pending"], 2000);
     (IngestMeterTelemetry (MeterTelemetryDto.mk "M1" 160000 24000 4000),
      [None; None; Some "pending"], 2000)]
    emptyDB = threeInFlightDB.
Proof. vm_compute. reflexivity. Qed.






(** ** The correlated peer of a status row *)


























(** M1 and V1 are mapped; the mapping is deactivated; both then report
    again.  Their status rows still name each other. *)
Example peer_survives_deactivation :
  let d := runCalls
    [(SetDeviceMapping "M1" "V1", [], 0);
     (IngestMeterTelemetry (MeterTelemetryDto.mk "M1" 100000 24000 1000), [], 1000);
     (IngestVehicleTelemetry (VehicleTelemetryDto.mk "V1" 5000 80000 3000 1000), [], 1000);
     (DeactivateMapping "M1" "V1", [], 2000);
     (IngestMeterTelemetry (MeterTelemetryDto.mk "M1" 110000 24000 3000), [], 3000);
     (IngestVehicleTelemetry (VehicleTelemetryDto.mk "V1" 5100 90000 3000 3000), [], 3000)]
    emptyDB in
  (MeterCurrentStatus.vehicleId <$> (meter_current_status d !! "M1")) = Some (Some "V1")
  /\ (VehicleCurrentStatus.meterId <$> (vehicle_current_status d !! "V1")) = Some (Some "M1")
  /\ map DeviceMapping.isActive (device_mapping d) = [false].
Proof. vm_compute. repeat split; reflexivity. Qed.

(** * Further properties of the telemetry service *)

(** ** Relations kept by every storage call *)

Section Keeps.

Variable R : DB -> DB -> Prop.
Hypothesis R_refl : forall d, R d d.
Hypothesis R_trans : forall d1 d2 d3, R d1 d2 -> R d2 d3 -> R d1 d3.

Lemma keeps_ret {A} (a : A) : keeps R (ret a).
Proof. intros w. apply R_refl. Qed.

Lemma keeps_throw {A} (e : Error) : keeps R (@throw A e).
Proof. intros w. apply R_refl. Qed.

Lemma keeps_bind {A B} (m : M A) (k : A -> M B) :
  keeps R m -> (forall a, keeps R (k a)) -> keeps R (bind m k).
Proof.
  intros Hm Hk w. specialize (Hm w). unfold exec, bind in *.
  destruct (m w) as [[e|a] w1]; cbn [snd] in *; [exact Hm|].
  eapply R_trans; [exact Hm | apply (Hk a w1)].
Qed.

Lemma keeps_try_catch {A} (m : M A) (h : Error -> M A) :
  keeps R m -> (forall e, keeps R (h e)) -> keeps R (try_catch m h).
Proof.
  intros Hm Hh w. specialize (Hm w). unfold exec, try_catch in *.
  destruct (m w) as [[e|a] w1]; cbn [snd] in *; [|exact Hm].
  eapply R_trans; [exact Hm | apply (Hh e w1)].
Qed.

Lemma keeps_finally {A} (m : M A) (f : M unit) :
  keeps R m -> keeps R f -> keeps R (finally m f).
Proof.
  intros Hm Hf w. specialize (Hm w). unfold exec, finally in *.
  destruct (m w) as [r w1]; cbn [snd] in *.
  specialize (Hf w1). unfold exec in Hf.
  destruct (f w1) as [[e|u] w2]; cbn [snd] in *;
    (eapply R_trans; [exact Hm | exact Hf]).
Qed.

Lemma keeps_storage {A} (op : Z -> DB -> (Error + A) * DB) :
  (forall t d, R d (snd (op t d))) -> keeps R (storage op).
Proof.
  intros Hop w. unfold exec.
  destruct (storage_outcome op w) as [(msg & _ & E)|[_ E]]; rewrite E; cbn [snd db].
  - apply R_refl.
  - apply Hop.
Qed.

Lemma keeps_query {A} (f : DB -> A) : keeps R (query f).
Proof. apply keeps_storage. intros t d. apply R_refl. Qed.

Lemma keeps_statement (f : Z -> DB -> DB) :
  (forall t d, R d (f t d)) -> keeps R (statement f).
Proof. intros H. apply keeps_storage. exact H. Qed.

(** What the two single-reading ingestions keep, the polymorphic entry
    point and the batch keep. *)
Hypothesis keeps_meter : forall dto, keeps R (ingestMeterTelemetry dto).
Hypothesis keeps_vehicle : forall dto, keeps R (ingestVehicleTelemetry dto).

Lemma keeps_ingestPolymorphic (dto : PolymorphicTelemetryDto.t) :
  keeps R (ingestPolymorphic dto).
Proof.
  assert (Hrej : forall A, keeps R (@rejectedIngest A)).
  { intros A. unfold rejectedIngest.
    apply keeps_bind; [apply keeps_query | intros _].
    apply keeps_storage. intros t d. apply R_refl. }
  unfold ingestPolymorphic.
  repeat match goal with
  | |- keeps R (match ?x with _ => _ end) => destruct x
  end;
  try apply Hrej;
  (apply keeps_bind; [| intros _; apply keeps_ret]);
  [apply keeps_meter | apply keeps_vehicle ..].
Qed.

Lemma keeps_ingestBatchLoop (readings : list PolymorphicTelemetryDto.t) :
  forall acc, keeps R (ingestBatchLoop readings acc).
Proof.
  induction readings as [|reading rest IH]; intros acc; cbn [ingestBatchLoop].
  - apply keeps_ret.
  - apply keeps_bind; [| intros acc'; apply IH].
    apply keeps_try_catch; [| intros e; apply keeps_ret].
    apply keeps_bind; [apply keeps_ingestPolymorphic | intros _; apply keeps_ret].
Qed.

Lemma keeps_ingestBatch (readings : list PolymorphicTelemetryDto.t) :
  keeps R (ingestBatch readings).
Proof.
  assert (Hrun : keeps R (statement (fun _ d => d))).
  { apply keeps_statement. intros t d. apply R_refl. }
  unfold ingestBatch.
  apply keeps_bind; [exact Hrun | intros _].
  apply keeps_bind; [exact Hrun | intros _].
  apply keeps_finally; [| apply keeps_ret].
  apply keeps_try_catch.
  - apply keeps_bind; [apply keeps_ingestBatchLoop | intros r].
    apply keeps_bind; [exact Hrun | intros _; apply keeps_ret].
  - intros e. apply keeps_bind; [exact Hrun | intros _; apply keeps_throw].
Qed.

Lemma keeps_perform_ingestion (c : Call) :
  isIngestion c = true -> keeps R (perform c).
Proof.
  destruct c; cbn [isIngestion perform]; intros H; try discriminate H.
  - apply keeps_bind; [apply keeps_ingestPolymorphic | intros _; apply keeps_ret].
  - apply keeps_bind; [apply keeps_ingestBatch | intros _; apply keeps_ret].
  - apply keeps_meter.
  - apply keeps_vehicle.
Qed.

Lemma runCalls_ingestion_keeps (calls : list (Call * list (option string) * Z)) :
  forallb (fun c => isIngestion (fst (fst c))) calls = true ->
  forall d, R d (runCalls calls d).
Proof.
  induction calls as [|[[c fs] t] rest IH]; intros Hall d; cbn [runCalls].
  - apply R_refl.
  - cbn in Hall. apply andb_prop in Hall as [Hc Hrest].
    eapply R_trans; [| apply (IH Hrest)].
    apply (keeps_perform_ingestion c Hc (mkWorld d fs t)).
Qed.

Hypothesis keeps_set : forall m v, keeps R (setDeviceMapping m v).
Hypothesis keeps_deactivate : forall m v, keeps R (deactivateMapping m v).

Lemma keeps_perform (c : Call) : keeps R (perform c).
Proof.
  destruct (isIngestion c) eqn:E; [exact (keeps_perform_ingestion c E)|].
  destruct c; try discriminate E; cbn [perform].
  - apply keeps_set.
  - apply keeps_deactivate.
Qed.

Lemma runCalls_keeps (calls : list (Call * list (option string) * Z)) :
  forall d, R d (runCalls calls d).
Proof.
  induction calls as [|[[c fs] t] rest IH]; intros d; cbn [runCalls].
  - apply R_refl.
  - eapply R_trans; [| apply IH].
    apply (keeps_perform c (mkWorld d fs t)).
Qed.

End Keeps.

(** A single-reading ingestion keeps what its insert and its upsert keep. *)
Lemma keeps_ingestMeterTelemetry (R : DB -> DB -> Prop) :
  (forall d, R d d) ->
  (forall d1 d2 d3, R d1 d2 -> R d2 d3 -> R d1 d3) ->
  (forall dto ts peer t d, R d (insertMeterHistory dto ts peer t d)) ->
  (forall dto ts peer, keeps R (upsertMeterStatus dto ts peer)) ->
  forall dto, keeps R (ingestMeterTelemetry dto).
Proof.
  intros Hrefl Htrans Hins Hup dto. unfold ingestMeterTelemetry.
  apply keeps_bind; [exact Htrans | apply keeps_query; exact Hrefl | intros mapping].
  apply keeps_bind; [exact Htrans | | intros _; apply Hup].
  apply keeps_statement; [exact Hrefl|]. intros t d. apply Hins.
Qed.

Lemma keeps_ingestVehicleTelemetry (R : DB -> DB -> Prop) :
  (forall d, R d d) ->
  (forall d1 d2 d3, R d1 d2 -> R d2 d3 -> R d1 d3) ->
  (forall dto ts peer t d, R d (insertVehicleHistory dto ts peer t d)) ->
  (forall dto ts peer, keeps R (upsertVehicleStatus dto ts peer)) ->
  forall dto, keeps R (ingestVehicleTelemetry dto).
Proof.
  intros Hrefl Htrans Hins Hup dto. unfold ingestVehicleTelemetry.
  apply keeps_bind; [exact Htrans | apply keeps_query; exact Hrefl | intros mapping].
  apply keeps_bind; [exact Htrans | | intros _; apply Hup].
  apply keeps_statement; [exact Hrefl|]. intros t d. apply Hins.
Qed.

Lemma preserves_refl (I : DB -> Prop) (d : DB) : preserves I d d.
Proof. intros H. exact H. Qed.

Lemma preserves_trans (I : DB -> Prop) (d1 d2 d3 : DB) :
  preserves I d1 d2 -> preserves I d2 d3 -> preserves I d1 d3.
Proof. intros H12 H23 H. exact (H23 (H12 H)). Qed.

(** ** The Cold Store is append-only *)

Lemma historyGrows_refl (d : DB) : historyGrows d d.
Proof. split; reflexivity. Qed.

Lemma historyGrows_trans (d1 d2 d3 : DB) :
  historyGrows d1 d2 -> historyGrows d2 d3 -> historyGrows d1 d3.
Proof. intros [M12 V12] [M23 V23]. split; etransitivity; eassumption. Qed.

Lemma historyGrows_same (d d' : DB) :
  meter_telemetry_history d' = meter_telemetry_history d ->
  vehicle_telemetry_history d' = vehicle_telemetry_history d ->
  historyGrows d d'.
Proof. intros Hm Hv. split; [rewrite Hm | rewrite Hv]; reflexivity. Qed.

(** X1.  Over any history of service calls, with any storage faults, the
    rows that the two history tables held are still there, unchanged and in
    the same order, as an initial segment of what the tables hold
    afterwards: no call updates or deletes a history row. *)
Theorem history_tables_are_append_only
    (calls : list (Call * list (option string) * Z)) (d : DB) :
  meter_telemetry_history d `prefix_of` meter_telemetry_history (runCalls calls d)
  /\ vehicle_telemetry_history d `prefix_of` vehicle_telemetry_history (runCalls calls d).
Proof.
  change (historyGrows d (runCalls calls d)).
  apply runCalls_keeps.
  - exact historyGrows_refl.
  - exact historyGrows_trans.
  - apply keeps_ingestMeterTelemetry;
      [exact historyGrows_refl | exact historyGrows_trans | |].
    + intros dto ts peer t d0. split; cbn; [apply prefix_app_r|]; reflexivity.
    + intros dto ts peer. apply keeps_statement; [exact historyGrows_refl|].
      intros t d0. apply historyGrows_same; reflexivity.
  - apply keeps_ingestVehicleTelemetry;
      [exact historyGrows_refl | exact historyGrows_trans | |].
    + intros dto ts peer t d0. split; cbn; [|apply prefix_app_r]; reflexivity.
    + intros dto ts peer. apply keeps_statement; [exact historyGrows_refl|].
      intros t d0. apply historyGrows_same; reflexivity.
  - intros m v. unfold setDeviceMapping.
    apply keeps_bind; [exact historyGrows_trans | | intros _].
    { apply keeps_statement; [exact historyGrows_refl|].
      intros t d0. apply historyGrows_same; reflexivity. }
    apply keeps_bind; [exact historyGrows_trans | | intros _];
      (apply keeps_statement; [exact historyGrows_refl|];
       intros t d0; apply historyGrows_same; reflexivity).
  - intros m v. unfold deactivateMapping.
    apply keeps_statement; [exact historyGrows_refl|].
    intros t d0. apply historyGrows_same; reflexivity.
Qed.

(** ** The Correlation Store is written by the mapping operations only *)

(** X2.  Over any history of ingestion calls (single or batched, of either
    stream, with any storage faults) the mapping table is left exactly as
    it was: ingestion reads the links and never creates, changes or removes
    one. *)
Theorem ingestion_never_writes_the_mapping_table
    (calls : list (Call * list (option string) * Z)) (d : DB) :
  forallb (fun c => isIngestion (fst (fst c))) calls = true ->
  device_mapping (runCalls calls d) = device_mapping d.
Proof.
  intros Hall.
  apply (runCalls_ingestion_keeps (fun d d' => device_mapping d' = device_mapping d)).
  - reflexivity.
  - intros d1 d2 d3 H12 H23. rewrite H23. exact H12.
  - apply keeps_ingestMeterTelemetry.
    + reflexivity.
    + intros d1 d2 d3 H12 H23. rewrite H23. exact H12.
    + reflexivity.
    + intros dto ts peer. apply keeps_statement; reflexivity.
  - apply keeps_ingestVehicleTelemetry.
    + reflexivity.
    + intros d1 d2 d3 H12 H23. rewrite H23. exact H12.
    + reflexivity.
    + intros dto ts peer. apply keeps_statement; reflexivity.
  - exact Hall.
Qed.

(** The ingestions of [sampleIngestions] on a store with one link. *)
Lemma ingestion_never_writes_the_mapping_table_witness :
  device_mapping (runCalls sampleIngestions meterOnlyDB) = device_mapping meterOnlyDB.
Proof.
  apply (ingestion_never_writes_the_mapping_table sampleIngestions meterOnlyDB).
  reflexivity.
Defined.

Lemma samePair_true (m v : string) (r : DeviceMapping.t) :
  samePair m v r = true <-> (DeviceMapping.meterId r, DeviceMapping.vehicleId r) = (m, v).
Proof.
  unfold samePair. rewrite andb_true_iff, !String.eqb_eq.
  split; [intros [-> ->]; reflexivity | intros H; inversion H; split; reflexivity].
Qed.

Lemma mappingKeys_map (f : DeviceMapping.t -> DeviceMapping.t) (l : list DeviceMapping.t) :
  (forall r, DeviceMapping.meterId (f r) = DeviceMapping.meterId r
             /\ DeviceMapping.vehicleId (f r) = DeviceMapping.vehicleId r) ->
  map (fun r => (DeviceMapping.meterId r, DeviceMapping.vehicleId r)) (map f l)
  = map (fun r => (DeviceMapping.meterId r, DeviceMapping.vehicleId r)) l.
Proof.
  intros Hf. rewrite map_map. apply map_ext. intros r.
  destruct (Hf r) as [-> ->]. reflexivity.
Qed.

Lemma mappingKeys_upsertMapping (m v : string) (t : Z) (d : DB) :
  mappingKeys (upsertMapping m v t d)
  = if existsb (samePair m v) (device_mapping d)
    then mappingKeys d
    else mappingKeys d ++ [(m, v)].
Proof.
  unfold mappingKeys, upsertMapping. cbn [device_mapping].
  destruct (existsb (samePair m v) (device_mapping d)).
  - apply mappingKeys_map. intros r. destruct (samePair m v r); split; reflexivity.
  - rewrite map_app. reflexivity.
Qed.

Lemma mappingKeys_deactivateRows (m v : string) (t : Z) (d : DB) :
  mappingKeys (deactivateRows m v t d) = mappingKeys d.
Proof.
  unfold mappingKeys, deactivateRows. cbn [device_mapping].
  apply mappingKeys_map. intros r. destruct (samePair m v r); split; reflexivity.
Qed.

Lemma existsb_samePair_false (m v : string) (d : DB) :
  existsb (samePair m v) (device_mapping d) = false -> (m, v) ∉ mappingKeys d.
Proof.
  intros Hex Hin. unfold mappingKeys in Hin.
  apply list_elem_of_In, in_map_iff in Hin as (r & Hr & Hin).
  assert (Ht : existsb (samePair m v) (device_mapping d) = true).
  { apply existsb_exists. exists r. split; [exact Hin|]. apply samePair_true. exact Hr. }
  congruence.
Qed.

(** X3.  The pair (meterId, vehicleId) stays a key of the mapping table:
    when no two rows share a pair, no history of service calls, with any
    storage faults, makes two rows share one.  Setting a link that exists
    reactivates its row instead of adding a second one. *)
Theorem mapping_pairs_stay_unique
    (calls : list (Call * list (option string) * Z)) (d : DB) :
  NoDup (mappingKeys d) -> NoDup (mappingKeys (runCalls calls d)).
Proof.
  set (I := fun d => NoDup (mappingKeys d)).
  change (preserves I d (runCalls calls d)).
  assert (Hsame : forall d0 d1, device_mapping d1 = device_mapping d0 -> preserves I d0 d1).
  { intros d0 d1 E H. unfold I, mappingKeys in *. rewrite E. exact H. }
  apply runCalls_keeps.
  - exact (preserves_refl I).
  - exact (preserves_trans I).
  - apply keeps_ingestMeterTelemetry;
      [exact (preserves_refl I) | exact (preserves_trans I) | |].
    + intros dto ts peer t d0. apply Hsame. reflexivity.
    + intros dto ts peer. apply keeps_statement; [exact (preserves_refl I)|].
      intros t d0. apply Hsame. reflexivity.
  - apply keeps_ingestVehicleTelemetry;
      [exact (preserves_refl I) | exact (preserves_trans I) | |].
    + intros dto ts peer t d0. apply Hsame. reflexivity.
    + intros dto ts peer. apply keeps_statement; [exact (preserves_refl I)|].
      intros t d0. apply Hsame. reflexivity.
  - intros m v. unfold setDeviceMapping.
    apply keeps_bind; [exact (preserves_trans I) | | intros _].
    { apply keeps_statement; [exact (preserves_refl I)|].
      intros t d0 H. unfold I in *. rewrite mappingKeys_upsertMapping.
      destruct (existsb (samePair m v) (device_mapping d0)) eqn:E; [exact H|].
      apply NoDup_app. split; [exact H|]. split.
      - intros x Hx Hx'. apply list_elem_of_singleton in Hx'. subst x.
        exact (existsb_samePair_false m v d0 E Hx).
      - apply NoDup_singleton. }
    apply keeps_bind; [exact (preserves_trans I) | | intros _];
      (apply keeps_statement; [exact (preserves_refl I)|];
       intros t d0; apply Hsame; reflexivity).
  - intros m v. unfold deactivateMapping.
    apply keeps_statement; [exact (preserves_refl I)|].
    intros t d0 H. unfold I in *. rewrite mappingKeys_deactivateRows. exact H.
Qed.

(** [sampleCalls] followed by the same link set again, from the empty
    store: one row for the pair (M1, V1). *)
Lemma mapping_pairs_stay_unique_witness :
  NoDup (mappingKeys (runCalls (sampleCalls ++ [(SetDeviceMapping "M1" "V1", [], 4000)])
                        emptyDB)).
Proof.
  apply (mapping_pairs_stay_unique
           (sampleCalls ++ [(SetDeviceMapping "M1" "V1", [], 4000)]) emptyDB).
  vm_compute. constructor.
Defined.

(** ** What the persisted status rows always show *)

Ltac step_storage :=
  match goal with
  | |- context [statement ?f ?w] =>
      let msg := fresh "msg" in
      let E := fresh "E" in
      destruct (statement_outcome f w) as [[msg E]|E]; rewrite E; clear E
  | |- context [query ?f ?w] =>
      let msg := fresh "msg" in
      let E := fresh "E" in
      destruct (query_outcome f w) as [[msg E]|E]; rewrite E; clear E
  end.

Lemma classified_upsertMeterStatus (dto : MeterTelemetryDto.t) (ts : Z) (peer : option string) :
  keeps (preserves classified) (upsertMeterStatus dto ts peer).
Proof.
  apply keeps_statement; [exact (preserves_refl classified)|].
  intros t d [Hm Hv]. split; cbn [meter_current_status vehicle_current_status].
  - intros m r. destruct (decide (MeterTelemetryDto.meterId dto = m)) as [<-|Hne].
    + rewrite lookup_insert_eq. intros [= <-]. unfold meterStatusRow.
      destruct (meter_current_status d !! MeterTelemetryDto.meterId dto);
        split; reflexivity.
    + rewrite lookup_insert_ne by exact Hne. apply Hm.
  - exact Hv.
Qed.

Lemma classified_upsertVehicleStatus (dto : VehicleTelemetryDto.t) (ts : Z)
    (peer : option string) :
  keeps (preserves classified) (upsertVehicleStatus dto ts peer).
Proof.
  apply keeps_statement; [exact (preserves_refl classified)|].
  intros t d [Hm Hv]. split; cbn [meter_current_status vehicle_current_status].
  - exact Hm.
  - intros v r. destruct (decide (VehicleTelemetryDto.vehicleId dto = v)) as [<-|Hne].
    + rewrite lookup_insert_eq. intros [= <-]. unfold vehicleStatusRow.
      destruct (vehicle_current_status d !! VehicleTelemetryDto.vehicleId dto);
        repeat split; reflexivity.
    + rewrite lookup_insert_ne by exact Hne. apply Hv.
Qed.

Lemma classified_same_status (d d' : DB) :
  meter_current_status d' = meter_current_status d ->
  vehicle_current_status d' = vehicle_current_status d ->
  preserves classified d d'.
Proof.
  intros Em Ev [Hm Hv]. split; [rewrite Em | rewrite Ev]; assumption.
Qed.

Lemma runCalls_classified
    (calls : list (Call * list (option string) * Z)) (d : DB) :
  classified d -> classified (runCalls calls d).
Proof.
  change (preserves classified d (runCalls calls d)).
  apply runCalls_keeps.
  - exact (preserves_refl classified).
  - exact (preserves_trans classified).
  - apply keeps_ingestMeterTelemetry;
      [exact (preserves_refl classified) | exact (preserves_trans classified) | |].
    + intros dto ts peer t d0. apply classified_same_status; reflexivity.
    + exact classified_upsertMeterStatus.
  - apply keeps_ingestVehicleTelemetry;
      [exact (preserves_refl classified) | exact (preserves_trans classified) | |].
    + intros dto ts peer t d0. apply classified_same_status; reflexivity.
    + exact classified_upsertVehicleStatus.
  - intros m v. unfold setDeviceMapping.
    apply keeps_bind; [exact (preserves_trans classified) | | intros _].
    { apply keeps_statement; [exact (preserves_refl classified)|].
      intros t d0. apply classified_same_status; reflexivity. }
    apply keeps_bind; [exact (preserves_trans classified) | | intros _];
      (apply keeps_statement; [exact (preserves_refl classified)|]);
      intros t d0 [Hm Hv]; split;
      cbn [updateMeterPeer updateVehiclePeer meter_current_status vehicle_current_status];
      try assumption.
    + intros k r. rewrite lookup_alter.
      destruct (decide (m = k)) as [<-|Hne]; [|apply Hm].
      destruct (meter_current_status d0 !! m) as [r0|] eqn:E; [|discriminate].
      intros [= <-]. exact (Hm m r0 E).
    + intros k r. rewrite lookup_alter.
      destruct (decide (v = k)) as [<-|Hne]; [|apply Hv].
      destruct (vehicle_current_status d0 !! v) as [r0|] eqn:E; [|discriminate].
      intros [= <-]. exact (Hv v r0 E).
  - intros m v. unfold deactivateMapping.
    apply keeps_statement; [exact (preserves_refl classified)|].
    intros t d0. apply classified_same_status; reflexivity.
Qed.


Lemma classified_emptyDB : classified emptyDB.
Proof.
  split; intros k r H; unfold emptyDB in H; cbn in H;
    rewrite lookup_empty in H; discriminate H.
Qed.


Lemma hotReflectsCold_grow (d d' : DB) :
  meter_current_status d' = meter_current_status d ->
  vehicle_current_status d' = vehicle_current_status d ->
  historyGrows d d' ->
  preserves hotReflectsCold d d'.
Proof.
  intros Em Ev [[lm Hm] [lv Hv]] [Im Iv]. split.
  - intros m r H. rewrite Em in H. destruct (Im m r H) as (h & Hin & Hrest).
    exists h. split; [|exact Hrest]. rewrite Hm. apply elem_of_app. left. exact Hin.
  - intros v r H. rewrite Ev in H. destruct (Iv v r H) as (h & Hin & Hrest).
    exists h. split; [|exact Hrest]. rewrite Hv. apply elem_of_app. left. exact Hin.
Qed.

Lemma hotReflectsCold_ingestMeterTelemetry (dto : MeterTelemetryDto.t) :
  keeps (preserves hotReflectsCold) (ingestMeterTelemetry dto).
Proof.
  intros w. unfold exec, ingestMeterTelemetry, upsertMeterStatus, bind.
  step_storage; cbn [snd db]; [apply preserves_refl|].
  step_storage; cbn [snd db]; [apply preserves_refl|].
  assert (Hins : forall peer t,
            preserves hotReflectsCold (db w)
              (insertMeterHistory dto (MeterTelemetryDto.timestamp dto) peer t (db w))).
  { intros peer t. apply hotReflectsCold_grow; try reflexivity.
    split; cbn; [apply prefix_app_r|]; reflexivity. }
  match goal with
  | |- context [insertMeterHistory dto ?ts ?p ?t (db w)] => pose proof (Hins p t) as Hd1
  end.
  step_storage; cbn [snd db]; [exact Hd1|].
  intros HI. destruct (Hd1 HI) as [Im Iv].
  split; cbn [meter_current_status vehicle_current_status
              meter_telemetry_history vehicle_telemetry_history insertMeterHistory].
  - intros m r. destruct (decide (MeterTelemetryDto.meterId dto = m)) as [<-|Hne].
    + rewrite lookup_insert_eq. intros [= <-].
      eexists. split; [apply elem_of_app; right; apply list_elem_of_singleton; reflexivity|].
      unfold meterStatusRow.
      match goal with |- context [match ?x with _ => _ end] => destruct x end;
        repeat split; reflexivity.
    + rewrite lookup_insert_ne by exact Hne. intros H. exact (Im m r H).
  - exact Iv.
Qed.

Lemma hotReflectsCold_ingestVehicleTelemetry (dto : VehicleTelemetryDto.t) :
  keeps (preserves hotReflectsCold) (ingestVehicleTelemetry dto).
Proof.
  intros w. unfold exec, ingestVehicleTelemetry, upsertVehicleStatus, bind.
  step_storage; cbn [snd db]; [apply preserves_refl|].
  step_storage; cbn [snd db]; [apply preserves_refl|].
  assert (Hins : forall peer t,
            preserves hotReflectsCold (db w)
              (insertVehicleHistory dto (VehicleTelemetryDto.timestamp dto) peer t (db w))).
  { intros peer t. apply hotReflectsCold_grow; try reflexivity.
    split; cbn; [|apply prefix_app_r]; reflexivity. }
  match goal with
  | |- context [insertVehicleHistory dto ?ts ?p ?t (db w)] => pose proof (Hins p t) as Hd1
  end.
  step_storage; cbn [snd db]; [exact Hd1|].
  intros HI. destruct (Hd1 HI) as [Im Iv].
  split; cbn [meter_current_status vehicle_current_status
              meter_telemetry_history vehicle_telemetry_history insertVehicleHistory].
  - exact Im.
  - intros v r. destruct (decide (VehicleTelemetryDto.vehicleId dto = v)) as [<-|Hne].
    + rewrite lookup_insert_eq. intros [= <-].
      eexists. split; [apply elem_of_app; right; apply list_elem_of_singleton; reflexivity|].
      unfold vehicleStatusRow.
      match goal with |- context [match ?x with _ => _ end] => destruct x end;
        repeat split; reflexivity.
    + rewrite lookup_insert_ne by exact Hne. intros H. exact (Iv v r H).
Qed.

(** X5.  The Hot Store never shows a reading the Cold Store lacks: if every
    status row carries the values (reading, timestamp) of some history row
    of its device, this is still so after any history of service calls
    with any storage faults.  The converse can fail: a history row may have
    no status row that reflects it. *)
Theorem status_rows_always_reflect_a_history_row
    (calls : list (Call * list (option string) * Z)) (d : DB) :
  hotReflectsCold d -> hotReflectsCold (runCalls calls d).
Proof.
  change (preserves hotReflectsCold d (runCalls calls d)).
  apply runCalls_keeps.
  - exact (preserves_refl hotReflectsCold).
  - exact (preserves_trans hotReflectsCold).
  - exact hotReflectsCold_ingestMeterTelemetry.
  - exact hotReflectsCold_ingestVehicleTelemetry.
  - intros m v. unfold setDeviceMapping.
    apply keeps_bind; [exact (preserves_trans hotReflectsCold) | | intros _].
    { apply keeps_statement; [exact (preserves_refl hotReflectsCold)|].
      intros t d0. apply hotReflectsCold_grow; try reflexivity. apply historyGrows_same; reflexivity. }
    apply keeps_bind; [exact (preserves_trans hotReflectsCold) | | intros _];
      (apply keeps_statement; [exact (preserves_refl hotReflectsCold)|]);
      intros t d0 [Im Iv]; split;
      cbn [updateMeterPeer updateVehiclePeer meter_current_status vehicle_current_status
           meter_telemetry_history vehicle_telemetry_history];
      try assumption.
    + intros k r. rewrite lookup_alter.
      destruct (decide (m = k)) as [<-|Hne]; [|apply Im].
      destruct (meter_current_status d0 !! m) as [r0|] eqn:E; [|discriminate].
      intros [= <-]. exact (Im m r0 E).
    + intros k r. rewrite lookup_alter.
      destruct (decide (v = k)) as [<-|Hne]; [|apply Iv].
      destruct (vehicle_current_status d0 !! v) as [r0|] eqn:E; [|discriminate].
      intros [= <-]. exact (Iv v r0 E).
  - intros m v. unfold deactivateMapping.
    apply keeps_statement; [exact (preserves_refl hotReflectsCold)|].
    intros t d0. apply hotReflectsCold_grow; try reflexivity. apply historyGrows_same; reflexivity.
Qed.

(** [sampleCalls] from the empty store. *)
Lemma status_rows_always_reflect_a_history_row_witness :
  hotReflectsCold (runCalls sampleCalls emptyDB).
Proof.
  apply (status_rows_always_reflect_a_history_row sampleCalls emptyDB).
  split; intros k r H; vm_compute in H; discriminate H.
Defined.

(** ** What a successful call has written *)

(** X6.  When a meter ingestion returns without throwing, whatever faults
    were pending, both writes are in place: the meter history has exactly
    one new row at its end, with the reading's values, the server time and
    the vehicle of the meter's first active link (none for an empty id);
    the status row of the meter shows the reading's values and time (also
    when the reading is older than the one stored before) and is online;
    every other status row, the vehicle tables and the mapping table are
    untouched. *)
Theorem successful_meter_ingestion_writes_both_stores
    (dto : MeterTelemetryDto.t) (w w' : World) (u : unit) :
  ingestMeterTelemetry dto w = (inr u, w') ->
  let id := MeterTelemetryDto.meterId dto in
  let peer := DeviceMapping.vehicleId <$> findActiveByMeter id (db w) in
  meter_telemetry_history (db w')
    = meter_telemetry_history (db w)
      ++ [MeterTelemetryHistory.mk (length (meter_telemetry_history (db w))) id
            (MeterTelemetryDto.kwhConsumedAc dto) (MeterTelemetryDto.voltage dto)
            (MeterTelemetryDto.timestamp dto) (now w) (orNull peer)]
  /\ (exists row,
        meter_current_status (db w') !! id = Some row
        /\ MeterCurrentStatus.kwhConsumedAc row = MeterTelemetryDto.kwhConsumedAc dto
        /\ MeterCurrentStatus.voltage row = MeterTelemetryDto.voltage dto
        /\ MeterCurrentStatus.lastReadingAt row = MeterTelemetryDto.timestamp dto
        /\ MeterCurrentStatus.status row = online
        /\ MeterCurrentStatus.vehicleId row
           = COALESCE peer (meter_current_status (db w) !! id ≫= MeterCurrentStatus.vehicleId))
  /\ (forall k, k <> id -> meter_current_status (db w') !! k = meter_current_status (db w) !! k)
  /\ vehicle_telemetry_history (db w') = vehicle_telemetry_history (db w)
  /\ vehicle_current_status (db w') = vehicle_current_status (db w)
  /\ device_mapping (db w') = device_mapping (db w).
Proof.
  unfold ingestMeterTelemetry, upsertMeterStatus, bind. intros H.
  run_storage H; [discriminate H|].
  run_storage H; [discriminate H|].
  run_storage H; [discriminate H|].
  inversion H; subst; clear H. cbn [db now].
  cbn [meter_telemetry_history meter_current_status vehicle_telemetry_history
       vehicle_current_status device_mapping insertMeterHistory].
  split; [reflexivity|]. split.
  - rewrite lookup_insert_eq. eexists. split; [reflexivity|].
    unfold meterStatusRow.
    cbn [meter_telemetry_history meter_current_status vehicle_telemetry_history
         vehicle_current_status device_mapping insertMeterHistory].
    destruct (meter_current_status (db w) !! MeterTelemetryDto.meterId dto) as [old|];
      cbn; repeat split; try reflexivity.
    destruct (DeviceMapping.vehicleId <$> findActiveByMeter (MeterTelemetryDto.meterId dto) (db w));
      reflexivity.
  - split; [|repeat split; reflexivity].
    intros k Hk. apply lookup_insert_ne. congruence.
Qed.

(** The second reading of M1 on [meterOnlyDB], where M1 is linked to V1. *)
Lemma successful_meter_ingestion_witness :
  exists row,
    meter_current_status
      (db (exec (ingestMeterTelemetry (MeterTelemetryDto.mk "M1" 120000 24100 2000))
             (mkWorld meterOnlyDB [None] 2000))) !! "M1" = Some row
    /\ MeterCurrentStatus.kwhConsumedAc row = 120000
    /\ MeterCurrentStatus.vehicleId row = Some "V1".
Proof.
  destruct (successful_meter_ingestion_writes_both_stores
              (MeterTelemetryDto.mk "M1" 120000 24100 2000)
              (mkWorld meterOnlyDB [None] 2000)
              (exec (ingestMeterTelemetry (MeterTelemetryDto.mk "M1" 120000 24100 2000))
                    (mkWorld meterOnlyDB [None] 2000)) tt)
    as (_ & (row & Hrow & Hk & _ & _ & _ & Hp) & _).
  - reflexivity.
  - exists row. split; [exact Hrow|]. split; [exact Hk | exact Hp].
Defined.

(** X7.  When a vehicle ingestion returns without throwing, whatever faults
    were pending, both writes are in place: the vehicle history has exactly
    one new row at its end, with the reading's values, the server time and
    the meter of the vehicle's first active link; the status row of the
    vehicle shows the reading's values and time; every other status row,
    the meter tables and the mapping table are untouched. *)
Theorem successful_vehicle_ingestion_writes_both_stores
    (dto : VehicleTelemetryDto.t) (w w' : World) (u : unit) :
  ingestVehicleTelemetry dto w = (inr u, w') ->
  let id := VehicleTelemetryDto.vehicleId dto in
  let peer := DeviceMapping.meterId <$> findActiveByVehicle id (db w) in
  vehicle_telemetry_history (db w')
    = vehicle_telemetry_history (db w)
      ++ [VehicleTelemetryHistory.mk (length (vehicle_telemetry_history (db w))) id
            (VehicleTelemetryDto.soc dto) (VehicleTelemetryDto.kwhDeliveredDc dto)
            (VehicleTelemetryDto.batteryTemp dto) (VehicleTelemetryDto.timestamp dto)
            (now w) (orNull peer)]
  /\ (exists row,
        vehicle_current_status (db w') !! id = Some row
        /\ VehicleCurrentStatus.soc row = VehicleTelemetryDto.soc dto
        /\ VehicleCurrentStatus.kwhDeliveredDc row = VehicleTelemetryDto.kwhDeliveredDc dto
        /\ VehicleCurrentStatus.batteryTemp row = VehicleTelemetryDto.batteryTemp dto
        /\ VehicleCurrentStatus.lastReadingAt row = VehicleTelemetryDto.timestamp dto
        /\ VehicleCurrentStatus.meterId row
           = COALESCE peer (vehicle_current_status (db w) !! id ≫= VehicleCurrentStatus.meterId))
  /\ (forall k, k <> id ->
        vehicle_current_status (db w') !! k = vehicle_current_status (db w) !! k)
  /\ meter_telemetry_history (db w') = meter_telemetry_history (db w)
  /\ meter_current_status (db w') = meter_current_status (db w)
  /\ device_mapping (db w') = device_mapping (db w).
Proof.
  unfold ingestVehicleTelemetry, upsertVehicleStatus, bind. intros H.
  run_storage H; [discriminate H|].
  run_storage H; [discriminate H|].
  run_storage H; [discriminate H|].
  inversion H; subst; clear H. cbn [db now].
  cbn [meter_telemetry_history meter_current_status vehicle_telemetry_history
       vehicle_current_status device_mapping insertVehicleHistory].
  split; [reflexivity|]. split.
  - rewrite lookup_insert_eq. eexists. split; [reflexivity|].
    unfold vehicleStatusRow.
    cbn [meter_telemetry_history meter_current_status vehicle_telemetry_history
         vehicle_current_status device_mapping insertVehicleHistory].
    destruct (vehicle_current_status (db w) !! VehicleTelemetryDto.vehicleId dto) as [old|];
      cbn; repeat split; try reflexivity.
    destruct (DeviceMapping.meterId <$>
                findActiveByVehicle (VehicleTelemetryDto.vehicleId dto) (db w));
      reflexivity.
  - split; [|repeat split; reflexivity].
    intros k Hk. apply lookup_insert_ne. congruence.
Qed.

(** A reading of V1 on [chargingVehicleDB]. *)
Lemma successful_vehicle_ingestion_witness :
  exists row,
    vehicle_current_status
      (db (exec (ingestVehicleTelemetry (VehicleTelemetryDto.mk "V1" 5100 210000 3100 2000))
             (mkWorld chargingVehicleDB [] 2000))) !! "V1" = Some row
    /\ VehicleCurrentStatus.kwhDeliveredDc row = 210000
    /\ VehicleCurrentStatus.lastReadingAt row = 2000.
Proof.
  destruct (successful_vehicle_ingestion_writes_both_stores
              (VehicleTelemetryDto.mk "V1" 5100 210000 3100 2000)
              (mkWorld chargingVehicleDB [] 2000)
              (exec (ingestVehicleTelemetry (VehicleTelemetryDto.mk "V1" 5100 210000 3100 2000))
                    (mkWorld chargingVehicleDB [] 2000)) tt)
    as (_ & (row & Hrow & _ & Hk & _ & Hl & _) & _).
  - reflexivity.
  - exists row. split; [exact Hrow|]. split; [exact Hk | exact Hl].
Defined.

(** ** Links *)

Lemma samePair_refl (m v : string) (c u : Z) (a : bool) :
  samePair m v (DeviceMapping.mk m v a c u) = true.
Proof. apply samePair_true. reflexivity. Qed.

Lemma upsertMapping_has_active_row (m v : string) (t : Z) (d : DB) :
  exists r, r ∈ device_mapping (upsertMapping m v t d)
    /\ DeviceMapping.meterId r = m /\ DeviceMapping.vehicleId r = v
    /\ DeviceMapping.isActive r = true.
Proof.
  unfold upsertMapping. cbn [device_mapping].
  destruct (existsb (samePair m v) (device_mapping d)) eqn:E.
  - apply existsb_exists in E as (r & Hin & Hr).
    exists (DeviceMapping.mk (DeviceMapping.meterId r) (DeviceMapping.vehicleId r) true
              (DeviceMapping.createdAt r) t).
    pose proof (proj1 (samePair_true m v r) Hr) as Hk. injection Hk as Hm Hv.
    split; [|rewrite Hm, Hv; repeat split; reflexivity].
    apply list_elem_of_In, in_map_iff. exists r. cbv beta. rewrite Hr.
    split; [reflexivity | exact Hin].
  - exists (DeviceMapping.mk m v true t t). split; [|repeat split; reflexivity].
    apply elem_of_app. right. apply list_elem_of_singleton. reflexivity.
Qed.

(** X8.  When [setDeviceMapping] returns without throwing, the mapping table
    has an active row for the pair; the status row of the meter, if there
    is one, names the vehicle as its peer, and the status row of the
    vehicle, if there is one, names the meter; no status row is created,
    every other status row is as before, and the history tables are
    untouched. *)
Theorem setDeviceMapping_links_and_backfills
    (m v : string) (w w' : World) (u : unit) :
  setDeviceMapping m v w = (inr u, w') ->
  (exists r, r ∈ device_mapping (db w')
     /\ DeviceMapping.meterId r = m /\ DeviceMapping.vehicleId r = v
     /\ DeviceMapping.isActive r = true)
  /\ meterPeers (db w') !! m = (fun _ => Some v) <$> (meter_current_status (db w) !! m)
  /\ vehiclePeers (db w') !! v = (fun _ => Some m) <$> (vehicle_current_status (db w) !! v)
  /\ (forall k, k <> m -> meter_current_status (db w') !! k = meter_current_status (db w) !! k)
  /\ (forall k, k <> v ->
        vehicle_current_status (db w') !! k = vehicle_current_status (db w) !! k)
  /\ meter_telemetry_history (db w') = meter_telemetry_history (db w)
  /\ vehicle_telemetry_history (db w') = vehicle_telemetry_history (db w).
Proof.
  unfold setDeviceMapping, bind. intros H.
  run_storage H; [discriminate H|].
  run_storage H; [discriminate H|].
  run_storage H; [discriminate H|].
  inversion H; subst; clear H. cbn [db now].
  split; [apply upsertMapping_has_active_row|].
  unfold meterPeers, vehiclePeers.
  cbn [updateVehiclePeer updateMeterPeer upsertMapping meter_telemetry_history
       meter_current_status vehicle_telemetry_history vehicle_current_status].
  rewrite !lookup_fmap, !lookup_alter_eq.
  split; [destruct (meter_current_status (db w) !! m); reflexivity|].
  split; [destruct (vehicle_current_status (db w) !! v); reflexivity|].
  split; [intros k Hk; apply lookup_alter_ne; congruence|].
  split; [intros k Hk; apply lookup_alter_ne; congruence|].
  split; reflexivity.
Qed.

(** Linking M1 and V1 on [unlinkedDB], where both have a status row. *)
Lemma setDeviceMapping_links_and_backfills_witness :
  meterPeers (db (exec (setDeviceMapping "M1" "V1") (mkWorld unlinkedDB [] 2000))) !! "M1"
    = Some (Some "V1")
  /\ vehiclePeers (db (exec (setDeviceMapping "M1" "V1") (mkWorld unlinkedDB [] 2000))) !! "V1"
    = Some (Some "M1").
Proof.
  destruct (setDeviceMapping_links_and_backfills "M1" "V1"
              (mkWorld unlinkedDB [] 2000)
              (exec (setDeviceMapping "M1" "V1") (mkWorld unlinkedDB [] 2000)) tt)
    as (_ & Hm & Hv & _).
  - reflexivity.
  - split; [rewrite Hm | rewrite Hv]; reflexivity.
Defined.

Lemma applied_setDeviceMapping (m v : string) (t : Z) (d : DB) :
  applied (setDeviceMapping m v) t d
  = updateVehiclePeer v m t (updateMeterPeer m v t (upsertMapping m v t d)).
Proof. reflexivity. Qed.

Lemma upsertMapping_pair_rows_active (m v : string) (t : Z) (d : DB) (r : DeviceMapping.t) :
  r ∈ device_mapping (upsertMapping m v t d) ->
  samePair m v r = true -> DeviceMapping.isActive r = true.
Proof.
  unfold upsertMapping. cbn [device_mapping].
  destruct (existsb (samePair m v) (device_mapping d)) eqn:E; intros Hin Hr.
  - apply list_elem_of_In, in_map_iff in Hin as (r0 & <- & Hin0).
    destruct (samePair m v r0) eqn:E0; [reflexivity|]. congruence.
  - apply elem_of_app in Hin as [Hin|Hin].
    + assert (Ht : existsb (samePair m v) (device_mapping d) = true).
      { apply existsb_exists. exists r. split; [apply list_elem_of_In; exact Hin | exact Hr]. }
      congruence.
    + apply list_elem_of_singleton in Hin. subst r. reflexivity.
Qed.

(** X9.  Setting a link is idempotent up to the row timestamps: setting the
    same link a second time adds no mapping row, changes no link's active
    flag and no recorded peer, and leaves the history tables as they are. *)
Theorem setDeviceMapping_twice_is_once (m v : string) (t1 t2 : Z) (d : DB) :
  let once := applied (setDeviceMapping m v) t1 d in
  let twice := applied (setDeviceMapping m v) t2 once in
  linkView twice = linkView once
  /\ meterPeers twice = meterPeers once
  /\ vehiclePeers twice = vehiclePeers once
  /\ meter_telemetry_history twice = meter_telemetry_history once
  /\ vehicle_telemetry_history twice = vehicle_telemetry_history once.
Proof.
  intros once twice. subst twice. rewrite (applied_setDeviceMapping m v t2 once).
  assert (Hmap : device_mapping once = device_mapping (upsertMapping m v t1 d))
    by reflexivity.
  split; [|split; [|split; [|split; reflexivity]]].
  - unfold linkView.
    cbn [updateVehiclePeer updateMeterPeer device_mapping].
    unfold upsertMapping at 1. cbn [device_mapping].
    assert (Hex : existsb (samePair m v) (device_mapping once) = true).
    { rewrite Hmap. destruct (upsertMapping_has_active_row m v t1 d) as (r & Hin & Hm & Hv & _).
      apply existsb_exists. exists r. split; [apply list_elem_of_In; exact Hin|].
      apply samePair_true. rewrite Hm, Hv. reflexivity. }
    rewrite Hex. rewrite map_map. apply map_ext_in. intros r Hin.
    destruct (samePair m v r) eqn:Hr; [|reflexivity].
    cbn. rewrite Hmap in Hin.
    rewrite (upsertMapping_pair_rows_active m v t1 d r (proj2 (list_elem_of_In _ _) Hin) Hr).
    reflexivity.
  - unfold meterPeers. cbn [updateVehiclePeer updateMeterPeer meter_current_status upsertMapping].
    apply map_eq. intros k. rewrite !lookup_fmap, lookup_alter.
    destruct (decide (m = k)) as [<-|Hne]; [|reflexivity].
    unfold once. rewrite applied_setDeviceMapping.
    cbn [updateVehiclePeer updateMeterPeer meter_current_status upsertMapping].
    rewrite lookup_alter_eq.
    destruct (meter_current_status d !! m); reflexivity.
  - unfold vehiclePeers.
    cbn [updateVehiclePeer updateMeterPeer vehicle_current_status upsertMapping].
    apply map_eq. intros k. rewrite !lookup_fmap, lookup_alter.
    destruct (decide (v = k)) as [<-|Hne]; [|reflexivity].
    unfold once. rewrite applied_setDeviceMapping.
    cbn [updateVehiclePeer updateMeterPeer vehicle_current_status upsertMapping].
    rewrite lookup_alter_eq.
    destruct (vehicle_current_status d !! v); reflexivity.
Qed.

Lemma upsertMapping_rows (m v : string) (t : Z) (d : DB) (r : DeviceMapping.t) :
  r ∈ device_mapping (upsertMapping m v t d) ->
  samePair m v r = true \/ r ∈ device_mapping d.
Proof.
  unfold upsertMapping. cbn [device_mapping].
  destruct (existsb (samePair m v) (device_mapping d)) eqn:E; intros Hin.
  - apply list_elem_of_In, in_map_iff in Hin as (r0 & <- & Hin0).
    destruct (samePair m v r0) eqn:E0.
    + left. apply samePair_true. cbn. apply samePair_true in E0. exact E0.
    + right. apply list_elem_of_In. exact Hin0.
  - apply elem_of_app in Hin as [Hin|Hin]; [right; exact Hin|].
    apply list_elem_of_singleton in Hin. subst r. left. apply samePair_refl.
Qed.

Lemma find_none_intro {A} (f : A -> bool) (l : list A) :
  (forall x, In x l -> f x = false) -> List.find f l = None.
Proof.
  induction l as [|x l IH]; intros H; [reflexivity|]. cbn.
  rewrite (H x (or_introl eq_refl)). apply IH. intros y Hy. apply H. right. exact Hy.
Qed.

Lemma orNull_nonempty (s : string) : s <> "" -> orNull (Some s) = Some s.
Proof.
  intros H. unfold orNull. destruct (String.eqb s "") eqn:E; [|reflexivity].
  apply String.eqb_eq in E. contradiction.
Qed.

Lemma applied_ingestMeterTelemetry (dto : MeterTelemetryDto.t) (t : Z) (d : DB) :
  let ts := MeterTelemetryDto.timestamp dto in
  let peer := DeviceMapping.vehicleId <$> findActiveByMeter (MeterTelemetryDto.meterId dto) d in
  let d1 := insertMeterHistory dto ts (orNull peer) t d in
  applied (ingestMeterTelemetry dto) t d
  = mkDB (meter_telemetry_history d1) (vehicle_telemetry_history d1)
      (<[MeterTelemetryDto.meterId dto := meterStatusRow d1 dto ts peer t]>
         (meter_current_status d1))
      (vehicle_current_status d1) (device_mapping d1).
Proof. reflexivity. Qed.

Lemma applied_ingestVehicleTelemetry (dto : VehicleTelemetryDto.t) (t : Z) (d : DB) :
  let ts := VehicleTelemetryDto.timestamp dto in
  let peer := DeviceMapping.meterId <$> findActiveByVehicle (VehicleTelemetryDto.vehicleId dto) d in
  let d1 := insertVehicleHistory dto ts (orNull peer) t d in
  applied (ingestVehicleTelemetry dto) t d
  = mkDB (meter_telemetry_history d1) (vehicle_telemetry_history d1)
      (meter_current_status d1)
      (<[VehicleTelemetryDto.vehicleId dto :=
           vehicleStatusRow d1 dto ts peer
             (if 0 <? VehicleTelemetryDto.kwhDeliveredDc dto then charging else idle)
             (BATTERY_TEMP_WARNING <=? VehicleTelemetryDto.batteryTemp dto) t]>
         (vehicle_current_status d1))
      (device_mapping d1).
Proof. reflexivity. Qed.

(** X10.  After a link (m, v) is set, a reading of vehicle v is tagged with
    m in both stores: its history row and the vehicle's status row name
    meter m.  This needs m not to be the empty id and v to have no active
    link to another meter (the lookup takes the first active link of the
    vehicle in storage order). *)
Theorem reading_after_link_is_tagged_with_the_meter
    (m : string) (dto : VehicleTelemetryDto.t) (t1 t2 : Z) (d : DB) :
  m <> "" ->
  (forall r, r ∈ device_mapping d ->
     DeviceMapping.vehicleId r = VehicleTelemetryDto.vehicleId dto ->
     DeviceMapping.isActive r = true -> DeviceMapping.meterId r = m) ->
  let v := VehicleTelemetryDto.vehicleId dto in
  let d2 := applied (ingestVehicleTelemetry dto) t2 (applied (setDeviceMapping m v) t1 d) in
  (exists h, last (vehicle_telemetry_history d2) = Some h
     /\ VehicleTelemetryHistory.vehicleId h = v
     /\ VehicleTelemetryHistory.kwhDeliveredDc h = VehicleTelemetryDto.kwhDeliveredDc dto
     /\ VehicleTelemetryHistory.meterId h = Some m)
  /\ vehiclePeers d2 !! v = Some (Some m).
Proof.
  intros Hm Hactive v d2.
  set (d1 := applied (setDeviceMapping m v) t1 d) in *.
  assert (Hmap : device_mapping d1 = device_mapping (upsertMapping m v t1 d)) by reflexivity.
  assert (Hfind : DeviceMapping.meterId <$> findActiveByVehicle v d1 = Some m).
  { unfold findActiveByVehicle. rewrite Hmap.
    destruct (List.find _ _) as [r|] eqn:E.
    - apply find_some in E as [Hin Hf]. apply andb_prop in Hf as [Hv Ha].
      apply String.eqb_eq in Hv. cbn. f_equal.
      destruct (upsertMapping_rows m v t1 d r (proj2 (list_elem_of_In _ _) Hin)) as [Hp|Hold].
      + apply samePair_true in Hp. injection Hp as Hp _. exact Hp.
      + exact (Hactive r Hold Hv Ha).
    - exfalso. destruct (upsertMapping_has_active_row m v t1 d) as (r & Hin & Hrm & Hrv & Ha).
      pose proof (find_none _ _ E r (proj1 (list_elem_of_In _ _) Hin)) as Hf.
      cbv beta in Hf. rewrite Hrv, Ha, String.eqb_refl in Hf. discriminate Hf. }
  subst d2. rewrite (applied_ingestVehicleTelemetry dto t2 d1).
  cbv zeta. fold v. rewrite Hfind. rewrite (orNull_nonempty m Hm).
  cbn [vehicle_telemetry_history insertVehicleHistory vehicle_current_status].
  split.
  - rewrite last_snoc. eexists. split; [reflexivity|].
    repeat split; reflexivity.
  - unfold vehiclePeers. cbn [vehicle_current_status].
    rewrite lookup_fmap, lookup_insert_eq. unfold vehicleStatusRow.
    match goal with |- context [match ?x with _ => _ end] => destruct x end; reflexivity.
Qed.

(** The example of the specification: M1 and V1 are linked on the empty
    store, then V1 reports. *)
Lemma reading_after_link_witness :
  vehiclePeers
    (applied (ingestVehicleTelemetry (VehicleTelemetryDto.mk "V1" 5000 80000 3000 1000)) 1000
       (applied (setDeviceMapping "M1" "V1") 0 emptyDB)) !! "V1" = Some (Some "M1").
Proof.
  apply (reading_after_link_is_tagged_with_the_meter "M1"
           (VehicleTelemetryDto.mk "V1" 5000 80000 3000 1000) 0 1000 emptyDB).
  - discriminate.
  - intros r Hr. vm_compute in Hr. inversion Hr.
Defined.

(** X11.  After the only active link of a meter is deactivated, a reading of
    that meter is stored in the history without a peer, while the meter's
    status row keeps the peer it had: the Cold Store follows the link, the
    Hot Store remembers it. *)
Theorem reading_after_unlink_is_untagged_in_history_only
    (v : string) (dto : MeterTelemetryDto.t) (t1 t2 : Z) (d : DB) :
  (forall r, r ∈ device_mapping d ->
     DeviceMapping.meterId r = MeterTelemetryDto.meterId dto ->
     DeviceMapping.isActive r = true -> DeviceMapping.vehicleId r = v) ->
  let m := MeterTelemetryDto.meterId dto in
  let d2 := applied (ingestMeterTelemetry dto) t2 (applied (deactivateMapping m v) t1 d) in
  (exists h, last (meter_telemetry_history d2) = Some h
     /\ MeterTelemetryHistory.meterId h = m
     /\ MeterTelemetryHistory.vehicleId h = None)
  /\ meterPeers d2 !! m = Some (meter_current_status d !! m ≫= MeterCurrentStatus.vehicleId).
Proof.
  intros Hactive m d2.
  set (d1 := applied (deactivateMapping m v) t1 d) in *.
  assert (Hfind : findActiveByMeter m d1 = None).
  { unfold findActiveByMeter. apply find_none_intro. intros r Hin.
    change (device_mapping d1) with (device_mapping (deactivateRows m v t1 d)) in Hin.
    unfold deactivateRows in Hin. cbn [device_mapping] in Hin.
    apply in_map_iff in Hin as (r0 & <- & Hin0).
    destruct (samePair m v r0) eqn:Hp; cbn.
    - apply andb_false_r.
    - destruct (String.eqb (DeviceMapping.meterId r0) m) eqn:Hm0; [|reflexivity].
      destruct (DeviceMapping.isActive r0) eqn:Ha; [|reflexivity].
      exfalso. apply String.eqb_eq in Hm0.
      pose proof (Hactive r0 (proj2 (list_elem_of_In _ _) Hin0) Hm0 Ha) as Hv.
      assert (samePair m v r0 = true) by (apply samePair_true; rewrite Hm0, Hv; reflexivity).
      congruence. }
  subst d2. rewrite (applied_ingestMeterTelemetry dto t2 d1).
  cbv zeta. fold m. rewrite Hfind.
  cbn [meter_telemetry_history insertMeterHistory meter_current_status].
  split.
  - rewrite last_snoc. eexists. split; [reflexivity|]. split; reflexivity.
  - unfold meterPeers. cbn [meter_current_status].
    rewrite lookup_fmap, lookup_insert_eq. unfold meterStatusRow.
    cbn [meter_current_status insertMeterHistory].
    change (meter_current_status d1) with (meter_current_status d).
    fold m. destruct (meter_current_status d !! m); reflexivity.
Qed.

(** M1 is unlinked from V1 on [linkedDB] and reports again. *)
Lemma reading_after_unlink_witness :
  meterPeers
    (applied (ingestMeterTelemetry (MeterTelemetryDto.mk "M1" 110000 24000 2000)) 2000
       (applied (deactivateMapping "M1" "V1") 1500 linkedDB)) !! "M1" = Some (Some "V1").
Proof.
  apply (reading_after_unlink_is_untagged_in_history_only "V1"
           (MeterTelemetryDto.mk "M1" 110000 24000 2000) 1500 2000 linkedDB).
  intros r Hr Hm Ha. vm_compute in Hr.
  apply list_elem_of_In in Hr. destruct Hr as [<-|[]]. reflexivity.
Defined.

(** ** Batches *)





(** X13.  Whenever a batch returns, whatever storage faults occurred, every
    reading is accounted for once: successes and failures add up to the
    number of readings, and there is one recorded reason per failure. *)
Theorem batch_result_accounts_for_every_reading
    (readings : list PolymorphicTelemetryDto.t) (w w' : World) (r : BatchResult) :
  ingestBatch readings w = (inr r, w') ->
  (success r + failed r = length readings)%nat
  /\ length (errors r) = failed r.
Proof.
  unfold ingestBatch, queryRunner_connect, queryRunner_startTransaction,
    queryRunner_commitTransaction, queryRunner_rollbackTransaction, queryRunner_release.
  unfold bind at 1. intros H.
  run_storage H; [discriminate H|].
  unfold bind at 1 in H.
  run_storage H; [discriminate H|].
  unfold finally, try_catch in H. unfold bind at 1 in H.
  match type of H with
  | context [ingestBatchLoop readings ?acc ?w0] =>
      destruct (ingestBatchLoop_counts readings acc w0) as (r0 & w0' & E & Hn & He & _)
  end.
  rewrite E in H. unfold bind at 1 in H.
  run_storage H.
  - unfold bind at 1 in H. run_storage H; discriminate H.
  - cbn in H. inversion H; subst. cbn in Hn, He. split; lia.
Qed.

(** A batch of a reading without its kwhConsumedAc and a good reading, the
    second storage call of the good reading failing. *)
Lemma batch_result_accounts_witness :
  exists r w',
    ingestBatch
      [PolymorphicTelemetryDto.mk (Some METER) (Some "M0") None (Some 24000)
         None None None None (Some 1000);
       meterReading "M1" 100000 24000 1000]
      (mkWorld emptyDB [None; None; None; None; None; Some "timeout"] 1000) = (inr r, w')
    /\ (success r + failed r = 2)%nat /\ length (errors r) = failed r.
Proof.
  eexists. eexists. split; [reflexivity|].
  eapply (batch_result_accounts_for_every_reading
           [PolymorphicTelemetryDto.mk (Some METER) (Some "M0") None (Some 24000)
              None None None None (Some 1000);
            meterReading "M1" 100000 24000 1000]
           (mkWorld emptyDB [None; None; None; None; None; Some "timeout"] 1000)).
  reflexivity.
Defined.

(** ** The daily total over a day of readings *)

Lemma orderByTimestampDesc_snoc (l : list MeterTelemetryHistory.t) (x : MeterTelemetryHistory.t) :
  orderByTimestampDesc (l ++ [x]) = insertDesc x (orderByTimestampDesc l).
Proof. unfold orderByTimestampDesc. rewrite fold_left_app. reflexivity. Qed.

Lemma historyOfMeter_insert (dto : MeterTelemetryDto.t) (ts : Z) (peer : option string)
    (t : Z) (d : DB) :
  historyOfMeter (insertMeterHistory dto ts peer t d) (MeterTelemetryDto.meterId dto)
  = historyOfMeter d (MeterTelemetryDto.meterId dto)
    ++ [MeterTelemetryHistory.mk (length (meter_telemetry_history d))
          (MeterTelemetryDto.meterId dto) (MeterTelemetryDto.kwhConsumedAc dto)
          (MeterTelemetryDto.voltage dto) ts t peer].
Proof.
  unfold historyOfMeter, insertMeterHistory. cbn [meter_telemetry_history].
  rewrite List.filter_app. cbn. rewrite String.eqb_refl. reflexivity.
Qed.

Lemma dailyTracksLatest_step (d : DB) (m : string) (k ts : Z)
    (dto : MeterTelemetryDto.t) (t : Z) :
  dailyTracksLatest d m k ts ->
  MeterTelemetryDto.meterId dto = m ->
  ts <= MeterTelemetryDto.timestamp dto ->
  DATE (MeterTelemetryDto.timestamp dto) = DATE ts ->
  dailyTracksLatest (applied (ingestMeterTelemetry dto) t d) m
    (MeterTelemetryDto.kwhConsumedAc dto) (MeterTelemetryDto.timestamp dto).
Proof.
  intros [(row & Hrow & Hdaily & Hlast) (h & Hh & Hk & Hts)] Hm Hle Hday.
  rewrite applied_ingestMeterTelemetry. cbv zeta.
  set (peer := DeviceMapping.vehicleId <$> findActiveByMeter (MeterTelemetryDto.meterId dto) d).
  set (d1 := insertMeterHistory dto (MeterTelemetryDto.timestamp dto) (orNull peer) t d).
  assert (Hsorted : orderByTimestampDesc (historyOfMeter d1 m)
            = MeterTelemetryHistory.mk (length (meter_telemetry_history d)) m
                (MeterTelemetryDto.kwhConsumedAc dto) (MeterTelemetryDto.voltage dto)
                (MeterTelemetryDto.timestamp dto) t (orNull peer)
              :: orderByTimestampDesc (historyOfMeter d m)).
  { subst d1. rewrite <- Hm. rewrite historyOfMeter_insert, orderByTimestampDesc_snoc.
    rewrite Hm. unfold latestMeterRow in Hh.
    destruct (orderByTimestampDesc (historyOfMeter d m)) as [|h0 tl]; [discriminate Hh|].
    cbn in Hh. injection Hh as ->. cbn [insertDesc MeterTelemetryHistory.timestamp].
    rewrite Hts. replace (ts <=? MeterTelemetryDto.timestamp dto) with true
      by (symmetry; apply Z.leb_le; exact Hle).
    reflexivity. }
  split.
  - cbn [meter_current_status]. rewrite Hm, lookup_insert_eq.
    eexists. split; [reflexivity|]. unfold meterStatusRow.
    change (meter_current_status d1) with (meter_current_status d).
    rewrite Hm, Hrow. cbn [MeterCurrentStatus.dailyKwhConsumedAc MeterCurrentStatus.lastReadingAt].
    split; [|reflexivity].
    rewrite Hlast, Hday, Z.ltb_irrefl.
    unfold previousKwhConsumedAc. fold (historyOfMeter d1 m). rewrite Hsorted.
    unfold latestMeterRow in Hh.
    destruct (orderByTimestampDesc (historyOfMeter d m)) as [|h0 tl]; [discriminate Hh|].
    cbn in Hh. injection Hh as ->. cbn. lia.
  - unfold latestMeterRow.
    change (historyOfMeter (mkDB (meter_telemetry_history d1) (vehicle_telemetry_history d1)
              (<[MeterTelemetryDto.meterId dto :=
                   meterStatusRow d1 dto (MeterTelemetryDto.timestamp dto) peer t]>
                 (meter_current_status d1))
              (vehicle_current_status d1) (device_mapping d1)) m)
      with (historyOfMeter d1 m).
    rewrite Hsorted. eexists. split; [reflexivity|]. split; reflexivity.
Qed.

Lemma dailyTracksLatest_first (d : DB) (dto : MeterTelemetryDto.t) (t : Z) :
  meter_current_status d !! MeterTelemetryDto.meterId dto = None ->
  historyOfMeter d (MeterTelemetryDto.meterId dto) = [] ->
  dailyTracksLatest (applied (ingestMeterTelemetry dto) t d) (MeterTelemetryDto.meterId dto)
    (MeterTelemetryDto.kwhConsumedAc dto) (MeterTelemetryDto.timestamp dto).
Proof.
  intros Hnone Hhist. rewrite applied_ingestMeterTelemetry. cbv zeta. split.
  - cbn [meter_current_status]. rewrite lookup_insert_eq.
    eexists. split; [reflexivity|].
    rewrite meterStatusRow_absent by exact Hnone. split; reflexivity.
  - unfold latestMeterRow.
    match goal with
    | |- context [historyOfMeter (mkDB (meter_telemetry_history ?d1) _ _ _ _) ?m] =>
        change (historyOfMeter (mkDB (meter_telemetry_history d1) _ _ _ _) m)
          with (historyOfMeter d1 m)
    end.
    rewrite historyOfMeter_insert, Hhist. cbn.
    eexists. split; [reflexivity|]. split; reflexivity.
Qed.

Lemma last_cons_default {A} (l : list A) :
  forall (x d : A), List.last (x :: l) d = List.last l x.
Proof.
  induction l as [|y l IH]; intros x d; [reflexivity|].
  change (List.last (x :: y :: l) d) with (List.last (y :: l) d).
  rewrite (IH y d), (IH y x). reflexivity.
Qed.

Lemma ingestMeterReadings_tracks (m : string) (rest : list (MeterTelemetryDto.t * Z)) :
  forall (d : DB) (k ts : Z) (first : MeterTelemetryDto.t * Z),
    dailyTracksLatest d m k ts ->
    MeterTelemetryDto.kwhConsumedAc (fst first) = k ->
    Forall (fun x => MeterTelemetryDto.meterId (fst x) = m) rest ->
    inOrderSameDay ts (map (fun x => MeterTelemetryDto.timestamp (fst x)) rest) = true ->
    dailyOfMeter (ingestMeterReadings rest d) m
    = Some (MeterTelemetryDto.kwhConsumedAc (fst (List.last rest first))).
Proof.
  induction rest as [|x rest IH]; intros d k ts first Htr Hk Hall Hord.
  - cbn. destruct Htr as [(row & Hrow & Hdaily & _) _].
    unfold dailyOfMeter. rewrite Hrow. cbn. rewrite Hdaily, Hk. reflexivity.
  - cbn [ingestMeterReadings fold_left].
    apply Forall_cons in Hall as [Hx Hall].
    cbn [map inOrderSameDay] in Hord.
    apply andb_prop in Hord as [Hord Hrest]. apply andb_prop in Hord as [Hle Hday].
    apply Z.leb_le in Hle. apply Z.eqb_eq in Hday.
    pose proof (dailyTracksLatest_step d m k ts (fst x) (snd x) Htr Hx Hle Hday) as Hstep.
    rewrite last_cons_default.
    exact (IH _ _ _ x Hstep eq_refl Hall Hrest).
Qed.

(** X14.  For a meter that is new to both stores, after any number of
    readings ingested in the order of their timestamps, all on one calendar
    day, the daily total dailyKwhConsumedAc equals the kwhConsumedAc of the
    last reading: each same-day update adds the difference to the previous
    history row, so the meter's total follows the latest absolute reading,
    also when a reading is lower than the one before. *)
Theorem meter_daily_total_is_the_latest_reading
    (m : string) (first : MeterTelemetryDto.t * Z) (rest : list (MeterTelemetryDto.t * Z))
    (d : DB) :
  meter_current_status d !! m = None ->
  historyOfMeter d m = [] ->
  Forall (fun x => MeterTelemetryDto.meterId (fst x) = m) (first :: rest) ->
  inOrderSameDay (MeterTelemetryDto.timestamp (fst first))
    (map (fun x => MeterTelemetryDto.timestamp (fst x)) rest) = true ->
  dailyOfMeter (ingestMeterReadings (first :: rest) d) m
  = Some (MeterTelemetryDto.kwhConsumedAc (fst (List.last rest first))).
Proof.
  intros Hnone Hhist Hall Hord. apply Forall_cons in Hall as [Hm Hall].
  cbn [ingestMeterReadings fold_left].
  apply (ingestMeterReadings_tracks m rest _
           (MeterTelemetryDto.kwhConsumedAc (fst first))
           (MeterTelemetryDto.timestamp (fst first)) first);
    [| reflexivity | exact Hall | exact Hord].
  rewrite <- Hm. apply dailyTracksLatest_first; rewrite Hm; assumption.
Qed.

(** Three readings of M1 on one day, 10, 16 and 12 kWh: the total is 12. *)
Lemma meter_daily_total_witness :
  dailyOfMeter
    (ingestMeterReadings
       [(MeterTelemetryDto.mk "M1" 100000 24000 1000, 1000);
        (MeterTelemetryDto.mk "M1" 160000 24100 3601000, 3601000);
        (MeterTelemetryDto.mk "M1" 120000 24100 7201000, 7201000)] emptyDB) "M1"
  = Some 120000.
Proof.
  apply (meter_daily_total_is_the_latest_reading "M1"
           (MeterTelemetryDto.mk "M1" 100000 24000 1000, 1000)
           [(MeterTelemetryDto.mk "M1" 160000 24100 3601000, 3601000);
            (MeterTelemetryDto.mk "M1" 120000 24100 7201000, 7201000)] emptyDB).
  - reflexivity.
  - reflexivity.
  - repeat constructor.
  - reflexivity.
Defined.

Lemma ingestVehicleReadings_sums (v : string) (rest : list (VehicleTelemetryDto.t * Z)) :
  forall (d : DB) (row : VehicleCurrentStatus.t),
    vehicle_current_status d !! v = Some row ->
    Forall (fun x => VehicleTelemetryDto.vehicleId (fst x) = v) rest ->
    noLaterDay (VehicleCurrentStatus.lastReadingAt row)
      (map (fun x => VehicleTelemetryDto.timestamp (fst x)) rest) = true ->
    dailyOfVehicle (ingestVehicleReadings rest d) v
    = Some (VehicleCurrentStatus.dailyKwhDeliveredDc row
            + clampedIncrements (VehicleCurrentStatus.kwhDeliveredDc row)
                (map (fun x => VehicleTelemetryDto.kwhDeliveredDc (fst x)) rest)).
Proof.
  induction rest as [|x rest IH]; intros d row Hrow Hall Hord.
  - cbn. unfold dailyOfVehicle. rewrite Hrow. cbn. f_equal. lia.
  - cbn [ingestVehicleReadings fold_left].
    apply Forall_cons in Hall as [Hx Hall].
    cbn [map noLaterDay] in Hord. apply andb_prop in Hord as [Hday Hrest].
    apply Z.leb_le in Hday.
    set (d' := applied (ingestVehicleTelemetry (fst x)) (snd x) d).
    assert (Hrow' : exists row',
              vehicle_current_status d' !! v = Some row'
              /\ VehicleCurrentStatus.kwhDeliveredDc row'
                 = VehicleTelemetryDto.kwhDeliveredDc (fst x)
              /\ VehicleCurrentStatus.lastReadingAt row'
                 = VehicleTelemetryDto.timestamp (fst x)
              /\ VehicleCurrentStatus.dailyKwhDeliveredDc row'
                 = VehicleCurrentStatus.dailyKwhDeliveredDc row
                   + Z.max 0 (VehicleTelemetryDto.kwhDeliveredDc (fst x)
                              - VehicleCurrentStatus.kwhDeliveredDc row)).
    { subst d'. rewrite applied_ingestVehicleTelemetry. cbv zeta.
      cbn [vehicle_current_status]. rewrite Hx, lookup_insert_eq.
      eexists. split; [reflexivity|].
      match goal with
      | |- context [vehicleStatusRow ?d0 ?dto ?ts ?p ?c ?b ?t] =>
          destruct (vehicleStatusRow_fields d0 dto ts p c b t) as (Hk & Hl & Hd)
      end.
      split; [exact Hk|]. split; [exact Hl|]. rewrite Hd.
      cbn [vehicle_current_status insertVehicleHistory]. rewrite Hx, Hrow.
      replace (DATE (VehicleCurrentStatus.lastReadingAt row)
               <? DATE (VehicleTelemetryDto.timestamp (fst x))) with false
        by (symmetry; apply Z.ltb_ge; exact Hday).
      reflexivity. }
    destruct Hrow' as (row' & Hrow' & Hk' & Hl' & Hd').
    fold (ingestVehicleReadings rest d').
    rewrite (IH d' row' Hrow' Hall) by (rewrite Hl'; exact Hrest).
    cbn [map clampedIncrements]. rewrite Hk', Hd'. f_equal. lia.
Qed.

Lemma clampedIncrements_nonDecreasing (ks : list Z) :
  forall k, nonDecreasing k ks = true -> k + clampedIncrements k ks = List.last ks k.
Proof.
  induction ks as [|k' ks IH]; intros k H; [cbn; lia|].
  cbn [nonDecreasing] in H. apply andb_prop in H as [Hle H]. apply Z.leb_le in Hle.
  cbn [clampedIncrements]. specialize (IH k' H).
  rewrite last_cons_default. lia.
Qed.

(** X15.  For a vehicle with no status row yet, after any number of readings
    none of which falls on a later calendar day than the one before it, the
    daily total dailyKwhDeliveredDc is the first reading plus every
    increase from one reading to the next, a decrease adding nothing: the
    vehicle's total is a sum of increments.  When the readings never
    decrease it is the last reading. *)
Theorem vehicle_daily_total_is_the_sum_of_increases
    (v : string) (first : VehicleTelemetryDto.t * Z)
    (rest : list (VehicleTelemetryDto.t * Z)) (d : DB) :
  vehicle_current_status d !! v = None ->
  Forall (fun x => VehicleTelemetryDto.vehicleId (fst x) = v) (first :: rest) ->
  noLaterDay (VehicleTelemetryDto.timestamp (fst first))
    (map (fun x => VehicleTelemetryDto.timestamp (fst x)) rest) = true ->
  let k1 := VehicleTelemetryDto.kwhDeliveredDc (fst first) in
  let ks := map (fun x => VehicleTelemetryDto.kwhDeliveredDc (fst x)) rest in
  dailyOfVehicle (ingestVehicleReadings (first :: rest) d) v
  = Some (k1 + clampedIncrements k1 ks)
  /\ (nonDecreasing k1 ks = true ->
      dailyOfVehicle (ingestVehicleReadings (first :: rest) d) v = Some (List.last ks k1)).
Proof.
  intros Hnone Hall Hord k1 ks. apply Forall_cons in Hall as [Hv Hall].
  cbn [ingestVehicleReadings fold_left].
  set (d' := applied (ingestVehicleTelemetry (fst first)) (snd first) d).
  fold (ingestVehicleReadings rest d').
  assert (Hrow' : exists row',
            vehicle_current_status d' !! v = Some row'
            /\ VehicleCurrentStatus.kwhDeliveredDc row' = k1
            /\ VehicleCurrentStatus.lastReadingAt row'
               = VehicleTelemetryDto.timestamp (fst first)
            /\ VehicleCurrentStatus.dailyKwhDeliveredDc row' = k1).
  { subst d'. rewrite applied_ingestVehicleTelemetry. cbv zeta.
    cbn [vehicle_current_status]. rewrite Hv, lookup_insert_eq.
    eexists. split; [reflexivity|].
    match goal with
    | |- context [vehicleStatusRow ?d0 ?dto ?ts ?p ?c ?b ?t] =>
        destruct (vehicleStatusRow_fields d0 dto ts p c b t) as (Hk & Hl & Hd)
    end.
    split; [exact Hk|]. split; [exact Hl|]. rewrite Hd.
    cbn [vehicle_current_status insertVehicleHistory]. rewrite Hv, Hnone. reflexivity. }
  destruct Hrow' as (row' & Hrow' & Hk' & Hl' & Hd').
  rewrite (ingestVehicleReadings_sums v rest d' row' Hrow' Hall)
    by (rewrite Hl'; exact Hord).
  rewrite Hk', Hd'. fold ks. split; [reflexivity|].
  intros Hnd. rewrite (clampedIncrements_nonDecreasing ks k1 Hnd). reflexivity.
Qed.

(** Three same-day readings of V1, 10, 5 and 8 kWh: the total is 13. *)
Lemma vehicle_daily_total_witness :
  dailyOfVehicle
    (ingestVehicleReadings
       [(VehicleTelemetryDto.mk "V1" 5000 100000 3000 1000, 1000);
        (VehicleTelemetryDto.mk "V1" 5100 50000 3000 2000, 2000);
        (VehicleTelemetryDto.mk "V1" 5200 80000 3000 3000, 3000)] emptyDB) "V1"
  = Some 130000.
Proof.
  apply (vehicle_daily_total_is_the_sum_of_increases "V1"
           (VehicleTelemetryDto.mk "V1" 5000 100000 3000 1000, 1000)
           [(VehicleTelemetryDto.mk "V1" 5100 50000 3000 2000, 2000);
            (VehicleTelemetryDto.mk "V1" 5200 80000 3000 3000, 3000)] emptyDB).
  - reflexivity.
  - repeat constructor.
  - reflexivity.
Defined.

(** * Properties of the status service *)

(** ** ORDER BY *)

Lemma insertSorted_perm {A} (le : A -> A -> bool) (x : A) (l : list A) :
  insertSorted le x l ≡ₚ x :: l.
Proof.
  induction l as [|y l IH]; cbn; [reflexivity|].
  destruct (le x y); [reflexivity|]. rewrite IH. apply Permutation_swap.
Qed.

Lemma sortBy_perm {A} (le : A -> A -> bool) (l : list A) : sortBy le l ≡ₚ l.
Proof.
  induction l as [|x l IH]; cbn; [reflexivity|].
  rewrite insertSorted_perm, IH. reflexivity.
Qed.

Lemma sortBy_elem {A} (le : A -> A -> bool) (l : list A) (x : A) :
  x ∈ sortBy le l <-> x ∈ l.
Proof. rewrite (sortBy_perm le l). reflexivity. Qed.

Lemma sortBy_length {A} (le : A -> A -> bool) (l : list A) :
  length (sortBy le l) = length l.
Proof. apply Permutation_length, sortBy_perm. Qed.

Section SortedBy.

Context {A : Type}.
Variable le : A -> A -> bool.
Hypothesis le_total : forall a b, le a b = false -> le b a = true.
Hypothesis le_trans : forall a b c, le a b = true -> le b c = true -> le a c = true.

Lemma insertSorted_sorted (x : A) (l : list A) :
  StronglySorted (fun a b => le a b = true) l ->
  StronglySorted (fun a b => le a b = true) (insertSorted le x l).
Proof.
  induction l as [|y l IH]; intros Hs; cbn.
  - constructor; constructor.
  - apply StronglySorted_inv in Hs as [Hs Hy].
    destruct (le x y) eqn:E.
    + constructor; [constructor; assumption|].
      constructor; [exact E|].
      eapply Forall_impl; [exact Hy|]. intros z Hz. exact (le_trans x y z E Hz).
    + constructor; [apply IH; exact Hs|].
      rewrite (insertSorted_perm le x l). constructor; [|exact Hy].
      exact (le_total x y E).
Qed.

Lemma sortBy_sorted (l : list A) :
  StronglySorted (fun a b => le a b = true) (sortBy le l).
Proof.
  induction l as [|x l IH]; cbn; [constructor|].
  apply insertSorted_sorted. exact IH.
Qed.

End SortedBy.

Lemma StronglySorted_weaken {A} (R R' : A -> A -> Prop) (l : list A) :
  (forall a b, R a b -> R' a b) -> StronglySorted R l -> StronglySorted R' l.
Proof.
  intros HR Hs. induction Hs as [|x l Hs IH Hx]; constructor; [exact IH|].
  eapply Forall_impl; [exact Hx|]. intros y. apply HR.
Qed.

Lemma sortBy_descBy_sorted {A} (key : A -> Z) (l : list A) :
  StronglySorted (fun a b => key b <= key a) (sortBy (descBy key) l).
Proof.
  eapply StronglySorted_weaken; [| apply (sortBy_sorted (descBy key))].
  - intros a b H. apply Z.leb_le. exact H.
  - unfold descBy. intros a b H. apply Z.leb_gt in H. apply Z.leb_le. lia.
  - unfold descBy. intros a b c H1 H2. apply Z.leb_le in H1, H2. apply Z.leb_le. lia.
Qed.

Lemma sortBy_ascBy_sorted {A} (key : A -> Z) (l : list A) :
  StronglySorted (fun a b => key a <= key b) (sortBy (ascBy key) l).
Proof.
  eapply StronglySorted_weaken; [| apply (sortBy_sorted (ascBy key))].
  - intros a b H. apply Z.leb_le. exact H.
  - unfold ascBy. intros a b H. apply Z.leb_gt in H. apply Z.leb_le. lia.
  - unfold ascBy. intros a b c H1 H2. apply Z.leb_le in H1, H2. apply Z.leb_le. lia.
Qed.

Lemma elem_of_meterRows (d : DB) (r : MeterCurrentStatus.t) :
  r ∈ meterRows d <-> storedMeter d r.
Proof.
  unfold meterRows, storedMeter. rewrite list_elem_of_fmap. split.
  - intros ([k r'] & -> & Hin). exists k. apply elem_of_map_to_list. exact Hin.
  - intros [k Hk]. exists (k, r). split; [reflexivity|]. apply elem_of_map_to_list. exact Hk.
Qed.

Lemma elem_of_vehicleStatusRows (d : DB) (r : VehicleCurrentStatus.t) :
  r ∈ vehicleStatusRows d <-> storedVehicle d r.
Proof.
  unfold vehicleStatusRows, storedVehicle. rewrite list_elem_of_fmap. split.
  - intros ([k r'] & -> & Hin). exists k. apply elem_of_map_to_list. exact Hin.
  - intros [k Hk]. exists (k, r). split; [reflexivity|]. apply elem_of_map_to_list. exact Hk.
Qed.

Lemma elem_of_List_filter {A} (f : A -> bool) (l : list A) (x : A) :
  x ∈ List.filter f l <-> x ∈ l /\ f x = true.
Proof. rewrite !list_elem_of_In. apply filter_In. Qed.

(** ** Reading the Hot Store *)

(** X16.  A meter reading that was ingested successfully can be read back:
    [getMeterStatus] returns the reading's values and time.  Its status is
    online while the server clock is at most five minutes past the
    reading's device timestamp and offline beyond that, so a reading that
    arrives with a device timestamp more than five minutes old shows as
    offline at once; the offline mark is made on the answer only, the
    stored row stays online. *)
Theorem ingested_meter_reads_back
    (dto : MeterTelemetryDto.t) (w w' : World) (u : unit) (clock : Z) :
  ingestMeterTelemetry dto w = (inr u, w') ->
  exists row,
    meter_current_status (db w') !! MeterTelemetryDto.meterId dto = Some row
    /\ MeterCurrentStatus.status row = online
    /\ MeterCurrentStatus.kwhConsumedAc row = MeterTelemetryDto.kwhConsumedAc dto
    /\ MeterCurrentStatus.voltage row = MeterTelemetryDto.voltage dto
    /\ MeterCurrentStatus.lastReadingAt row = MeterTelemetryDto.timestamp dto
    /\ (clock - MeterTelemetryDto.timestamp dto <= StatusService.OFFLINE_THRESHOLD_MS ->
        StatusService.getMeterStatus (db w') clock (MeterTelemetryDto.meterId dto) = inr row)
    /\ (StatusService.OFFLINE_THRESHOLD_MS < clock - MeterTelemetryDto.timestamp dto ->
        StatusService.getMeterStatus (db w') clock (MeterTelemetryDto.meterId dto)
        = inr (StatusService.markOffline row)).
Proof.
  unfold ingestMeterTelemetry, upsertMeterStatus, bind. intros H.
  run_storage H; [discriminate H|].
  run_storage H; [discriminate H|].
  run_storage H; [discriminate H|].
  inversion H; subst; clear H. cbn [db].
  unfold StatusService.getMeterStatus. cbn [meter_current_status].
  rewrite lookup_insert_eq. eexists. split; [reflexivity|].
  assert (Hrow : forall d1 peer t,
            MeterCurrentStatus.status (meterStatusRow d1 dto (MeterTelemetryDto.timestamp dto) peer t)
              = online
            /\ MeterCurrentStatus.kwhConsumedAc
                 (meterStatusRow d1 dto (MeterTelemetryDto.timestamp dto) peer t)
               = MeterTelemetryDto.kwhConsumedAc dto
            /\ MeterCurrentStatus.voltage
                 (meterStatusRow d1 dto (MeterTelemetryDto.timestamp dto) peer t)
               = MeterTelemetryDto.voltage dto
            /\ MeterCurrentStatus.lastReadingAt
                 (meterStatusRow d1 dto (MeterTelemetryDto.timestamp dto) peer t)
               = MeterTelemetryDto.timestamp dto).
  { intros d1 peer t. unfold meterStatusRow.
    destruct (meter_current_status d1 !! MeterTelemetryDto.meterId dto);
      repeat split; reflexivity. }
  match goal with
  | |- context [meterStatusRow ?d1 dto ?ts ?peer ?t] =>
      destruct (Hrow d1 peer t) as (Hs & Hk & Hv & Hl);
      set (row := meterStatusRow d1 dto ts peer t) in *
  end.
  rewrite Hl. repeat split; try assumption.
  - intros Hle. replace (StatusService.OFFLINE_THRESHOLD_MS
                         <? clock - MeterTelemetryDto.timestamp dto) with false
      by (symmetry; apply Z.ltb_ge; exact Hle).
    reflexivity.
  - intros Hlt. replace (StatusService.OFFLINE_THRESHOLD_MS
                         <? clock - MeterTelemetryDto.timestamp dto) with true
      by (symmetry; apply Z.ltb_lt; exact Hlt).
    reflexivity.
Qed.

(** M1 reports at second 1 and is read six minutes later. *)
Lemma ingested_meter_reads_back_witness :
  exists row,
    StatusService.getMeterStatus
      (db (exec (ingestMeterTelemetry (MeterTelemetryDto.mk "M1" 100000 24000 1000))
             (mkWorld emptyDB [] 1000))) 361000 "M1" = inr (StatusService.markOffline row)
    /\ MeterCurrentStatus.status row = online.
Proof.
  destruct (ingested_meter_reads_back (MeterTelemetryDto.mk "M1" 100000 24000 1000)
              (mkWorld emptyDB [] 1000)
              (exec (ingestMeterTelemetry (MeterTelemetryDto.mk "M1" 100000 24000 1000))
                    (mkWorld emptyDB [] 1000)) tt 361000)
    as (row & _ & Hs & _ & _ & _ & _ & Hoff).
  - reflexivity.
  - exists row. split; [apply Hoff; reflexivity | exact Hs].
Defined.

(** X17.  [getOnlineMeters] lists exactly the stored meter rows whose last
    reading is less than five minutes old, ordered from the most recent
    reading to the oldest, and never more rows than the table holds. *)
Theorem online_meters_are_the_fresh_rows_newest_first (d : DB) (clock : Z) :
  (forall r, (r ∈ StatusService.getOnlineMeters d clock)
             <-> storedMeter d r
                 /\ clock - MeterCurrentStatus.lastReadingAt r
                    < StatusService.OFFLINE_THRESHOLD_MS)
  /\ StronglySorted
       (fun a b => MeterCurrentStatus.lastReadingAt b <= MeterCurrentStatus.lastReadingAt a)
       (StatusService.getOnlineMeters d clock)
  /\ (length (StatusService.getOnlineMeters d clock) <= size (meter_current_status d))%nat.
Proof.
  unfold StatusService.getOnlineMeters. cbv zeta. split; [|split].
  - intros r. rewrite sortBy_elem, elem_of_List_filter, elem_of_meterRows.
    rewrite Z.ltb_lt. split; intros [Hs Hl]; (split; [exact Hs | lia]).
  - apply sortBy_descBy_sorted.
  - rewrite sortBy_length. etransitivity; [apply filter_length_le|].
    unfold meterRows. rewrite length_fmap, length_map_to_list. reflexivity.
Qed.

(** X18.  The single lookup and the online list draw the five-minute line
    differently.  For a stored meter row: if the list shows it, the lookup
    returns it as stored; if its last reading is more than five minutes
    old, the list omits it and the lookup marks it offline; if its last
    reading is exactly five minutes old, the list omits it although the
    lookup still returns it as stored. *)
Theorem online_list_and_lookup_at_the_threshold
    (d : DB) (clock : Z) (k : string) (r : MeterCurrentStatus.t) :
  meter_current_status d !! k = Some r ->
  let age := clock - MeterCurrentStatus.lastReadingAt r in
  (r ∈ StatusService.getOnlineMeters d clock ->
   StatusService.getMeterStatus d clock k = inr r)
  /\ (StatusService.OFFLINE_THRESHOLD_MS < age ->
      (r ∉ StatusService.getOnlineMeters d clock)
      /\ StatusService.getMeterStatus d clock k = inr (StatusService.markOffline r))
  /\ (age = StatusService.OFFLINE_THRESHOLD_MS ->
      (r ∉ StatusService.getOnlineMeters d clock)
      /\ StatusService.getMeterStatus d clock k = inr r).
Proof.
  intros Hk age.
  assert (Hin : (r ∈ StatusService.getOnlineMeters d clock)
                <-> age < StatusService.OFFLINE_THRESHOLD_MS).
  { unfold StatusService.getOnlineMeters. cbv zeta.
    rewrite sortBy_elem, elem_of_List_filter, elem_of_meterRows, Z.ltb_lt.
    subst age. split; [intros [_ H]; lia | intros H; split; [exists k; exact Hk | lia]]. }
  unfold StatusService.getMeterStatus. rewrite Hk. fold age.
  split; [|split].
  - intros H. apply Hin in H.
    replace (StatusService.OFFLINE_THRESHOLD_MS <? age) with false
      by (symmetry; apply Z.ltb_ge; lia).
    reflexivity.
  - intros H. split; [rewrite Hin; lia|].
    replace (StatusService.OFFLINE_THRESHOLD_MS <? age) with true
      by (symmetry; apply Z.ltb_lt; lia).
    reflexivity.
  - intros H. split; [rewrite Hin; lia|].
    rewrite H, Z.ltb_irrefl. reflexivity.
Qed.

(** M2 of [threeMetersDB], last heard at second 100, at second 400. *)
Lemma online_list_and_lookup_witness :
  exists r,
    meter_current_status threeMetersDB !! "M2" = Some r
    /\ (r ∉ StatusService.getOnlineMeters threeMetersDB 400000)
    /\ StatusService.getMeterStatus threeMetersDB 400000 "M2" = inr r.
Proof.
  eexists. split; [reflexivity|].
  eapply (online_list_and_lookup_at_the_threshold threeMetersDB 400000 "M2").
  - reflexivity.
  - reflexivity.
Defined.

Lemma length_filter_split {A} (f : A -> bool) (l : list A) :
  (length (List.filter f l) + length (List.filter (fun x => negb (f x)) l) = length l)%nat.
Proof.
  induction l as [|x l IH]; [reflexivity|]. cbn. destruct (f x); cbn; lia.
Qed.

Lemma classified_isCharging (d : DB) (r : VehicleCurrentStatus.t) :
  classified d -> r ∈ vehicleStatusRows d ->
  StatusService.isCharging r = (0 <? VehicleCurrentStatus.kwhDeliveredDc r)
  /\ isIdle r = negb (StatusService.isCharging r)
  /\ VehicleCurrentStatus.batteryTempWarning r
     = (BATTERY_TEMP_WARNING <=? VehicleCurrentStatus.batteryTemp r).
Proof.
  intros [_ Hv] Hin. apply elem_of_vehicleStatusRows in Hin as [k Hk].
  destruct (Hv k r Hk) as (_ & Hc & Hw).
  unfold StatusService.isCharging, isIdle. rewrite Hc, Hw.
  destruct (0 <? VehicleCurrentStatus.kwhDeliveredDc r); repeat split; reflexivity.
Qed.

(** X19.  On a store whose rows are classified as the service classifies
    them (every store it builds from the empty one is), the fleet overview
    agrees with the list endpoints read at the same time: onlineMeters is
    the length of the online list and offlineMeters the rest of the meters;
    chargingVehicles is the length of the charging list, idleVehicles is the
    number of rows stored as idle, and vehiclesWithWarnings is the length of
    the temperature-warning list. *)
Theorem fleet_overview_agrees_with_the_lists (d : DB) (clock : Z) :
  classified d ->
  let o := StatusService.getFleetOverview d clock in
  StatusService.onlineMeters o = Z.of_nat (length (StatusService.getOnlineMeters d clock))
  /\ StatusService.onlineMeters o + StatusService.offlineMeters o = StatusService.totalMeters o
  /\ 0 <= StatusService.offlineMeters o
  /\ StatusService.chargingVehicles o = Z.of_nat (length (StatusService.getChargingVehicles d))
  /\ StatusService.idleVehicles o
     = Z.of_nat (length (List.filter isIdle (vehicleStatusRows d)))
  /\ StatusService.vehiclesWithWarnings o
     = Z.of_nat (length (StatusService.getVehiclesWithTempWarnings d)).
Proof.
  intros Hc o. subst o. unfold StatusService.getFleetOverview. cbv zeta.
  cbn [StatusService.onlineMeters StatusService.offlineMeters StatusService.totalMeters
       StatusService.chargingVehicles StatusService.idleVehicles
       StatusService.vehiclesWithWarnings].
  unfold StatusService.getOnlineMeters, StatusService.getChargingVehicles,
    StatusService.getVehiclesWithTempWarnings. cbv zeta.
  rewrite !sortBy_length.
  split; [reflexivity|]. split; [lia|]. split.
  { pose proof (filter_length_le
                  (fun r => clock - StatusService.OFFLINE_THRESHOLD_MS
                            <? MeterCurrentStatus.lastReadingAt r) (meterRows d)). lia. }
  split; [reflexivity|]. split; [|reflexivity].
  pose proof (length_filter_split StatusService.isCharging (vehicleStatusRows d)) as Hsplit.
  assert (Hidle : List.filter isIdle (vehicleStatusRows d)
                  = List.filter (fun x => negb (StatusService.isCharging x))
                      (vehicleStatusRows d)).
  { apply filter_ext_in. intros r Hin.
    apply (classified_isCharging d r Hc). apply list_elem_of_In. exact Hin. }
  rewrite Hidle. lia.
Qed.

(** The overview of [linkedDB], whose one vehicle is charging. *)
Lemma fleet_overview_witness :
  StatusService.idleVehicles (StatusService.getFleetOverview linkedDB 2000)
  = Z.of_nat (length (List.filter isIdle (vehicleStatusRows linkedDB))).
Proof.
  apply (fleet_overview_agrees_with_the_lists linkedDB 2000).
  unfold linkedDB. apply runCalls_classified.
  split; intros k r H; vm_compute in H; discriminate H.
Defined.

(** X20.  On a store whose rows are classified as the service classifies
    them, [getChargingVehicles] lists exactly the stored vehicles whose
    latest reading delivered energy, lowest state of charge first, and
    [getVehiclesWithTempWarnings] lists exactly the stored vehicles whose
    latest battery temperature is at least 45 degrees, hottest first. *)
Theorem vehicle_lists_follow_the_latest_reading (d : DB) :
  classified d ->
  (forall r, (r ∈ StatusService.getChargingVehicles d)
             <-> storedVehicle d r /\ 0 < VehicleCurrentStatus.kwhDeliveredDc r)
  /\ StronglySorted (fun a b => VehicleCurrentStatus.soc a <= VehicleCurrentStatus.soc b)
       (StatusService.getChargingVehicles d)
  /\ (forall r, (r ∈ StatusService.getVehiclesWithTempWarnings d)
                <-> storedVehicle d r
                    /\ BATTERY_TEMP_WARNING <= VehicleCurrentStatus.batteryTemp r)
  /\ StronglySorted
       (fun a b => VehicleCurrentStatus.batteryTemp b <= VehicleCurrentStatus.batteryTemp a)
       (StatusService.getVehiclesWithTempWarnings d).
Proof.
  intros Hc.
  unfold StatusService.getChargingVehicles, StatusService.getVehiclesWithTempWarnings.
  split; [|split; [apply sortBy_ascBy_sorted | split; [|apply sortBy_descBy_sorted]]].
  - intros r. rewrite sortBy_elem, elem_of_List_filter.
    split.
    + intros [Hin Hch]. destruct (classified_isCharging d r Hc Hin) as (E & _).
      rewrite E in Hch. apply Z.ltb_lt in Hch.
      split; [apply elem_of_vehicleStatusRows; exact Hin | exact Hch].
    + intros [Hs Hk]. apply elem_of_vehicleStatusRows in Hs.
      destruct (classified_isCharging d r Hc Hs) as (E & _).
      split; [exact Hs|]. rewrite E. apply Z.ltb_lt. exact Hk.
  - intros r. rewrite sortBy_elem, elem_of_List_filter.
    split.
    + intros [Hin Hw]. destruct (classified_isCharging d r Hc Hin) as (_ & _ & E).
      rewrite E in Hw. apply Z.leb_le in Hw.
      split; [apply elem_of_vehicleStatusRows; exact Hin | exact Hw].
    + intros [Hs Hk]. apply elem_of_vehicleStatusRows in Hs.
      destruct (classified_isCharging d r Hc Hs) as (_ & _ & E).
      split; [exact Hs|]. rewrite E. apply Z.leb_le. exact Hk.
Qed.

(** The lists of the store that [sampleCalls] builds. *)
Lemma vehicle_lists_witness :
  StronglySorted (fun a b => VehicleCurrentStatus.soc a <= VehicleCurrentStatus.soc b)
    (StatusService.getChargingVehicles (runCalls sampleCalls emptyDB)).
Proof.
  apply (vehicle_lists_follow_the_latest_reading (runCalls sampleCalls emptyDB)).
  apply runCalls_classified.
  split; intros k r H; vm_compute in H; discriminate H.
Defined.

(** X21.  Only the single lookup ages a vehicle row.  For a vehicle stored
    as charging whose last reading is more than five minutes old,
    [getVehicleStatus] answers with the charging state offline, while
    [getChargingVehicles] still lists the vehicle and [getFleetOverview]
    still counts it as charging: these read the stored state and apply no
    age threshold to vehicles. *)
Theorem stale_charging_vehicle_is_offline_in_the_lookup_only
    (d : DB) (clock : Z) (k : string) (r : VehicleCurrentStatus.t) :
  vehicle_current_status d !! k = Some r ->
  VehicleCurrentStatus.chargingState r = charging ->
  StatusService.OFFLINE_THRESHOLD_MS < clock - VehicleCurrentStatus.lastReadingAt r ->
  (exists answer,
      StatusService.getVehicleStatus d clock k = inr answer
      /\ VehicleCurrentStatus.chargingState answer = cs_offline
      /\ VehicleCurrentStatus.lastReadingAt answer = VehicleCurrentStatus.lastReadingAt r)
  /\ (r ∈ StatusService.getChargingVehicles d)
  /\ 1 <= StatusService.chargingVehicles (StatusService.getFleetOverview d clock).
Proof.
  intros Hk Hch Hold.
  assert (Hin : r ∈ List.filter StatusService.isCharging (vehicleStatusRows d)).
  { apply elem_of_List_filter. split.
    - apply elem_of_vehicleStatusRows. exists k. exact Hk.
    - unfold StatusService.isCharging. rewrite Hch. reflexivity. }
  split; [|split].
  - exists (StatusService.markVehicleOffline r).
    unfold StatusService.getVehicleStatus. rewrite Hk.
    replace (StatusService.OFFLINE_THRESHOLD_MS <? clock - VehicleCurrentStatus.lastReadingAt r)
      with true by (symmetry; apply Z.ltb_lt; exact Hold).
    repeat split.
  - unfold StatusService.getChargingVehicles. apply sortBy_elem. exact Hin.
  - unfold StatusService.getFleetOverview. cbv zeta. cbn [StatusService.chargingVehicles].
    destruct (List.filter StatusService.isCharging (vehicleStatusRows d)) as [|x l].
    + apply elem_of_nil in Hin. contradiction.
    + cbn [length]. lia.
Qed.

(** V1 delivered energy at second 1 and is looked up at second 400. *)
Lemma stale_charging_vehicle_witness :
  (exists answer,
      StatusService.getVehicleStatus linkedDB 400000 "V1" = inr answer
      /\ VehicleCurrentStatus.chargingState answer = cs_offline)
  /\ StatusService.chargingVehicles (StatusService.getFleetOverview linkedDB 400000) = 1.
Proof.
  destruct (linkedDB.(vehicle_current_status) !! "V1") as [r|] eqn:Hk;
    [|vm_compute in Hk; discriminate Hk].
  assert (Hr : VehicleCurrentStatus.chargingState r = charging
               /\ VehicleCurrentStatus.lastReadingAt r = 1000).
  { vm_compute in Hk. injection Hk as <-. split; reflexivity. }
  destruct Hr as [Hch Hl].
  destruct (stale_charging_vehicle_is_offline_in_the_lookup_only linkedDB 400000 "V1" r
              Hk Hch) as ((answer & Ha & Hs & _) & _ & _).
  - rewrite Hl. reflexivity.
  - split; [exists answer; split; assumption | reflexivity].
Defined.

(** ** Pages *)

Lemma chunks_concat {A} (n : nat) :
  forall (k : nat) (l : list A),
    (length l <= k * n)%nat ->
    concat (map (fun i => take n (drop (i * n) l)) (seq 0 k)) = l.
Proof.
  induction k as [|k IH]; intros l Hlen.
  - cbn in *. destruct l; [reflexivity | cbn in Hlen; lia].
  - cbn [seq map concat]. rewrite <- seq_shift, map_map.
    etransitivity; [| apply (take_drop n l)].
    f_equal.
    etransitivity; [| apply (IH (drop n l)); rewrite length_drop; lia].
    f_equal. apply map_ext. intros i. rewrite drop_drop. reflexivity.
Qed.

Lemma ceilDiv_covers (total limit : nat) :
  (0 < limit)%nat -> (total <= StatusService.ceilDiv total limit * limit)%nat.
Proof.
  intros Hl. unfold StatusService.ceilDiv.
  pose proof (Nat.div_mod_eq (total + limit - 1) limit) as Hdm.
  pose proof (Nat.mod_upper_bound (total + limit - 1) limit) as Hub.
  nia.
Qed.

Lemma StronglySorted_strict_key {A} (key : A -> Z) (l : list A) :
  StronglySorted (fun a b => key b <= key a) l ->
  NoDup (map key l) ->
  StronglySorted (fun a b => key b < key a) l.
Proof.
  intros Hs. induction Hs as [|x l Hs IH Hx]; intros Hnd; constructor.
  - apply IH. cbn [map] in Hnd. apply NoDup_cons in Hnd as [_ Hnd]. exact Hnd.
  - cbn [map] in Hnd. apply NoDup_cons in Hnd as [Hnotin _].
    apply Forall_forall. intros y Hy.
    pose proof (proj1 (Forall_forall _ _) Hx y Hy) as Hle. cbv beta in Hle.
    assert (key x <> key y).
    { intros E. apply Hnotin. rewrite E. apply list_elem_of_In, in_map, list_elem_of_In, Hy. }
    lia.
Qed.

(** X22.  On a meter table whose rows differ in the time of their last
    reading (among equal times the query fixes no order), for any page size
    of at least one, the pages 1 to [pages] of [getAllMeters], read on one
    snapshot and put one after the other, are the whole meter table from the
    most recent reading strictly down to the oldest: every stored row is on
    exactly one place of one page.  No page holds more rows than the page
    size, [total] is the number of stored rows, and every page after the
    last one is empty. *)
Theorem meter_pages_cover_the_table_once (d : DB) (limit : positive) :
  distinctReadingTimes d ->
  let n := StatusService.pages (StatusService.getAllMeters d 1 limit) in
  StronglySorted
    (fun a b => MeterCurrentStatus.lastReadingAt b < MeterCurrentStatus.lastReadingAt a)
    (meterPages d limit n)
  /\ meterPages d limit n ≡ₚ meterRows d
  /\ (forall page,
        (length (StatusService.data (StatusService.getAllMeters d page limit))
         <= Pos.to_nat limit)%nat
        /\ StatusService.total (StatusService.getAllMeters d page limit)
           = size (meter_current_status d)
        /\ ((n < Pos.to_nat page)%nat ->
            StatusService.data (StatusService.getAllMeters d page limit) = [])).
Proof.
  intros Hdistinct n.
  assert (Hlimit : (0 < Pos.to_nat limit)%nat) by lia.
  assert (Hpages : meterPages d limit n
                   = sortBy (descBy MeterCurrentStatus.lastReadingAt) (meterRows d)).
  { unfold meterPages, StatusService.getAllMeters. cbn [StatusService.data].
    etransitivity;
      [| apply (chunks_concat (Pos.to_nat limit) n
                  (sortBy (descBy MeterCurrentStatus.lastReadingAt) (meterRows d)))].
    - f_equal. apply map_ext. intros i.
      rewrite Nat2Pos.id by lia. f_equal. f_equal. lia.
    - rewrite sortBy_length. subst n. cbn [StatusService.pages StatusService.getAllMeters].
      apply ceilDiv_covers. exact Hlimit. }
  split; [|split; [rewrite Hpages; apply sortBy_perm|]].
  { rewrite Hpages. apply StronglySorted_strict_key; [apply sortBy_descBy_sorted|].
    unfold distinctReadingTimes in Hdistinct.
    apply NoDup_ListNoDup.
    eapply Permutation_NoDup; [|apply NoDup_ListNoDup; exact Hdistinct].
    apply Permutation_map. symmetry. apply sortBy_perm. }
  intros page. unfold StatusService.getAllMeters.
  cbn [StatusService.data StatusService.total]. split; [|split].
  - rewrite length_take. lia.
  - unfold meterRows. rewrite length_fmap, length_map_to_list. reflexivity.
  - intros Hpage. rewrite drop_ge; [apply take_nil|].
    rewrite sortBy_length. subst n. cbn [StatusService.pages StatusService.getAllMeters] in Hpage.
    pose proof (ceilDiv_covers (length (meterRows d)) (Pos.to_nat limit) Hlimit). nia.
Qed.

(** Three meters in pages of two. *)
Lemma meter_pages_witness :
  distinctReadingTimes threeMetersDB
  /\ meterPages threeMetersDB 2 2 ≡ₚ meterRows threeMetersDB
  /\ StatusService.data (StatusService.getAllMeters threeMetersDB 3 2) = [].
Proof.
  assert (Hd : distinctReadingTimes threeMetersDB).
  { unfold distinctReadingTimes. apply (bool_decide_unpack _). vm_compute. exact I. }
  split; [exact Hd|].
  destruct (meter_pages_cover_the_table_once threeMetersDB 2 Hd) as (_ & Hperm & Hpage).
  split; [exact Hperm|].
  destruct (Hpage 3%positive) as (_ & _ & Hlast). apply Hlast. vm_compute. lia.
Defined.

(** * Further properties of the analytics service *)

Lemma roundTo_kwhQ (z : Z) : roundTo 10000 (kwhQ z) = kwhQ z.
Proof.
  unfold roundTo, kwhQ. f_equal.
  unfold Qfloor, Qplus, Qmult. cbn [Qnum Qden].
  symmetry. apply (Z.div_unique _ _ z 10000); lia.
Qed.

Lemma Qltb_false_le (a b : Q) : Qltb a b = false -> (b <= a)%Q.
Proof.
  unfold Qltb. intros H. apply negb_false_iff in H. apply Qle_bool_iff. exact H.
Qed.

Lemma Qltb_true_lt (a b : Q) : Qltb a b = true <-> (a < b)%Q.
Proof.
  unfold Qltb. rewrite negb_true_iff. split.
  - intros H. apply Qnot_le_lt. intros Hle. apply Qle_bool_iff in Hle. congruence.
  - intros H. destruct (Qle_bool b a) eqn:E; [|reflexivity].
    apply Qle_bool_iff in E. exfalso. exact (Qlt_not_le _ _ H E).
Qed.

Lemma Qle_bool_false_of_lt (a b : Q) : (b < a)%Q -> Qle_bool a b = false.
Proof.
  intros H. destruct (Qle_bool a b) eqn:E; [|reflexivity].
  apply Qle_bool_iff in E. exfalso. exact (Qlt_not_le _ _ H E).
Qed.

(** X23.  A vehicle that has readings in the window but no energy on either
    side (delivered sum zero, consumed sum zero) is not treated as "no
    data": with positive thresholds the summary is returned with
    efficiency ratio 0, status critical, and the hardware-fault warning as
    the first warning clause. *)
Theorem performance_of_an_idle_vehicle_is_critical
    (cfg : AnalyticsConfig) (d : DB) (now : Z) (vehicleId : string) (hours : Z)
    (meterId : option string) :
  let periodStart := now - hours * 60 * 60 * 1000 in
  let rows := vehicleRows d vehicleId periodStart now in
  rows <> [] ->
  deliveredSum rows = 0 ->
  consumedSum d vehicleId (resolveMeterId d vehicleId meterId) periodStart now = 0 ->
  (0 < efficiencyWarningThreshold cfg)%Q ->
  (0 < efficiencyCriticalThreshold cfg)%Q ->
  exists resp,
    getPerformance cfg d now vehicleId hours meterId = inr resp
    /\ PerformanceAnalyticsResponseDto.efficiencyStatus resp = critical
    /\ PerformanceAnalyticsResponseDto.efficiencyRatio resp = roundTo 10000 0
    /\ head (PerformanceAnalyticsResponseDto.warning resp)
       = Some (LikelyHardwareFault (efficiencyCriticalThreshold cfg * 100))
    /\ PerformanceAnalyticsResponseDto.readingsCount resp = length rows.
Proof.
  intros periodStart rows Hrows Hdc Hac Hw Hc.
  unfold getPerformance. cbv zeta. fold periodStart. fold rows.
  destruct rows as [|r0 rs] eqn:Erows; [contradiction|]. rewrite <- Erows in *.
  replace (Nat.eqb (length rows) 0) with false by (rewrite Erows; reflexivity).
  rewrite Hac, Hdc. rewrite !Qltb_0_kwhQ. cbn [Z.ltb Z.compare].
  assert (H92 : Qle_bool (92 # 100) 0 = false) by reflexivity.
  rewrite H92, (Qle_bool_false_of_lt _ _ Hw), (Qle_bool_false_of_lt _ _ Hc).
  cbv iota beta.
  match goal with
  | |- context [if ?c then _ else _] => destruct c
  end;
  repeat match goal with
  | |- context [if ?c then _ else _] => destruct c
  end;
  eexists; (split; [reflexivity|]); cbn; repeat split; reflexivity.
Qed.

(** The summary of V1 over [idleVehicleDB] with the default thresholds. *)
Lemma performance_of_an_idle_vehicle_witness :
  exists resp,
    getPerformance defaultConfig idleVehicleDB 3000 "V1" 24 None = inr resp
    /\ PerformanceAnalyticsResponseDto.efficiencyStatus resp = critical.
Proof.
  destruct (performance_of_an_idle_vehicle_is_critical defaultConfig idleVehicleDB 3000
              "V1" 24 None) as (resp & E & Hs & _).
  - discriminate.
  - reflexivity.
  - reflexivity.
  - reflexivity.
  - reflexivity.
  - exists resp. split; [exact E | exact Hs].
Defined.



Lemma length_filter_disjoint {A} (f g : A -> bool) (l : list A) :
  (forall x, f x = true -> g x = false) ->
  (length (List.filter f l) + length (List.filter g l) <= length l)%nat.
Proof.
  intros Hfg. induction l as [|x l IH]; [reflexivity|]. cbn.
  destruct (f x) eqn:Ef; [rewrite (Hfg x Ef)|destruct (g x)]; cbn; lia.
Qed.

(** X25.  In the fleet summary no vehicle is counted in both bands, and a
    vehicle is counted in a band only if meter rows tagged with it add up
    to more than zero in the window: vehiclesWithWarnings plus
    vehiclesCritical is at most the number of vehicles of the breakdown,
    which is at most totalVehicles; a vehicle whose meter is not tagged in
    the history is in neither count, whatever its own readings. *)
Theorem fleet_band_counts_are_bounded
    (cfg : AnalyticsConfig) (d : DB) (now hours : Z) :
  let periodStart := now - hours * 60 * 60 * 1000 in
  let dto := getFleetEfficiency cfg d now hours in
  let breakdown := efficiencyBreakdown d periodStart now in
  (FleetEfficiencyDto.vehiclesWithWarnings dto + FleetEfficiencyDto.vehiclesCritical dto
   <= length breakdown)%nat
  /\ (length breakdown <= FleetEfficiencyDto.totalVehicles dto)%nat
  /\ (forall r, In r breakdown ->
        br_totalAc r = consumedByVehicleTag d (br_vehicleId r) periodStart now
        /\ 0 < br_totalAc r
        /\ br_ratio r = (kwhQ (br_totalDc r) / kwhQ (br_totalAc r))%Q).
Proof.
  intros periodStart dto breakdown. split; [|split].
  - subst dto. unfold getFleetEfficiency. cbv zeta.
    cbn [FleetEfficiencyDto.vehiclesWithWarnings FleetEfficiencyDto.vehiclesCritical].
    fold periodStart. fold breakdown.
    apply length_filter_disjoint. intros x H.
    apply andb_prop in H as [_ H]. unfold Qltb. rewrite H. reflexivity.
  - subst dto breakdown. unfold getFleetEfficiency, efficiencyBreakdown. cbv zeta.
    cbn [FleetEfficiencyDto.totalVehicles]. fold periodStart.
    rewrite length_map. etransitivity; [apply filter_length_le|].
    rewrite length_map. reflexivity.
  - intros r Hin. subst breakdown. unfold efficiencyBreakdown in Hin. cbv zeta in Hin.
    apply in_map_iff in Hin as ([[v dc] ac] & <- & Hin).
    apply filter_In in Hin as [Hin Hpos].
    apply in_map_iff in Hin as (v0 & Heq & _). injection Heq as -> _ <-.
    cbn [br_totalAc br_vehicleId br_ratio br_totalDc] in *.
    rewrite Hpos. apply Z.ltb_lt in Hpos. repeat split; [exact Hpos].
Qed.

(** V1 at a ratio of 0.8 and V2 at 0.6: one in each band. *)
Lemma fleet_band_counts_witness :
  (FleetEfficiencyDto.vehiclesWithWarnings (getFleetEfficiency defaultConfig twoVehicleFleet 2000 24)
   + FleetEfficiencyDto.vehiclesCritical (getFleetEfficiency defaultConfig twoVehicleFleet 2000 24)
   <= 2)%nat
  /\ 0 < br_totalAc (mkBreakdownRow "V1" 80000 100000 (kwhQ 80000 / kwhQ 100000)).
Proof.
  destruct (fleet_band_counts_are_bounded defaultConfig twoVehicleFleet 2000 24)
    as (Hsum & _ & Hrows).
  split; [exact Hsum|].
  apply (Hrows (mkBreakdownRow "V1" 80000 100000 (kwhQ 80000 / kwhQ 100000))).
  left. reflexivity.
Defined.

(** ** The hourly trend *)

Lemma StronglySorted_strict (l : list Z) :
  StronglySorted Z.le l -> NoDup l -> StronglySorted Z.lt l.
Proof.
  intros Hs. induction Hs as [|x l Hs IH Hx]; intros Hnd; constructor.
  - apply IH. apply NoDup_cons in Hnd as [_ Hnd]. exact Hnd.
  - apply NoDup_cons in Hnd as [Hnotin _].
    apply Forall_forall. intros y Hy.
    pose proof (proj1 (Forall_forall _ _) Hx y Hy) as Hle.
    assert (x <> y) by (intros ->; contradiction). lia.
Qed.

Lemma trendHours_elem (rows : list VehicleTelemetryHistory.t) (h : Z) :
  h ∈ trendHours rows
  <-> exists r, r ∈ rows /\ date_trunc_hour (VehicleTelemetryHistory.timestamp r) = h.
Proof.
  unfold trendHours. rewrite sortBy_elem, list_elem_of_In, nodup_In, in_map_iff.
  split; intros (r & H1 & H2).
  - exists r. split; [apply list_elem_of_In; exact H2 | exact H1].
  - exists r. split; [exact H2 | apply list_elem_of_In; exact H1].
Qed.

Lemma trendHours_NoDup (rows : list VehicleTelemetryHistory.t) : NoDup (trendHours rows).
Proof.
  unfold trendHours. rewrite sortBy_perm. apply NoDup_ListNoDup, List.NoDup_nodup.
Qed.

Lemma trendHours_sorted (rows : list VehicleTelemetryHistory.t) :
  StronglySorted Z.lt (trendHours rows).
Proof.
  apply StronglySorted_strict; [|apply trendHours_NoDup].
  unfold trendHours. apply (sortBy_ascBy_sorted (fun h : Z => h)).
Qed.

Lemma getEfficiencyTrend_hours (d : DB) (now : Z) (vehicleId : string) (hours : Z) :
  map TrendRow.hour (getEfficiencyTrend d now vehicleId hours)
  = trendHours (vehicleRows d vehicleId (now - hours * 60 * 60 * 1000) now).
Proof.
  unfold getEfficiencyTrend. cbv zeta. rewrite map_map. cbn [TrendRow.hour]. apply map_id.
Qed.

(** X26.  The hourly trend has exactly one row per hour in which the vehicle
    has a history row inside the window, in strictly ascending order of the
    hour.  When the vehicle has no row in the window the trend is the empty
    list; unlike the device summary it does not fail with NotFound. *)
Theorem trend_has_one_row_per_active_hour_ascending
    (d : DB) (now : Z) (vehicleId : string) (hours : Z) :
  let rows := vehicleRows d vehicleId (now - hours * 60 * 60 * 1000) now in
  let trend := getEfficiencyTrend d now vehicleId hours in
  StronglySorted Z.lt (map TrendRow.hour trend)
  /\ (forall h, (h ∈ map TrendRow.hour trend)
                <-> exists r, r ∈ rows
                      /\ date_trunc_hour (VehicleTelemetryHistory.timestamp r) = h)
  /\ (trend = [] <-> rows = []).
Proof.
  intros rows trend.
  pose proof (getEfficiencyTrend_hours d now vehicleId hours) as Hh.
  fold rows in Hh. fold trend in Hh. rewrite Hh.
  split; [apply trendHours_sorted|]. split; [apply trendHours_elem|].
  split.
  - intros Hnil. rewrite Hnil in Hh. cbn [map] in Hh.
    clearbody rows. destruct rows as [|r rs]; [reflexivity|]. exfalso.
    assert (Hin : date_trunc_hour (VehicleTelemetryHistory.timestamp r)
                  ∈ trendHours (r :: rs)).
    { apply trendHours_elem. exists r. split; [left|reflexivity]. }
    rewrite <- Hh in Hin. apply elem_of_nil in Hin. exact Hin.
  - intros Hnil. subst trend. unfold getEfficiencyTrend. cbv zeta. fold rows.
    rewrite Hnil. reflexivity.
Qed.

Lemma sumQ_kwhQ (zs : list Z) : (sumQ (map kwhQ zs) == kwhQ (sumZ zs))%Q.
Proof.
  induction zs as [|z zs IH]; [reflexivity|].
  cbn [map sumQ fold_right sumZ]. fold (sumQ (map kwhQ zs)). fold (sumZ zs).
  rewrite IH. unfold kwhQ, Qeq, Qplus. cbn [Qnum Qden]. lia.
Qed.

Lemma sumZ_cons (x : Z) (l : list Z) : sumZ (x :: l) = x + sumZ l.
Proof. reflexivity. Qed.

Lemma sumZ_indicator (hs : list Z) (h x : Z) :
  NoDup hs -> h ∈ hs -> sumZ (map (fun h' => if h =? h' then x else 0) hs) = x.
Proof.
  induction hs as [|h0 hs IH]; intros Hnd Hin; [apply elem_of_nil in Hin; contradiction|].
  apply NoDup_cons in Hnd as [Hnotin Hnd]. cbn [map sumZ fold_right].
  fold (sumZ (map (fun h' => if h =? h' then x else 0) hs)).
  destruct (Z.eqb_spec h h0) as [->|Hne].
  - assert (Hz : sumZ (map (fun h' => if h0 =? h' then x else 0) hs) = 0).
    { clear IH Hin Hnd. induction hs as [|h1 hs IH]; [reflexivity|].
      cbn [map sumZ fold_right]. fold (sumZ (map (fun h' => if h0 =? h' then x else 0) hs)).
      apply not_elem_of_cons in Hnotin as [Hne Hnotin].
      rewrite (IH Hnotin). destruct (Z.eqb_spec h0 h1); [contradiction | reflexivity]. }
    rewrite Hz. lia.
  - apply elem_of_cons in Hin as [->|Hin]; [contradiction|].
    rewrite (IH Hnd Hin). lia.
Qed.

Lemma sumZ_map_add {A} (f g : A -> Z) (l : list A) :
  sumZ (map (fun a => f a + g a) l) = sumZ (map f l) + sumZ (map g l).
Proof.
  induction l as [|a l IH]; [reflexivity|]. cbn [map sumZ fold_right].
  fold (sumZ (map (fun a => f a + g a) l)). fold (sumZ (map f l)). fold (sumZ (map g l)).
  rewrite IH. lia.
Qed.

Lemma delivered_by_hour_adds_up (hs : list Z) (rows : list VehicleTelemetryHistory.t) :
  NoDup hs ->
  (forall r, r ∈ rows -> date_trunc_hour (VehicleTelemetryHistory.timestamp r) ∈ hs) ->
  sumZ (map (fun h => deliveredSum (vehicleRowsOfHour rows h)) hs) = deliveredSum rows.
Proof.
  intros Hnd. induction rows as [|r rows IH]; intros Hcover.
  - clear Hnd Hcover. induction hs as [|h hs IHh]; [reflexivity|].
    cbn [map]. rewrite sumZ_cons, IHh. reflexivity.
  - assert (Hstep : forall h,
              deliveredSum (vehicleRowsOfHour (r :: rows) h)
              = (if date_trunc_hour (VehicleTelemetryHistory.timestamp r) =? h
                 then VehicleTelemetryHistory.kwhDeliveredDc r else 0)
                + deliveredSum (vehicleRowsOfHour rows h)).
    { intros h. unfold vehicleRowsOfHour, deliveredSum. cbn [List.filter].
      destruct (date_trunc_hour (VehicleTelemetryHistory.timestamp r) =? h); reflexivity. }
    rewrite (map_ext _ _ Hstep), sumZ_map_add.
    rewrite sumZ_indicator; [| exact Hnd | apply Hcover; left].
    rewrite IH; [reflexivity|]. intros r' Hr'. apply Hcover. right. exact Hr'.
Qed.

(** X27.  The hourly buckets lose and double no energy: the delivered
    energy of the trend rows adds up to the delivered sum of the vehicle's
    rows in the window, the total the device summary reports for the same
    window. *)
Theorem trend_buckets_add_up_to_the_delivered_sum
    (d : DB) (now : Z) (vehicleId : string) (hours : Z) :
  (sumQ (map TrendRow.kwhDeliveredDc (getEfficiencyTrend d now vehicleId hours))
   == kwhQ (deliveredSum (vehicleRows d vehicleId (now - hours * 60 * 60 * 1000) now)))%Q.
Proof.
  set (rows := vehicleRows d vehicleId (now - hours * 60 * 60 * 1000) now).
  assert (Hmap : map TrendRow.kwhDeliveredDc (getEfficiencyTrend d now vehicleId hours)
                 = map kwhQ (map (fun h => deliveredSum (vehicleRowsOfHour rows h))
                               (trendHours rows))).
  { unfold getEfficiencyTrend. cbv zeta. fold rows. rewrite !map_map.
    apply map_ext. intros h. cbn [TrendRow.kwhDeliveredDc]. apply roundTo_kwhQ. }
  rewrite Hmap, sumQ_kwhQ.
  rewrite delivered_by_hour_adds_up; [reflexivity | apply trendHours_NoDup |].
  intros r Hr. apply trendHours_elem. exists r. split; [exact Hr | reflexivity].
Qed.

Lemma default_meterGroupOfHour (rows : list MeterTelemetryHistory.t) (h : Z) :
  default 0 (meterGroupOfHour rows h)
  = sumZ (map MeterTelemetryHistory.kwhConsumedAc (meterRowsOfHour rows h)).
Proof.
  unfold meterGroupOfHour, meterRowsOfHour.
  destruct (List.filter _ rows); reflexivity.
Qed.

Lemma trendMeterRows_no_meter (d : DB) (vehicleId : string) (periodStart periodEnd : Z) :
  trendMeterRows d vehicleId None periodStart periodEnd
  = meterRowsInWindow d periodStart periodEnd.
Proof. reflexivity. Qed.

(** X28.  For a vehicle with no active link the hourly trend restricts the
    meter side by nothing but the window: the consumed energy of each trend
    row is the sum over every meter row of that hour, whichever meter sent it
    and whichever vehicle it is tagged with. *)
Theorem trend_of_an_unlinked_vehicle_counts_every_meter
    (d : DB) (now : Z) (vehicleId : string) (hours : Z) (row : TrendRow.t) :
  findActiveByVehicle vehicleId d = None ->
  row ∈ getEfficiencyTrend d now vehicleId hours ->
  TrendRow.kwhConsumedAc row
  = kwhQ (sumZ (map MeterTelemetryHistory.kwhConsumedAc
                  (meterRowsOfHour (meterRowsInWindow d (now - hours * 60 * 60 * 1000) now)
                     (TrendRow.hour row)))).
Proof.
  intros Hnone Hrow. unfold getEfficiencyTrend in Hrow. cbv zeta in Hrow.
  rewrite Hnone in Hrow. cbn [fmap option_fmap option_map orNull] in Hrow.
  apply list_elem_of_fmap in Hrow as (h & -> & _).
  cbn [TrendRow.kwhConsumedAc TrendRow.hour].
  rewrite roundTo_kwhQ, default_meterGroupOfHour. reflexivity.
Qed.

Lemma trend_of_an_unlinked_vehicle_witness :
  findActiveByVehicle "V1" strangersDB = None
  /\ exists row, row ∈ getEfficiencyTrend strangersDB 5000 "V1" 1
       /\ TrendRow.kwhConsumedAc row = kwhQ 170000.
Proof.
  split; [reflexivity|].
  exists (TrendRow.mk 0 (kwhQ 170000) (kwhQ 40000) (roundTo 10000 (kwhQ 40000 / kwhQ 170000))
            (roundTo 100 (centiQ 3000 / (1 # 1)))).
  assert (Hin : TrendRow.mk 0 (kwhQ 170000) (kwhQ 40000)
                  (roundTo 10000 (kwhQ 40000 / kwhQ 170000))
                  (roundTo 100 (centiQ 3000 / (1 # 1)))
                ∈ getEfficiencyTrend strangersDB 5000 "V1" 1).
  { vm_compute. left. }
  split; [exact Hin|].
  exact (trend_of_an_unlinked_vehicle_counts_every_meter strangersDB 5000 "V1" 1 _
           eq_refl Hin).
Defined.
